(** * Medusa payment orchestration and discount conditions

    A shallow embedding of
    - [StripeBase] (packages/medusa-payment-stripe/src/helpers/stripe-base.js),
    - [PaymentProviderService] (the payment provider service of
      packages/medusa, src/unnamed/part_001),
    - [DiscountConditionService] (the discount condition service of
      packages/medusa, in the file of create-dynamic-code.ts),
    followed by the properties established about them.

    Conventions.  Amounts are integers of the smallest currency unit ([Z]).
    A JS object used as an opaque blob ([Record<string, unknown>]: payment
    data, session data, metadata, a Stripe payment intent) is a finite map
    from property names to strings; a missing property is [None].  Database
    tables are finite maps from the primary key to the row.  A method that
    can throw returns an [Outcome]; a method of an external collaborator
    (the Stripe client, a payment provider) runs against the state [W] of
    the outside world, which a database rollback does not restore.  Errors
    carry the component that raised them. *)

From stdpp Require Import gmap strings list fin_maps sorting pretty.
From Stdlib Require Import ZArith Lia.

Local Open Scope Z_scope.

Abbreviation Data := (gmap string string).
Abbreviation Time := Z (only parsing).

(** ** Errors and outcomes *)

Inductive MedusaErrorTypes :=
  | NOT_FOUND
  | INVALID_ARGUMENT
  | INVALID_DATA
  | NOT_ALLOWED
  | DUPLICATE_ERROR.

(** The error object the Stripe client rejects with: [error.code] and
    [error.payment_intent], each possibly undefined. *)
Record ApiError := {
  code : option string;
  payment_intent : option Data;
}.

(** What a payment provider can throw: the API error it received, a
    [TypeError] from reading a property of [undefined], or anything else. *)
Inductive ProviderError :=
  | Raised (error : ApiError)
  | UndefinedProperty
  | ProviderFailure (message : string).

(** What a service method can throw: its own [MedusaError], the error of
    the provider it called, or a failed query with its Postgres code. *)
Inductive Thrown :=
  | MedusaError (type : MedusaErrorTypes) (message : string)
  | FromProvider (error : ProviderError)
  | QueryFailedError (pgcode : string).

Inductive Outcome (E A : Type) :=
  | Ok (a : A)
  | Err (e : E).
Arguments Ok {E A} a.
Arguments Err {E A} e.

Definition fails_with {A} (r : Outcome Thrown A) (t : MedusaErrorTypes) : Prop :=
  match r with
  | Err (MedusaError t' _) => t' = t
  | _ => False
  end.

Definition is_Ok {E A} (r : Outcome E A) : Prop :=
  match r with Ok _ => True | Err _ => False end.

(** A state-and-exception monad for the service methods. *)
Definition M (S A : Type) : Type := S → Outcome Thrown A * S.

Definition ret {S A} (a : A) : M S A := λ σ, (Ok a, σ).
Definition throw {S A} (e : Thrown) : M S A := λ σ, (Err e, σ).
Definition bind {S A B} (m : M S A) (k : A → M S B) : M S B :=
  λ σ, match m σ with
       | (Ok a, σ') => k a σ'
       | (Err e, σ') => (Err e, σ')
       end.
Definition gets {S A} (f : S → A) : M S A := λ σ, (Ok (f σ), σ).
Definition modify {S} (f : S → S) : M S () := λ σ, (Ok (), f σ).
Definition lift {S A} (r : Outcome Thrown A) : M S A := λ σ, (r, σ).

Notation "'let!' x ':=' m 'in' k" := (bind m (λ x, k))
  (at level 10, x pattern, m at level 100, k at level 200,
   format "'[v' 'let!'  x  ':='  m  'in' '/' k ']'").

(** ** Models *)

Inductive PaymentSessionStatus :=
  | AUTHORIZED
  | PENDING
  | REQUIRES_MORE
  | ERROR
  | CANCELED.

Global Instance PaymentSessionStatus_eq_dec : EqDecision PaymentSessionStatus.
Proof. solve_decision. Defined.

Module Payment.
Record t := mk {
  id : string;
  provider_id : string;
  order_id : option string;
  amount : Z;
  amount_refunded : Z;
  data : Data;
  captured_at : option Time;
  canceled_at : option Time;
  created_at : Time;
}.

Definition with_data (d : Data) (p : t) : t :=
  mk (id p) (provider_id p) (order_id p) (amount p) (amount_refunded p) d
     (captured_at p) (canceled_at p) (created_at p).
Definition with_amount_refunded (r : Z) (p : t) : t :=
  mk (id p) (provider_id p) (order_id p) (amount p) r (data p)
     (captured_at p) (canceled_at p) (created_at p).
Definition with_captured_at (c : option Time) (p : t) : t :=
  mk (id p) (provider_id p) (order_id p) (amount p) (amount_refunded p)
     (data p) c (canceled_at p) (created_at p).
End Payment.

Module PaymentSession.
Record t := mk {
  id : string;
  cart_id : option string;
  provider_id : string;
  is_selected : option bool;
  status : PaymentSessionStatus;
  data : Data;
  amount : option Z;
  payment_authorized_at : option Time;
}.

Definition with_data (d : Data) (s : t) : t :=
  mk (id s) (cart_id s) (provider_id s) (is_selected s) (status s) d
     (amount s) (payment_authorized_at s).
Definition with_status (st : PaymentSessionStatus) (s : t) : t :=
  mk (id s) (cart_id s) (provider_id s) (is_selected s) st (data s)
     (amount s) (payment_authorized_at s).
Definition with_payment_authorized_at (a : option Time) (s : t) : t :=
  mk (id s) (cart_id s) (provider_id s) (is_selected s) (status s) (data s)
     (amount s) a.
End PaymentSession.

(** A refund as a method builds it for [create].  Of [order_id] and
    [payment_id] it names the one that the method knows; the table has the
    column [payment_id] only where order editing is enabled. *)
Module Refund.
Record t := mk {
  order_id : option string;
  payment_id : option string;
  amount : Z;
  reason : string;
  note : option string;
}.
End Refund.

Module Customer.
Record t := mk {
  id : option string;
  metadata : option Data;
}.
End Customer.

(** The cart of the legacy API ([object === "cart"]). *)
Module Cart.
Record t := mk {
  id : string;
  email : option string;
  context : Data;
  shipping_address : option Data;
  shipping_methods : list Data;
  total : option Z;
  region_currency_code : option string;
  customer : option Customer.t;
}.
End Cart.

Module PaymentSessionInput.
Record cart_t := mk_cart {
  cart_context : Data;
  cart_id : string;
  cart_email : option string;
  cart_shipping_address : option Data;
  cart_shipping_methods : list Data;
}.

Record t := mk {
  provider_id : string;
  cart : option cart_t;
  customer : option Customer.t;
  currency_code : option string;
  amount : option Z;
  resource_id : option string;
}.
End PaymentSessionInput.

Module PaymentContext.
Record t := mk {
  cart : option PaymentSessionInput.cart_t;
  amount : option Z;
  currency_code : option string;
  collected_data : Data;
  id : option string;
  email : option string;
  context : option Data;
  customer : option Customer.t;
  resource_id : option string;
}.
End PaymentContext.

(** [collected_data] of a provider's response: the customer metadata the
    provider collected, if any. *)
Record CollectedData := {
  collected_customer : option Data;
}.

(** What [createPayment] of a provider resolves with: a
    [PaymentSessionResponse], or (older providers) the bare session data,
    which has neither [session_data] nor [collected_data]. *)
Inductive PaymentResponse :=
  | SessionResponse (session_data : Data) (collected_data : option CollectedData)
  | BareSessionData (data : Data).

(** ** StripeBase *)

Module StripeBase.
Section StripeBase.
Context {W : Type}.

(** The part of the Stripe client ([this.stripe_]) that the embedded
    methods call.  Each call may change the state of Stripe. *)
Record Stripe := {
  paymentIntents_retrieve : option string → W → Outcome ApiError Data * W;
  paymentIntents_capture : option string → W → Outcome ApiError Data * W;
  refunds_create : Z → option string → W → Outcome ApiError () * W;
}.

Variable stripe_ : Stripe.

(** The [switch] of [getStatus] on [paymentIntent.status]. *)
Definition statusOf (status : option string) : PaymentSessionStatus :=
  if decide (status = Some "requires_payment_method"
             ∨ status = Some "requires_confirmation"
             ∨ status = Some "processing") then PENDING
  else if decide (status = Some "requires_action") then REQUIRES_MORE
  else if decide (status = Some "canceled") then CANCELED
  else if decide (status = Some "requires_capture"
                  ∨ status = Some "succeeded") then AUTHORIZED
  else PENDING.

Definition getStatus (paymentData : Data) (w : W)
  : Outcome ProviderError PaymentSessionStatus * W :=
  let id := paymentData !! "id" in
  match paymentIntents_retrieve stripe_ id w with
  | (Ok paymentIntent, w') => (Ok (statusOf (paymentIntent !! "status")), w')
  | (Err error, w') => (Err (Raised error), w')
  end.

Definition authorizePayment (paymentSession : PaymentSession.t) (context : Data) (w : W)
  : Outcome ProviderError (PaymentSessionStatus * Data) * W :=
  match getStatus (PaymentSession.data paymentSession) w with
  | (Ok stat, w') => (Ok (stat, PaymentSession.data paymentSession), w')
  | (Err error, w') => (Err error, w')
  end.

Definition capturePayment (payment : Payment.t) (w : W)
  : Outcome ProviderError Data * W :=
  let id := Payment.data payment !! "id" in
  match paymentIntents_capture stripe_ id w with
  | (Ok intent, w') => (Ok intent, w')
  | (Err error, w') =>
      if decide (code error = Some "payment_intent_unexpected_state") then
        match payment_intent error with
        | None => (Err UndefinedProperty, w')
        | Some payment_intent =>
            if decide (payment_intent !! "status" = Some "succeeded")
            then (Ok payment_intent, w')
            else (Err (Raised error), w')
        end
      else (Err (Raised error), w')
  end.

(** [Math.round] is the identity on the integer amounts of this model. *)
Definition refundPayment (payment : Payment.t) (amountToRefund : Z) (w : W)
  : Outcome ProviderError Data * W :=
  let id := Payment.data payment !! "id" in
  match refunds_create stripe_ amountToRefund id w with
  | (Ok _, w') => (Ok (Payment.data payment), w')
  | (Err error, w') => (Err (Raised error), w')
  end.
End StripeBase.
Arguments Stripe : clear implicits.
End StripeBase.

(** ** The payment provider interface *)

Module AbstractPaymentService.
Record t {W : Type} := {
  createPayment : PaymentContext.t → W → Outcome ProviderError PaymentResponse * W;
  createPaymentNew : PaymentContext.t → W → Outcome ProviderError PaymentResponse * W;
  authorizePayment :
    PaymentSession.t → Data → W → Outcome ProviderError (PaymentSessionStatus * Data) * W;
  capturePayment : Payment.t → W → Outcome ProviderError Data * W;
  refundPayment : Payment.t → Z → W → Outcome ProviderError Data * W;
}.
Arguments t : clear implicits.
End AbstractPaymentService.

(** ** PaymentProviderService *)

Module FindConfig.
Record t := {
  skip : nat;
  take : nat;
  order_created_at_DESC : bool;
}.
End FindConfig.

Module PaymentProviderService.

(** The tables the service reads and writes, the id sequence of the rows it
    creates, and the outside world of the providers. *)
Record State {W : Type} := mkState {
  payments : gmap string Payment.t;
  refunds : list Refund.t;
  payment_sessions : gmap string PaymentSession.t;
  customers : gmap string Data;
  id_seq : nat;
  world : W;
}.
Arguments State : clear implicits.
Arguments mkState {W}.

(** The argument of [saveSession]. *)
Record SessionData := {
  cartId : option string;
  amount : option Z;
  sessionData : Data;
  isSelected : option bool;
  status : PaymentSessionStatus;
}.

(** The arguments of [createSession]: a provider id with a cart, or a
    [PaymentSessionInput] alone. *)
Inductive CreateSessionArgs :=
  | WithCart (providerId : string) (cart : Cart.t)
  | WithInput (sessionInput : PaymentSessionInput.t).

Section PaymentProviderService.
Context {W : Type}.

(** [this.container_]: the providers registered under [pp_<id>] and
    [systemPaymentProviderService].  It is the cradle of the dependency
    container: reading a key nothing is registered under throws. *)
Variable container_ : gmap string (AbstractPaymentService.t W).
(** [this.featureFlagRouter_] and [OrderEditingFeatureFlag.key]. *)
Variable featureFlagRouter_ : gmap string bool.
Variable OrderEditingFeatureFlag_key : string.

Abbreviation St := (State W).

(** Modelled from the spec: [isFeatureEnabled] of FlagRouter
    (utils/flag-router.ts, not in src), the "feature-flag lookup"; a flag
    that is not set is disabled. *)
Definition isFeatureEnabled (key : string) : bool :=
  default false (featureFlagRouter_ !! key).

Definition with_world (w : W) (σ : St) : St :=
  mkState (payments σ) (refunds σ) (payment_sessions σ) (customers σ) (id_seq σ) w.

(** Modelled from the spec: [atomicPhase_] of TransactionBaseService
    (interfaces/transaction-base-service.ts, not in src).  The work runs in
    one transaction: "every mutating operation either fully commits or has
    no effect", and an error "abort[s] the transaction and propagate[s]
    unchanged".  What the providers did outside the database stays done. *)
Definition settle {A} (σ : St) (r : Outcome Thrown A * St) : Outcome Thrown A * St :=
  match r with
  | (Ok a, σ') => (Ok a, σ')
  | (Err e, σ') => (Err e, with_world (world σ') σ)
  end.
Definition atomicPhase_ {A} (work : M St A) : M St A :=
  λ σ, settle σ (work σ).

(** A call of a provider method, [await provider.withTransaction(m).f(..)]. *)
Definition call {A} (f : W → Outcome ProviderError A * W) : M St A :=
  λ σ, match f (world σ) with
       | (Ok a, w) => (Ok a, with_world w σ)
       | (Err e, w) => (Err (FromProvider e), with_world w σ)
       end.

(** *** Repositories *)

(** [order: { created_at: "DESC" }]: [p] comes no later than [q]. *)
Definition created_at_DESC (p q : Payment.t) : Prop :=
  Payment.created_at q ≤ Payment.created_at p.
#[global] Instance created_at_DESC_dec : RelDecision created_at_DESC.
Proof. intros p q. unfold created_at_DESC. apply _. Defined.

(** [find] of the payment repository on [buildQuery({ id: ids }, config)]:
    the rows whose id is one of [ids], in the order of the config, after
    its [skip] and up to its [take]. *)
Definition paymentRepo_find (ids : list string) (config : FindConfig.t) (σ : St)
  : list Payment.t :=
  let rows := filter (λ p, Payment.id p ∈ ids) (map_to_list (payments σ)).*2 in
  let ordered :=
    if FindConfig.order_created_at_DESC config
    then merge_sort created_at_DESC rows
    else rows in
  firstn (FindConfig.take config) (skipn (FindConfig.skip config) ordered).

Definition paymentRepo_save (payment : Payment.t) (σ : St) : St :=
  mkState (<[Payment.id payment := payment]> (payments σ)) (refunds σ)
          (payment_sessions σ) (customers σ) (id_seq σ) (world σ).

Definition refundRepo_save (created : Refund.t) (σ : St) : St :=
  mkState (payments σ) (refunds σ ++ [created]) (payment_sessions σ)
          (customers σ) (id_seq σ) (world σ).

Definition sessionRepo_save (session : PaymentSession.t) (σ : St) : St :=
  mkState (payments σ) (refunds σ)
          (<[PaymentSession.id session := session]> (payment_sessions σ))
          (customers σ) (id_seq σ) (world σ).

(** The code Postgres gives to the violation of a unique key. *)
Definition unique_violation : string := "23505".

(** [save] of a created session.  The table of the payment sessions
    (models/payment-session.ts, not in src) holds at most one session of a
    provider for a cart: the insert of a second one is refused by the
    unique key on [cart_id] and [provider_id], which a row without cart
    never violates. *)
Definition sessionRepo_taken (created : PaymentSession.t) (σ : St) : Prop :=
  Exists (λ row, is_Some (PaymentSession.cart_id created)
                 ∧ PaymentSession.cart_id row = PaymentSession.cart_id created
                 ∧ PaymentSession.provider_id row = PaymentSession.provider_id created)
         (map_to_list (payment_sessions σ)).*2.
#[global] Instance sessionRepo_taken_dec created σ : Decision (sessionRepo_taken created σ).
Proof. unfold sessionRepo_taken. apply _. Defined.

Definition sessionRepo_insert (created : PaymentSession.t) : M St () :=
  λ σ, if decide (sessionRepo_taken created σ)
       then (Err (QueryFailedError unique_violation), σ)
       else (Ok (), sessionRepo_save created σ).

(** The id a created session row is saved under: the next of the sequence. *)
Definition sessionRepo_nextId : M St string :=
  λ σ, (Ok ("ps_" +:+ pretty (id_seq σ)),
        mkState (payments σ) (refunds σ) (payment_sessions σ) (customers σ)
                (S (id_seq σ)) (world σ)).

(** Modelled from the spec: [update] of CustomerService
    (services/customer.ts, not in src), "retrieve/update customer,
    including metadata merge"; an unknown customer is [NotFound]. *)
Definition customerService_update (customerId : string) (metadata : Data) : M St () :=
  λ σ, match customers σ !! customerId with
       | None =>
           (Err (MedusaError NOT_FOUND
                   ("Customer with " +:+ customerId +:+ " was not found")), σ)
       | Some old =>
           (Ok (), mkState (payments σ) (refunds σ) (payment_sessions σ)
                     (<[customerId := metadata ∪ old]> (customers σ))
                     (id_seq σ) (world σ))
       end.

(** *** Lookups *)

Definition retrievePayment (id : string) : M St Payment.t :=
  λ σ, match payments σ !! id with
       | Some payment => (Ok payment, σ)
       | None =>
           (Err (MedusaError NOT_FOUND ("Payment with " +:+ id +:+ " was not found")), σ)
       end.

Definition listPayments_defaultConfig : FindConfig.t :=
  {| FindConfig.skip := 0; FindConfig.take := 50;
     FindConfig.order_created_at_DESC := true |}.

Definition listPayments (selector_id : list string) (config : FindConfig.t) (σ : St)
  : list Payment.t :=
  paymentRepo_find selector_id config σ.

Definition retrieveSession (id : string) : M St PaymentSession.t :=
  λ σ, match payment_sessions σ !! id with
       | Some session => (Ok session, σ)
       | None =>
           (Err (MedusaError NOT_FOUND
                   ("Payment Session with " +:+ id +:+ " was not found")), σ)
       end.

Definition retrieveProvider (providerId : string)
  : Outcome Thrown (AbstractPaymentService.t W) :=
  let key :=
    if decide (providerId = "system") then "systemPaymentProviderService"
    else "pp_" +:+ providerId in
  match container_ !! key with
  | Some provider => Ok provider
  | None =>
      Err (MedusaError NOT_FOUND
             ("Could not find a payment provider with id: " +:+ providerId))
  end.

(** *** Sessions *)

Definition buildCreatePaymentContext (cartOrData : Cart.t + PaymentSessionInput.t)
  : PaymentContext.t :=
  match cartOrData with
  | inl cart =>
      {| PaymentContext.cart :=
           Some (PaymentSessionInput.mk_cart (Cart.context cart) (Cart.id cart)
                   (Cart.email cart) (Cart.shipping_address cart)
                   (Cart.shipping_methods cart));
         PaymentContext.amount := Cart.total cart;
         PaymentContext.currency_code := Cart.region_currency_code cart;
         PaymentContext.collected_data :=
           default ∅ (Cart.customer cart ≫= Customer.metadata);
         (* Object.assign(context, cart) *)
         PaymentContext.id := Some (Cart.id cart);
         PaymentContext.email := Cart.email cart;
         PaymentContext.context := Some (Cart.context cart);
         PaymentContext.customer := Cart.customer cart;
         PaymentContext.resource_id := None |}
  | inr data =>
      let cart := PaymentSessionInput.cart data in
      {| PaymentContext.cart := cart;
         PaymentContext.amount := PaymentSessionInput.amount data;
         PaymentContext.currency_code := PaymentSessionInput.currency_code data;
         PaymentContext.collected_data :=
           default ∅ (PaymentSessionInput.customer data ≫= Customer.metadata);
         (* Object.assign(context, cart) *)
         PaymentContext.id := PaymentSessionInput.cart_id <$> cart;
         PaymentContext.email := cart ≫= PaymentSessionInput.cart_email;
         PaymentContext.context := PaymentSessionInput.cart_context <$> cart;
         PaymentContext.customer := None;
         PaymentContext.resource_id := None |}
  end.

(** [create] takes from [toCreate] the properties of the entity.  The
    entity has [is_selected] and no [isSelected], and [toCreate] has no
    [amount]: neither [data.isSelected] nor [data.amount] reaches the row. *)
Definition saveSession (providerId : string) (data : SessionData)
  : M St PaymentSession.t :=
  if bool_decide (amount data ≠ None)
     && negb (isFeatureEnabled OrderEditingFeatureFlag_key)
  then
    throw (MedusaError INVALID_ARGUMENT
      "Unable to save the payment session with an amoutn. The feature flag order edit is not enabled.")
  else
    let! id := sessionRepo_nextId in
    let created :=
      {| PaymentSession.id := id;
         PaymentSession.cart_id := cartId data;
         PaymentSession.provider_id := providerId;
         PaymentSession.data := sessionData data;
         PaymentSession.is_selected := None;
         PaymentSession.status := status data;
         PaymentSession.amount := None;
         PaymentSession.payment_authorized_at := None |} in
    let! _ := sessionRepo_insert created in
    ret created.

Definition responseSessionData (paymentResponse : PaymentResponse) : Data :=
  match paymentResponse with
  | SessionResponse session_data _ => session_data
  | BareSessionData data => data
  end.

Definition processCollectedData (customer_id : option string)
    (paymentResponse : PaymentResponse) : M St () :=
  match paymentResponse with
  | SessionResponse _ (Some collected_data) =>
      match collected_customer collected_data, customer_id with
      | Some customer, Some id =>
          if decide (id = "") then ret ()
          else customerService_update id customer
      | _, _ => ret ()
      end
  | _ => ret ()
  end.

Definition createSession (args : CreateSessionArgs) : M St PaymentSession.t :=
  atomicPhase_ (
    let providerId :=
      match args with
      | WithCart providerId _ => providerId
      | WithInput sessionInput => PaymentSessionInput.provider_id sessionInput
      end in
    let data :=
      match args with
      | WithCart _ cart => inl cart
      | WithInput sessionInput => inr sessionInput
      end in
    let! provider := lift (retrieveProvider providerId) in
    let context := buildCreatePaymentContext data in
    let! paymentResponse :=
      call (AbstractPaymentService.createPayment provider context) in
    let sessionData := responseSessionData paymentResponse in
    let! _ :=
      processCollectedData (PaymentContext.customer context ≫= Customer.id)
        paymentResponse in
    saveSession providerId
      {| cartId := PaymentContext.id context;
         sessionData := sessionData;
         status := PENDING;
         amount := None;
         isSelected := None |}).

(** [{ ...sessionInput, collected_data: sessionInput.customer?.metadata ?? {} }] *)
Definition contextOfInput (sessionInput : PaymentSessionInput.t) : PaymentContext.t :=
  {| PaymentContext.cart := PaymentSessionInput.cart sessionInput;
     PaymentContext.amount := PaymentSessionInput.amount sessionInput;
     PaymentContext.currency_code := PaymentSessionInput.currency_code sessionInput;
     PaymentContext.collected_data :=
       default ∅ (PaymentSessionInput.customer sessionInput ≫= Customer.metadata);
     PaymentContext.id := None;
     PaymentContext.email := None;
     PaymentContext.context := None;
     PaymentContext.customer := PaymentSessionInput.customer sessionInput;
     PaymentContext.resource_id := PaymentSessionInput.resource_id sessionInput |}.

Definition createSessionNew (sessionInput : PaymentSessionInput.t)
  : M St PaymentSession.t :=
  atomicPhase_ (
    let! provider :=
      lift (retrieveProvider (PaymentSessionInput.provider_id sessionInput)) in
    let context := contextOfInput sessionInput in
    let! paymentResponse :=
      call (AbstractPaymentService.createPaymentNew provider context) in
    let sessionData := responseSessionData paymentResponse in
    let! _ :=
      processCollectedData (PaymentSessionInput.customer sessionInput ≫= Customer.id)
        paymentResponse in
    saveSession (PaymentSessionInput.provider_id sessionInput)
      {| sessionData := sessionData;
         amount := PaymentSessionInput.amount sessionInput;
         status := PENDING;
         cartId := None;
         isSelected := None |}).

(** [now] is the instant [new Date()] reads. *)
Definition authorizePayment (paymentSession : PaymentSession.t) (context : Data)
    (now : Time) : M St (option PaymentSession.t) :=
  atomicPhase_ (λ σ,
    match retrieveSession (PaymentSession.id paymentSession) σ with
    | (Err _, _) => (Ok None, σ)
    | (Ok session, σ) =>
        (let! provider :=
           lift (retrieveProvider (PaymentSession.provider_id paymentSession)) in
         let! (status, data) :=
           call (AbstractPaymentService.authorizePayment provider session context) in
         let session := PaymentSession.with_data data session in
         let session := PaymentSession.with_status status session in
         let session :=
           if isFeatureEnabled OrderEditingFeatureFlag_key
              && bool_decide (status = AUTHORIZED)
           then PaymentSession.with_payment_authorized_at (Some now) session
           else session in
         let! _ := modify (sessionRepo_save session) in
         ret (Some session)) σ
    end).

(** *** Payments *)

Definition capturePayment (paymentObj_id : string) (now : Time) : M St Payment.t :=
  atomicPhase_ (
    let! payment := retrievePayment paymentObj_id in
    let! provider := lift (retrieveProvider (Payment.provider_id payment)) in
    let! data := call (AbstractPaymentService.capturePayment provider payment) in
    let payment := Payment.with_data data payment in
    let payment := Payment.with_captured_at (Some now) payment in
    let! _ := modify (paymentRepo_save payment) in
    ret payment).

(** The [reduce] of [refundPayment]: the refundable balance, and the
    [order_id] it leaves behind (that of the last payment). *)
Definition refundable_reduce (payments : list Payment.t) : Z * option string :=
  foldl (λ '(acc, order_id) next,
           match Payment.captured_at next with
           | Some _ =>
               (acc + (Payment.amount next - Payment.amount_refunded next),
                Payment.order_id next)
           | None => (acc, Payment.order_id next)
           end)
        (0, None) payments.

(** The [while (paymentToRefund)] loop of [refundPayment].  [paymentToRefund]
    is an element of [payments], kept with its index: the loop updates it in
    place.  [None] is returned when [fuel] iterations did not suffice. *)
Fixpoint refund_loop (fuel : nat) (paymentToRefund : option (nat * Payment.t))
    (payments : list Payment.t) (balance : Z) (used : list string) (σ : St)
  : option (Outcome Thrown (list Payment.t) * St) :=
  match paymentToRefund with
  | None => Some (Ok payments, σ)
  | Some (i, paymentToRefund) =>
      match fuel with
      | O => None
      | S fuel =>
          let currentRefundable :=
            Payment.amount paymentToRefund - Payment.amount_refunded paymentToRefund in
          let refundAmount := Z.min currentRefundable balance in
          match (let! provider :=
                   lift (retrieveProvider (Payment.provider_id paymentToRefund)) in
                 call (AbstractPaymentService.refundPayment provider
                         paymentToRefund refundAmount)) σ with
          | (Err e, σ) => Some (Err e, σ)
          | (Ok data, σ) =>
              let paymentToRefund := Payment.with_data data paymentToRefund in
              let paymentToRefund :=
                Payment.with_amount_refunded
                  (Payment.amount_refunded paymentToRefund + refundAmount)
                  paymentToRefund in
              let payments := <[i := paymentToRefund]> payments in
              let σ := paymentRepo_save paymentToRefund σ in
              let balance := balance - refundAmount in
              let used := used ++ [Payment.id paymentToRefund] in
              let next :=
                if decide (0 < balance) then
                  list_find (λ payment,
                      0 < Payment.amount payment - Payment.amount_refunded payment
                      ∧ Payment.id payment ∉ used) payments
                else None in
              refund_loop fuel next payments balance used σ
          end
      end
  end.

Definition refundPayment (payObjs : list Payment.t) (amount : Z) (reason : string)
    (note : option string) (σ : St) : option (Outcome Thrown Refund.t * St) :=
  settle σ <$> (
    let payments := listPayments (Payment.id <$> payObjs) listPayments_defaultConfig σ in
    let '(refundable, order_id) := refundable_reduce payments in
    if decide (refundable < amount) then
      Some (Err (MedusaError NOT_ALLOWED
                   "Refund amount is greater that the refundable amount"), σ)
    else
      let balance := amount in
      let used := [] in
      let paymentToRefund :=
        list_find (λ payment,
          0 < Payment.amount payment - Payment.amount_refunded payment) payments in
      match refund_loop (S (length payments)) paymentToRefund payments balance used σ with
      | None => None
      | Some (Err e, σ) => Some (Err e, σ)
      | Some (Ok _, σ) =>
          let toCreate :=
            {| Refund.order_id := order_id;
               Refund.payment_id := None;
               Refund.amount := amount;
               Refund.reason := reason;
               Refund.note := note |} in
          Some (Ok toCreate, refundRepo_save toCreate σ)
      end).

Definition refundFromPayment (payment : Payment.t) (amount : Z) (reason : string)
    (note : option string) : M St Refund.t :=
  atomicPhase_ (
    let refundable := Payment.amount payment - Payment.amount_refunded payment in
    if decide (refundable < amount) then
      throw (MedusaError NOT_ALLOWED
               "Refund amount is greater that the refundable amount")
    else
      let! provider := lift (retrieveProvider (Payment.provider_id payment)) in
      let! data :=
        call (AbstractPaymentService.refundPayment provider payment amount) in
      let payment := Payment.with_data data payment in
      let payment :=
        Payment.with_amount_refunded (Payment.amount_refunded payment + amount)
          payment in
      let! _ := modify (paymentRepo_save payment) in
      let toCreate :=
        {| Refund.payment_id := Some (Payment.id payment);
           Refund.order_id := None;
           Refund.amount := amount;
           Refund.reason := reason;
           Refund.note := note |} in
      let! _ := modify (refundRepo_save toCreate) in
      ret toCreate).
End PaymentProviderService.
End PaymentProviderService.

(** ** DiscountConditionService *)

Module DiscountConditionService.

Inductive DiscountConditionType :=
  | PRODUCTS
  | PRODUCT_TYPES
  | PRODUCT_COLLECTIONS
  | PRODUCT_TAGS
  | CUSTOMER_GROUPS.

Inductive DiscountConditionOperator :=
  | IN
  | NOT_IN.

#[global] Instance DiscountConditionType_eq_dec : EqDecision DiscountConditionType.
Proof. solve_decision. Defined.
#[global] Instance DiscountConditionOperator_eq_dec : EqDecision DiscountConditionOperator.
Proof. solve_decision. Defined.

Record UpsertDiscountConditionInput := {
  rule_id : option string;
  id : option string;
  operator : option DiscountConditionOperator;
  products : option (list string);
  product_collections : option (list string);
  product_types : option (list string);
  product_tags : option (list string);
  customer_groups : option (list string);
}.

Record ResolvedConditionType := {
  type : DiscountConditionType;
  resource_ids : list string;
}.

Module DiscountCondition.
Record t := mk {
  id : string;
  type : DiscountConditionType;
  operator : option DiscountConditionOperator;
  discount_rule_id : string;
}.
End DiscountCondition.

Module Discount.
Record t := mk {
  id : string;
  rule_id : string;
}.
End Discount.

(** One row of a join table between conditions and resources. *)
Record ConditionResource := {
  resource_type : DiscountConditionType;
  condition_id : string;
  resource_id : string;
}.

#[global] Instance ConditionResource_eq_dec : EqDecision ConditionResource.
Proof. solve_decision. Defined.

Record State := mkState {
  discount_conditions : gmap string DiscountCondition.t;
  condition_resources : list ConditionResource;
  discounts : gmap string Discount.t;
  id_seq : nat;
}.

Section DiscountConditionService.
(** [PostgresError.DUPLICATE_ERROR] (utils/exception-formatter.ts). *)
Variable PostgresError_DUPLICATE_ERROR : string.

(** [!!list?.length] *)
Definition nonEmpty (l : option (list string)) : bool :=
  match l with
  | Some (_ :: _) => true
  | _ => false
  end.

(** [data.products!] *)
Definition unwrap (l : option (list string)) : list string := default [] l.

Definition resolveConditionType_ (data : UpsertDiscountConditionInput)
  : option ResolvedConditionType :=
  if nonEmpty (products data) then
    Some {| type := PRODUCTS; resource_ids := unwrap (products data) |}
  else if nonEmpty (product_collections data) then
    Some {| type := PRODUCT_COLLECTIONS;
            resource_ids := unwrap (product_collections data) |}
  else if nonEmpty (product_types data) then
    Some {| type := PRODUCT_TYPES; resource_ids := unwrap (product_types data) |}
  else if nonEmpty (product_tags data) then
    Some {| type := PRODUCT_TAGS; resource_ids := unwrap (product_tags data) |}
  else if nonEmpty (customer_groups data) then
    Some {| type := CUSTOMER_GROUPS;
            resource_ids := unwrap (customer_groups data) |}
  else None.

(** Modelled from the spec: [atomicPhase_] of BaseService
    (medusa-interfaces, not in src), with its optional error handler.  The
    work runs in one transaction that an error rolls back; the handler, when
    there is one, sees the error and may throw another in its place,
    otherwise the error "propagate[s] unchanged". *)
Definition atomicPhase_ {A} (work : M State A)
    (errorHandler : option (Thrown → Thrown)) : M State A :=
  λ σ, match work σ with
       | (Ok a, σ') => (Ok a, σ')
       | (Err e, _) =>
           match errorHandler with
           | Some handler => (Err (handler e), σ)
           | None => (Err e, σ)
           end
       end.

(** Modelled from the spec: [addConditionResources] of the condition
    repository (repositories/discount-condition.ts, not in src): it adds the
    resource associations of the condition, and with [overrideExisting]
    "replaces the resource associations of an existing condition". *)
Definition addConditionResources (conditionId : string) (resourceIds : list string)
    (type : DiscountConditionType) (overrideExisting : bool)
  : M State (list ConditionResource) :=
  λ σ,
    let toInsert :=
      (λ r, {| resource_type := type; condition_id := conditionId;
               resource_id := r |}) <$> resourceIds in
    let kept :=
      if overrideExisting then
        filter (λ row, ¬ (resource_type row = type ∧ condition_id row = conditionId
                          ∧ resource_id row ∉ resourceIds))
               (condition_resources σ)
      else condition_resources σ in
    (Ok toInsert,
     mkState (discount_conditions σ) (list_union kept toInsert) (discounts σ)
             (id_seq σ)).

(** Modelled from the spec: [retrieve] of DiscountService
    (services/discount.ts, not in src); an unknown discount is [NotFound]. *)
Definition discountService_retrieve (discountId : string) : M State Discount.t :=
  λ σ, match discounts σ !! discountId with
       | Some discount => (Ok discount, σ)
       | None =>
           (Err (MedusaError NOT_FOUND
                   ("Discount with " +:+ discountId +:+ " was not found")), σ)
       end.

(** Modelled from the spec: [create] and [save] of the condition repository
    (not in src): the row gets the next id of the sequence, and "a duplicate
    (rule_id, type, operator) triple is rejected" by the unique key of the
    table. *)
Definition discountConditionRepo_save (discount_rule_id : string)
    (operator : option DiscountConditionOperator) (type : DiscountConditionType)
  : M State DiscountCondition.t :=
  λ σ,
    if decide (Exists (λ c, DiscountCondition.discount_rule_id c = discount_rule_id
                            ∧ DiscountCondition.type c = type
                            ∧ DiscountCondition.operator c = operator)
                 (map_to_list (discount_conditions σ)).*2)
    then (Err (QueryFailedError PostgresError_DUPLICATE_ERROR), σ)
    else
      let created :=
        DiscountCondition.mk ("discon_" +:+ pretty (id_seq σ)) type operator
          discount_rule_id in
      (Ok created,
       mkState (<[DiscountCondition.id created := created]> (discount_conditions σ))
               (condition_resources σ) (discounts σ) (S (id_seq σ))).

Definition string_of_operator (o : option DiscountConditionOperator) : string :=
  match o with
  | Some IN => "in"
  | Some NOT_IN => "not_in"
  | None => "undefined"
  end.

Definition string_of_type (t : option DiscountConditionType) : string :=
  match t with
  | Some PRODUCTS => "products"
  | Some PRODUCT_TYPES => "product_types"
  | Some PRODUCT_COLLECTIONS => "product_collections"
  | Some PRODUCT_TAGS => "product_tags"
  | Some CUSTOMER_GROUPS => "customer_groups"
  | None => "undefined"
  end.

Definition upsertCondition (discountId : string) (data : UpsertDiscountConditionInput)
  : M State (list ConditionResource) :=
  let resolvedConditionType := resolveConditionType_ data in
  atomicPhase_ (
    match resolvedConditionType with
    | None =>
        throw (MedusaError INVALID_DATA
          "Missing one of products, collections, tags, types or customer groups in data")
    | Some resolved =>
        let update id :=
          addConditionResources id (resource_ids resolved) (type resolved) true in
        let create :=
          let! discount := discountService_retrieve discountId in
          let! discountCondition :=
            discountConditionRepo_save (Discount.rule_id discount) (operator data)
              (type resolved) in
          addConditionResources (DiscountCondition.id discountCondition)
            (resource_ids resolved) (type resolved) false in
        match id data with
        | Some id => if decide (id = "") then create else update id
        | None => create
        end
    end)
    (Some (λ err,
       match err with
       | QueryFailedError code =>
           if decide (code = PostgresError_DUPLICATE_ERROR) then
             MedusaError DUPLICATE_ERROR
               ("Discount Condition with operator '"
                +:+ string_of_operator (operator data) +:+ "' and type '"
                +:+ string_of_type (type <$> resolvedConditionType)
                +:+ "' already exist on a Discount Rule")
           else err
       | _ => err
       end)).

Definition remove (discountConditionId : string) : M State () :=
  atomicPhase_ (λ σ,
    match discount_conditions σ !! discountConditionId with
    | None => (Ok (), σ)
    | Some condition =>
        (Ok (),
         mkState (delete (DiscountCondition.id condition) (discount_conditions σ))
                 (condition_resources σ) (discounts σ) (id_seq σ))
    end)
    None.
End DiscountConditionService.
End DiscountConditionService.

(** ** The payment provider interface: deleting, cancelling, status *)

Module AbstractPaymentServiceFull.
(** A provider with the methods of [AbstractPaymentService.t] and those that
    delete the payment of a session, cancel a payment and report a status.
    [deletePayment] resolves with whatever the provider answers, possibly
    [undefined]. *)
Record t {W : Type} := {
  base : AbstractPaymentService.t W;
  deletePayment : PaymentSession.t → W → Outcome ProviderError (option Data) * W;
  cancelPayment : Payment.t → W → Outcome ProviderError Data * W;
  getStatus : Data → W → Outcome ProviderError PaymentSessionStatus * W;
}.
Arguments t : clear implicits.
End AbstractPaymentServiceFull.

(** ** PaymentProviderService: deleting and refreshing sessions, cancelling *)

Module PaymentProviderServiceFull.
Import PaymentProviderService.

Section PaymentProviderServiceFull.
Context {W : Type}.

(** [this.container_] with all the methods of its providers. *)
Variable providers_ : gmap string (AbstractPaymentServiceFull.t W).
Variable featureFlagRouter_ : gmap string bool.
Variable OrderEditingFeatureFlag_key : string.

Abbreviation St := (State W).

(** The container as the methods of [PaymentProviderService] above see it. *)
Definition container_ : gmap string (AbstractPaymentService.t W) :=
  AbstractPaymentServiceFull.base <$> providers_.

Definition retrieveProvider (providerId : string)
  : Outcome Thrown (AbstractPaymentServiceFull.t W) :=
  let key :=
    if decide (providerId = "system") then "systemPaymentProviderService"
    else "pp_" +:+ providerId in
  match providers_ !! key with
  | Some provider => Ok provider
  | None =>
      Err (MedusaError NOT_FOUND
             ("Could not find a payment provider with id: " +:+ providerId))
  end.

Definition sessionRepo_remove (session : PaymentSession.t) (σ : St) : St :=
  mkState (payments σ) (refunds σ)
          (delete (PaymentSession.id session) (payment_sessions σ))
          (customers σ) (id_seq σ) (world σ).

Definition with_canceled_at (c : option Time) (p : Payment.t) : Payment.t :=
  Payment.mk (Payment.id p) (Payment.provider_id p) (Payment.order_id p)
    (Payment.amount p) (Payment.amount_refunded p) (Payment.data p)
    (Payment.captured_at p) c (Payment.created_at p).

(** *** Sessions *)

Definition refreshSession (paymentSession : PaymentSession.t) (cart : Cart.t)
  : M St PaymentSession.t :=
  atomicPhase_ (
    let! session := retrieveSession (PaymentSession.id paymentSession) in
    let! provider :=
      lift (retrieveProvider (PaymentSession.provider_id paymentSession)) in
    let! _ := call (AbstractPaymentServiceFull.deletePayment provider session) in
    let! _ := modify (sessionRepo_remove session) in
    let context := buildCreatePaymentContext (inl cart) in
    let! paymentResponse :=
      call (AbstractPaymentService.createPayment
              (AbstractPaymentServiceFull.base provider) context) in
    let sessionData := responseSessionData paymentResponse in
    let! _ :=
      processCollectedData (PaymentContext.customer context ≫= Customer.id)
        paymentResponse in
    saveSession featureFlagRouter_ OrderEditingFeatureFlag_key
      (PaymentSession.provider_id session)
      {| sessionData := sessionData;
         cartId := Some (Cart.id cart);
         isSelected := Some true;
         status := PENDING;
         amount := None |}).

Definition refreshSessionNew (paymentSession : PaymentSession.t)
    (sessionInput : PaymentSessionInput.t) : M St PaymentSession.t :=
  atomicPhase_ (
    let! session := retrieveSession (PaymentSession.id paymentSession) in
    let! provider :=
      lift (retrieveProvider (PaymentSession.provider_id paymentSession)) in
    let! _ := call (AbstractPaymentServiceFull.deletePayment provider session) in
    let! _ := modify (sessionRepo_remove session) in
    createSessionNew container_ featureFlagRouter_ OrderEditingFeatureFlag_key
      sessionInput).

(** [sessionRepo.remove(session)] resolves with the removed session. *)
Definition deleteSession (paymentSession : PaymentSession.t)
  : M St (option PaymentSession.t) :=
  atomicPhase_ (λ σ,
    match retrieveSession (PaymentSession.id paymentSession) σ with
    | (Err _, _) => (Ok None, σ)
    | (Ok session, σ) =>
        (let! provider :=
           lift (retrieveProvider (PaymentSession.provider_id paymentSession)) in
         let! _ :=
           call (AbstractPaymentServiceFull.deletePayment provider paymentSession) in
         let! _ := modify (sessionRepo_remove session) in
         ret (Some session)) σ
    end).

Definition deleteSessionNew (paymentSession : PaymentSession.t)
  : M St (option Data) :=
  atomicPhase_ (
    let! provider :=
      lift (retrieveProvider (PaymentSession.provider_id paymentSession)) in
    call (AbstractPaymentServiceFull.deletePayment provider paymentSession)).

(** *** Payments *)

Definition cancelPayment (paymentObj_id : string) (now : Time) : M St Payment.t :=
  atomicPhase_ (
    let! payment := retrievePayment paymentObj_id in
    let! provider := lift (retrieveProvider (Payment.provider_id payment)) in
    let! data := call (AbstractPaymentServiceFull.cancelPayment provider payment) in
    let payment := Payment.with_data data payment in
    let payment := with_canceled_at (Some now) payment in
    let! _ := modify (paymentRepo_save payment) in
    ret payment).

Definition getStatus (payment : Payment.t) : M St PaymentSessionStatus :=
  let! provider := lift (retrieveProvider (Payment.provider_id payment)) in
  call (AbstractPaymentServiceFull.getStatus provider (Payment.data payment)).
End PaymentProviderServiceFull.
End PaymentProviderServiceFull.

(** ** PaymentProviderService: the installed providers *)

Module PaymentProvider.
Record t := mk {
  id : string;
  is_installed : bool;
}.
End PaymentProvider.

Module InstalledProviders.
(** [registerInstalledProviders] and [list] work on the table of the
    payment providers alone, which is their state here.  [update({}, ..)]
    rewrites every row. *)
Definition paymentProviderRepo_update (is_installed : bool)
    (table : gmap string PaymentProvider.t) : gmap string PaymentProvider.t :=
  (λ provider, PaymentProvider.mk (PaymentProvider.id provider) is_installed)
    <$> table.

Definition paymentProviderRepo_save (provider : PaymentProvider.t)
    (table : gmap string PaymentProvider.t) : gmap string PaymentProvider.t :=
  <[PaymentProvider.id provider := provider]> table.

(** The saves of [Promise.all] run at once: each of them finds out whether
    its row is in the table before any of them has written.  A row that is
    there is updated; a row that is not there is inserted, so that an id
    that is not in the table and is given twice is inserted twice, and the
    primary key refuses the second insert.  The transaction then rolls
    back. *)
Definition inserted (providerIds : list string)
    (table : gmap string PaymentProvider.t) : list string :=
  filter (λ providerId, table !! providerId = None) providerIds.

Definition registerInstalledProviders (providerIds : list string)
  : M (gmap string PaymentProvider.t) () :=
  λ table,
    let updated := paymentProviderRepo_update false table in
    if decide (NoDup (inserted providerIds table)) then
      (Ok (),
       foldl (λ table providerId,
                let provider := PaymentProvider.mk providerId true in
                paymentProviderRepo_save provider table)
             updated providerIds)
    else (Err (QueryFailedError PaymentProviderService.unique_violation), table).

Definition list : M (gmap string PaymentProvider.t) (list PaymentProvider.t) :=
  gets (λ table, (map_to_list table).*2).
End InstalledProviders.

(** ** StripeBase: creating, deleting and cancelling payment intents *)

Module StripeBaseFull.

(** What the Stripe client rejects with, with the HTTP status of the
    response ([err.statusCode]). *)
Record StripeError := {
  statusCode : option Z;
  raw : ApiError;
}.

(** What a method of [StripeBase] throws: the error of the client, the
    [MedusaError] of a missing argument, or the error of the JS runtime for a
    property of [undefined] or an undeclared variable. *)
Inductive StripeThrown :=
  | Rethrown (err : StripeError)
  | Invalid (type : MedusaErrorTypes) (message : string)
  | TypeError
  | ReferenceError (name : string).

(** [this.options_]. *)
Record Options := {
  capture : bool;
  payment_description : option string;
  automatic_payment_methods : bool;
}.

(** [this.paymentIntentOptions] of a subclass, and the object that
    [getPaymentIntentOptions] builds from it. *)
Module PaymentIntentOptions.
Record t := mk {
  capture_method : option string;
  setup_future_usage : option string;
  payment_method_types : option (list string);
}.
End PaymentIntentOptions.

(** The request of [paymentIntents.create]. *)
Module IntentRequest.
Record t := mk {
  description : option string;
  amount : Z;
  currency : string;
  metadata_cart_id : option string;
  metadata_resource_id : option string;
  capture_method : string;
  setup_future_usage : option string;
  payment_method_types : option (list string);
  automatic_payment_methods_enabled : option bool;
  customer : option string;
}.
End IntentRequest.

(** [GiropayProviderService.paymentIntentOptions] (src/unnamed/part_002). *)
Definition Giropay_paymentIntentOptions : PaymentIntentOptions.t :=
  {| PaymentIntentOptions.payment_method_types := Some ["giropay"];
     PaymentIntentOptions.capture_method := Some "automatic";
     PaymentIntentOptions.setup_future_usage := None |}.

(** The message of the error of [createPayment] for a missing value; the
    two names are in double quotes. *)
Definition quote : string :=
  String (Ascii.Ascii false true false false false true false false) EmptyString.
Definition missing_value_message : string :=
  "Unable to create a new payment, one of the " +:+ quote +:+ "currency_code"
  +:+ quote +:+ " or " +:+ quote +:+ "amount" +:+ quote
  +:+ " values is not provided. Both values are required.".

Section StripeBaseFull.
Context {W : Type}.

(** The Stripe client: the calls of [StripeBase.Stripe], and those that
    create and cancel. *)
Record Stripe := {
  client : StripeBase.Stripe W;
  paymentIntents_create : IntentRequest.t → W → Outcome StripeError Data * W;
  paymentIntents_cancel : option string → W → Outcome StripeError Data * W;
  customers_create : option string → W → Outcome StripeError Data * W;
}.

Variable options_ : Options.
(** The getter is [undefined] in [StripeBase] itself. *)
Variable paymentIntentOptions : option PaymentIntentOptions.t.
Variable stripe_ : Stripe.

(** A string in a condition: neither missing nor empty. *)
Definition truthy (s : option string) : option string :=
  match s with
  | Some s => if decide (s = "") then None else Some s
  | None => None
  end.

Definition getPaymentIntentOptions : PaymentIntentOptions.t :=
  {| PaymentIntentOptions.capture_method :=
       truthy (paymentIntentOptions ≫= PaymentIntentOptions.capture_method);
     PaymentIntentOptions.setup_future_usage :=
       truthy (paymentIntentOptions ≫= PaymentIntentOptions.setup_future_usage);
     PaymentIntentOptions.payment_method_types :=
       paymentIntentOptions ≫= PaymentIntentOptions.payment_method_types |}.

(** The [intentRequest] of [createPayment] before its customer is set; the
    spread of [intentRequestData] comes last and wins. *)
Definition intentRequest_of (cart_context : Data) (amount : Z) (currency_code : string)
    (cart_id resource_id : option string) : IntentRequest.t :=
  let intentRequestData := getPaymentIntentOptions in
  {| IntentRequest.description :=
       match cart_context !! "payment_description" with
       | Some description => Some description
       | None => payment_description options_
       end;
     IntentRequest.amount := amount;
     IntentRequest.currency := currency_code;
     IntentRequest.metadata_cart_id := cart_id;
     IntentRequest.metadata_resource_id := resource_id;
     IntentRequest.capture_method :=
       default (if capture options_ then "automatic" else "manual")
         (PaymentIntentOptions.capture_method intentRequestData);
     IntentRequest.setup_future_usage :=
       PaymentIntentOptions.setup_future_usage intentRequestData;
     IntentRequest.payment_method_types :=
       PaymentIntentOptions.payment_method_types intentRequestData;
     IntentRequest.automatic_payment_methods_enabled :=
       if automatic_payment_methods options_ then Some true else None;
     IntentRequest.customer := None |}.

Definition with_customer (customer : option string) (r : IntentRequest.t)
  : IntentRequest.t :=
  IntentRequest.mk (IntentRequest.description r) (IntentRequest.amount r)
    (IntentRequest.currency r) (IntentRequest.metadata_cart_id r)
    (IntentRequest.metadata_resource_id r) (IntentRequest.capture_method r)
    (IntentRequest.setup_future_usage r) (IntentRequest.payment_method_types r)
    (IntentRequest.automatic_payment_methods_enabled r) customer.

(** [{ customer: { stripe_id: intentRequest.customer } }] *)
Definition collected (customer : option string) : CollectedData :=
  {| collected_customer :=
       Some (match customer with
             | Some stripe_id => {[ "stripe_id" := stripe_id ]}
             | None => ∅
             end) |}.

Definition createPayment (context : PaymentContext.t) (w : W)
  : Outcome StripeThrown PaymentResponse * W :=
  match PaymentContext.currency_code context, PaymentContext.amount context with
  | Some currency_code, Some amount =>
      match PaymentContext.context context with
      | None => (Err TypeError, w)
      | Some cart_context =>
          let intentRequest :=
            intentRequest_of cart_context amount currency_code
              (PaymentContext.id context) (PaymentContext.resource_id context) in
          let create intentRequest w :=
            match paymentIntents_create stripe_ intentRequest w with
            | (Ok session_data, w) =>
                (Ok (SessionResponse session_data
                       (Some (collected (IntentRequest.customer intentRequest)))), w)
            | (Err err, w) => (Err (Rethrown err), w)
            end in
          match truthy (PaymentContext.collected_data context !! "stripe_id") with
          | Some stripe_id => create (with_customer (Some stripe_id) intentRequest) w
          | None =>
              match customers_create stripe_ (PaymentContext.email context) w with
              | (Ok stripeCustomer, w) =>
                  create (with_customer (stripeCustomer !! "id") intentRequest) w
              | (Err err, w) => (Err (Rethrown err), w)
              end
          end
      end
  | _, _ =>
      (Err (Invalid INVALID_ARGUMENT missing_value_message), w)
  end.

(** [createPaymentNew] builds its request and then reads [collected_data],
    a variable that is declared nowhere. *)
Definition createPaymentNew (paymentInput : PaymentContext.t) (w : W)
  : Outcome StripeThrown PaymentResponse * W :=
  (Err (ReferenceError "collected_data"), w).

Definition deletePayment (payment : PaymentSession.t) (w : W)
  : Outcome StripeThrown (option Data) * W :=
  let id := PaymentSession.data payment !! "id" in
  match paymentIntents_cancel stripe_ id w with
  | (Ok intent, w') => (Ok (Some intent), w')
  | (Err err, w') =>
      if decide (statusCode err = Some 400) then (Ok None, w')
      else (Err (Rethrown err), w')
  end.

Definition cancelPayment (payment : Payment.t) (w : W)
  : Outcome StripeThrown Data * W :=
  let id := Payment.data payment !! "id" in
  match paymentIntents_cancel stripe_ id w with
  | (Ok intent, w') => (Ok intent, w')
  | (Err error, w') =>
      match payment_intent (raw error) with
      | None => (Err TypeError, w')
      | Some payment_intent =>
          if decide (payment_intent !! "status" = Some "canceled")
          then (Ok payment_intent, w')
          else (Err (Rethrown error), w')
      end
  end.

(** *** StripeBase as a provider of the service *)

(** The error of a method in the errors of a provider that the service
    wraps: of a [MedusaError] of the provider they keep the message, not the
    type. *)
Definition thrown (e : StripeThrown) : ProviderError :=
  match e with
  | Rethrown err => Raised (raw err)
  | Invalid _ message => ProviderFailure message
  | TypeError => UndefinedProperty
  | ReferenceError name => ProviderFailure (name +:+ " is not defined")
  end.

Definition method {A} (r : Outcome StripeThrown A * W) : Outcome ProviderError A * W :=
  match r with
  | (Ok a, w) => (Ok a, w)
  | (Err e, w) => (Err (thrown e), w)
  end.

Definition provider : AbstractPaymentServiceFull.t W := {|
  AbstractPaymentServiceFull.base := {|
    AbstractPaymentService.createPayment := λ context w, method (createPayment context w);
    AbstractPaymentService.createPaymentNew :=
      λ paymentInput w, method (createPaymentNew paymentInput w);
    AbstractPaymentService.authorizePayment := StripeBase.authorizePayment (client stripe_);
    AbstractPaymentService.capturePayment := StripeBase.capturePayment (client stripe_);
    AbstractPaymentService.refundPayment := StripeBase.refundPayment (client stripe_);
  |};
  AbstractPaymentServiceFull.deletePayment := λ payment w, method (deletePayment payment w);
  AbstractPaymentServiceFull.cancelPayment := λ payment w, method (cancelPayment payment w);
  AbstractPaymentServiceFull.getStatus := StripeBase.getStatus (client stripe_);
|}.
End StripeBaseFull.
Arguments Stripe : clear implicits.
End StripeBaseFull.

(** * Reference definitions

    The notions the properties are stated with: what the claims speak
    of, written down next to the code, and a few concrete inputs. *)

(** ** Statuses *)

(** The mapping of Stripe payment-intent statuses to session statuses that
    [getStatus] is claimed to implement. *)
Definition claimed_status (status : option string) : PaymentSessionStatus :=
  if bool_decide (status ∈ [Some "requires_capture"; Some "succeeded"]) then AUTHORIZED
  else if bool_decide (status = Some "requires_action") then REQUIRES_MORE
  else if bool_decide (status = Some "canceled") then CANCELED
  else PENDING.

(** ** Sessions *)

(** The provider id that [createSession] is called for. *)
Definition providerIdOf (args : PaymentProviderService.CreateSessionArgs) : string :=
  match args with
  | PaymentProviderService.WithCart providerId _ => providerId
  | PaymentProviderService.WithInput sessionInput =>
      PaymentSessionInput.provider_id sessionInput
  end.

(** ** Discount conditions *)

Section DiscountCondition_reference.
Import DiscountConditionService.

(** The five lists of a condition-upsert payload, in the order of priority
    of the claim. *)
Definition conditionLists (data : UpsertDiscountConditionInput)
  : list (DiscountConditionType * option (list string)) :=
  [ (PRODUCTS, products data);
    (PRODUCT_COLLECTIONS, product_collections data);
    (PRODUCT_TYPES, product_types data);
    (PRODUCT_TAGS, product_tags data);
    (CUSTOMER_GROUPS, customer_groups data) ].

(** The list of an entry is there and is not empty. *)
Definition hasElements (entry : DiscountConditionType * option (list string)) : Prop :=
  ∃ r rs, entry.2 = Some (r :: rs).

#[global] Instance hasElements_dec entry : Decision (hasElements entry).
Proof.
  destruct entry as [t [[|r rs]|]]; unfold hasElements; simpl.
  - right. by intros (? & ? & ?).
  - left. by exists r, rs.
  - right. by intros (? & ? & ?).
Defined.

(** The first entry with a non-empty list, as a resolved condition type. *)
Definition firstNonEmpty (lists : list (DiscountConditionType * option (list string)))
  : option ResolvedConditionType :=
  (λ found, {| type := found.2.1; resource_ids := default [] found.2.2 |})
    <$> list_find hasElements lists.

(** Conditions are stored under their id. *)
Definition conditions_by_id (σ : State) : Prop :=
  map_Forall (λ key condition, DiscountCondition.id condition = key)
    (discount_conditions σ).
End DiscountCondition_reference.

(** ** Refunds *)

(** What is left to refund of a payment. *)
Definition remaining (p : Payment.t) : Z :=
  Payment.amount p - Payment.amount_refunded p.

(** The refundable balance of the claim: the sum of
    [amount - amount_refunded] over the captured payments. *)
Definition refundableBalance (payments : list Payment.t) : Z :=
  foldr (λ p acc,
           (match Payment.captured_at p with
            | Some _ => remaining p
            | None => 0
            end) + acc) 0 payments.

(** The greedy drain of the claim, on what is left of each payment, in
    order: the first payment with something left gives the minimum of what
    it has left and the balance, the drain goes on to the next payments
    while a balance remains, and a payment with nothing left gives nothing.
    The result is what each payment gives. *)
Fixpoint greedy (remainders : list Z) (balance : Z) : list Z :=
  match remainders with
  | [] => []
  | r :: remainders =>
      if decide (0 < r) then
        let refundAmount := Z.min r balance in
        refundAmount ::
          (if decide (0 < balance - refundAmount)
           then greedy remainders (balance - refundAmount)
           else replicate (length remainders) 0)
      else 0 :: greedy remainders balance
  end.



(** What a refund of [refundAmount] with the provider's answer [data] makes
    of a payment. *)
Definition refund_of (p : Payment.t) (data : Data) (refundAmount : Z) : Payment.t :=
  Payment.with_amount_refunded (Payment.amount_refunded p + refundAmount)
    (Payment.with_data data p).

(** [q'] is [q] after a refund of [refundAmount] through its provider:
    more is refunded, and the provider's data may have changed. *)
Definition refunded_by (refundAmount : Z) (q q' : Payment.t) : Prop :=
  q' = refund_of q (Payment.data q') refundAmount.

(** The candidates of the second and later searches of the loop. *)
Definition refundable_unused (used : list string) (payment : Payment.t) : Prop :=
  0 < Payment.amount payment - Payment.amount_refunded payment
  ∧ Payment.id payment ∉ used.

(** The two refund calls. *)
Inductive RefundCall :=
  | CallRefundPayment (payObjs : list Payment.t) (amount : Z) (reason : string)
      (note : option string)
  | CallRefundFromPayment (payment : Payment.t) (amount : Z) (reason : string)
      (note : option string).

Definition requested (call : RefundCall) : Z :=
  match call with
  | CallRefundPayment _ amount _ _ => amount
  | CallRefundFromPayment _ amount _ _ => amount
  end.

Section Refund_reference.
Import PaymentProviderService.
Context {W : Type}.
Variable container_ : gmap string (AbstractPaymentService.t W).

(** Rows of the payment table are stored under their id. *)
Definition payments_by_id (σ : State W) : Prop :=
  map_Forall (λ key p, Payment.id p = key) (payments σ).

(** The invariant of the payment table. *)
Definition refund_invariant (σ : State W) : Prop :=
  map_Forall (λ _ p, Payment.amount_refunded p ≤ Payment.amount p) (payments σ).

#[global] Instance payments_by_id_dec σ : Decision (payments_by_id σ).
Proof. unfold payments_by_id. apply _. Defined.

#[global] Instance refund_invariant_dec σ : Decision (refund_invariant σ).
Proof. unfold refund_invariant. apply _. Defined.

(** From [σ] to [σ'] every payment is still there with its amount, and no
    [amount_refunded] went down. *)
Definition never_decreased (σ σ' : State W) : Prop :=
  ∀ key p,
    payments σ !! key = Some p →
    ∃ p', payments σ' !! key = Some p'
          ∧ Payment.amount p' = Payment.amount p
          ∧ Payment.amount_refunded p ≤ Payment.amount_refunded p'.

(** The listed payments are the rows of the table. *)
Definition in_sync (listed : list Payment.t) (σ : State W) : Prop :=
  ∀ q, q ∈ listed → payments σ !! Payment.id q = Some q.

(** [refundPayment] up to the end of its loop: the check of the balance and
    the drain, with the payments as the loop leaves them. *)
Definition refundPayment_drain (payObjs : list Payment.t) (amount : Z) (σ : State W)
  : option (Outcome Thrown (list Payment.t) * State W) :=
  let listed := listPayments (Payment.id <$> payObjs) listPayments_defaultConfig σ in
  if decide ((refundable_reduce listed).1 < amount) then
    Some (Err (MedusaError NOT_ALLOWED
                 "Refund amount is greater that the refundable amount"), σ)
  else
    refund_loop container_ (S (length listed))
      (list_find (λ payment,
         0 < Payment.amount payment - Payment.amount_refunded payment) listed)
      listed amount [] σ.

(** The refund record that [refundPayment] creates. *)
Definition refund_record (payObjs : list Payment.t) (amount : Z) (reason : string)
    (note : option string) (σ : State W) : Refund.t :=
  {| Refund.order_id :=
       (refundable_reduce
          (listPayments (Payment.id <$> payObjs) listPayments_defaultConfig σ)).2;
     Refund.payment_id := None;
     Refund.amount := amount;
     Refund.reason := reason;
     Refund.note := note |}.

(** The state a call leaves behind, whether it resolves or throws. *)
Definition exec (call : RefundCall) (σ : State W) : State W :=
  match call with
  | CallRefundPayment payObjs amount reason note =>
      match refundPayment container_ payObjs amount reason note σ with
      | Some (_, σ') => σ'
      | None => σ
      end
  | CallRefundFromPayment payment amount reason note =>
      (refundFromPayment container_ payment amount reason note σ).2
  end.

Definition run (calls : list RefundCall) (σ : State W) : State W :=
  foldl (λ σ call, exec call σ) σ calls.

(** The payment object handed to [refundFromPayment] is the row of the
    table.  ([refundPayment] reads the rows itself.) *)
Definition current (call : RefundCall) (σ : State W) : Prop :=
  match call with
  | CallRefundPayment _ _ _ _ => True
  | CallRefundFromPayment payment _ _ _ =>
      payments σ !! Payment.id payment = Some payment
  end.

(** Every call of the sequence requests a non-negative amount, on current
    payments. *)
Fixpoint admissible (calls : list RefundCall) (σ : State W) : Prop :=
  match calls with
  | [] => True
  | call :: calls =>
      0 ≤ requested call ∧ current call σ ∧ admissible calls (exec call σ)
  end.
End Refund_reference.

(** ** Concrete inputs *)

Module Fixtures.
Import PaymentProviderService.

(** A provider that accepts every request and answers with empty data, the
    way the system payment provider does; its outside world has no state. *)
Definition system : AbstractPaymentService.t () := {|
  AbstractPaymentService.createPayment := λ context w, (Ok (BareSessionData ∅), w);
  AbstractPaymentService.createPaymentNew := λ context w, (Ok (BareSessionData ∅), w);
  AbstractPaymentService.authorizePayment :=
    λ session context w, (Ok (AUTHORIZED, ∅), w);
  AbstractPaymentService.capturePayment := λ payment w, (Ok ∅, w);
  AbstractPaymentService.refundPayment := λ payment refundAmount w, (Ok ∅, w);
|}.

Definition container : gmap string (AbstractPaymentService.t ()) :=
  {[ "systemPaymentProviderService" := system ]}.

(** A captured payment of the system provider. *)
Definition payment (id : string) (amount amount_refunded : Z) (created_at : Time)
  : Payment.t :=
  {| Payment.id := id;
     Payment.provider_id := "system";
     Payment.order_id := Some "order_1";
     Payment.amount := amount;
     Payment.amount_refunded := amount_refunded;
     Payment.data := ∅;
     Payment.captured_at := Some created_at;
     Payment.canceled_at := None;
     Payment.created_at := created_at |}.

(** A state whose payment table has the given rows and nothing else. *)
Definition store (rows : list Payment.t) : State () :=
  {| payments := list_to_map ((λ p, (Payment.id p, p)) <$> rows);
     refunds := [];
     payment_sessions := ∅;
     customers := ∅;
     id_seq := 0;
     world := () |}.

(** Fifty-one captured payments of 1 each, nothing refunded. *)
Definition fiftyOne : list Payment.t :=
  (λ i, payment ("pay_" +:+ pretty i) 1 0 (Z.of_nat i)) <$> seq 0 51.

(** Two captured payments of 100 each: [older] was created before [newer]. *)
Definition older : Payment.t := payment "pay_older" 100 0 1.
Definition newer : Payment.t := payment "pay_newer" 100 0 2.

(** A payment of 100 of which 50 are refunded, and a stale copy of it from
    before a refund of 30. *)
Definition half : Payment.t := payment "pay_half" 100 50 1.
Definition stale : Payment.t := payment "pay_half" 100 20 1.

(** A session waiting for its authorization. *)
Definition session : PaymentSession.t :=
  {| PaymentSession.id := "ps_1";
     PaymentSession.cart_id := Some "cart_1";
     PaymentSession.provider_id := "system";
     PaymentSession.is_selected := Some true;
     PaymentSession.status := PENDING;
     PaymentSession.data := ∅;
     PaymentSession.amount := None;
     PaymentSession.payment_authorized_at := None |}.

Definition withSession : State () :=
  {| payments := ∅;
     refunds := [];
     payment_sessions := {[ "ps_1" := session ]};
     customers := ∅;
     id_seq := 0;
     world := () |}.

Definition cart : Cart.t :=
  {| Cart.id := "cart_1";
     Cart.email := None;
     Cart.context := ∅;
     Cart.shipping_address := None;
     Cart.shipping_methods := [];
     Cart.total := Some 1000;
     Cart.region_currency_code := Some "usd";
     Cart.customer := None |}.

(** The payment intent of a payment that Stripe has captured already, and
    the Stripe client that says so when asked to capture it again. *)
Definition succeededIntent : Data :=
  {[ "id" := "pi_1"; "status" := "succeeded" ]}.

Definition unexpectedState : ApiError :=
  {| code := Some "payment_intent_unexpected_state";
     payment_intent := Some succeededIntent |}.

Definition capturedAlready : StripeBase.Stripe () := {|
  StripeBase.paymentIntents_retrieve := λ id w, (Ok succeededIntent, w);
  StripeBase.paymentIntents_capture := λ id w, (Err unexpectedState, w);
  StripeBase.refunds_create := λ refundAmount id w, (Ok (), w);
|}.



(** A provider that captures through [StripeBase]; the methods of
    [StripeBase] that are not embedded refuse. *)
Definition stripe (stripe_ : StripeBase.Stripe ()) : AbstractPaymentService.t () := {|
  AbstractPaymentService.createPayment :=
    λ context w, (Err (ProviderFailure "not embedded"), w);
  AbstractPaymentService.createPaymentNew :=
    λ context w, (Err (ProviderFailure "not embedded"), w);
  AbstractPaymentService.authorizePayment := StripeBase.authorizePayment stripe_;
  AbstractPaymentService.capturePayment := StripeBase.capturePayment stripe_;
  AbstractPaymentService.refundPayment := StripeBase.refundPayment stripe_;
|}.

Definition stripePayment : Payment.t :=
  {| Payment.id := "pay_1";
     Payment.provider_id := "stripe";
     Payment.order_id := Some "order_1";
     Payment.amount := 1000;
     Payment.amount_refunded := 0;
     Payment.data := {[ "id" := "pi_1" ]};
     Payment.captured_at := None;
     Payment.canceled_at := None;
     Payment.created_at := 1 |}.

(** A payload with no list at all, and a store with one condition. *)
Definition noLists : DiscountConditionService.UpsertDiscountConditionInput :=
  {| DiscountConditionService.rule_id := None;
     DiscountConditionService.id := None;
     DiscountConditionService.operator := Some DiscountConditionService.IN;
     DiscountConditionService.products := Some [];
     DiscountConditionService.product_collections := None;
     DiscountConditionService.product_types := None;
     DiscountConditionService.product_tags := None;
     DiscountConditionService.customer_groups := None |}.

Definition condition : DiscountConditionService.DiscountCondition.t :=
  {| DiscountConditionService.DiscountCondition.id := "discon_1";
     DiscountConditionService.DiscountCondition.type :=
       DiscountConditionService.PRODUCTS;
     DiscountConditionService.DiscountCondition.operator :=
       Some DiscountConditionService.IN;
     DiscountConditionService.DiscountCondition.discount_rule_id := "rule_1" |}.

Definition oneCondition : DiscountConditionService.State :=
  {| DiscountConditionService.discount_conditions := {[ "discon_1" := condition ]};
     DiscountConditionService.condition_resources := [];
     DiscountConditionService.discounts := ∅;
     DiscountConditionService.id_seq := 2 |}.
End Fixtures.

(** ** Sessions, payments and providers of the further properties *)

(** What [createSession] hands to [buildCreatePaymentContext]. *)
Definition cartOrDataOf (args : PaymentProviderService.CreateSessionArgs)
  : Cart.t + PaymentSessionInput.t :=
  match args with
  | PaymentProviderService.WithCart _ cart => inl cart
  | PaymentProviderService.WithInput sessionInput => inr sessionInput
  end.

(** A session of the provider for the cart is in the table. *)
Definition has_session {W} (cart_id provider_id : string)
    (σ : PaymentProviderService.State W) : Prop :=
  ∃ key row,
    PaymentProviderService.payment_sessions σ !! key = Some row
    ∧ PaymentSession.cart_id row = Some cart_id
    ∧ PaymentSession.provider_id row = provider_id.

Module Scenarios.
Import PaymentProviderService Fixtures.

(** The order-editing flag, enabled. *)
Definition orderEditing : gmap string bool := {[ "order_editing" := true ]}.

(** A session input of 500 for the system provider. *)
Definition input : PaymentSessionInput.t :=
  {| PaymentSessionInput.provider_id := "system";
     PaymentSessionInput.cart := None;
     PaymentSessionInput.customer := None;
     PaymentSessionInput.currency_code := Some "usd";
     PaymentSessionInput.amount := Some 500;
     PaymentSessionInput.resource_id := None |}.

(** The same input for the Stripe provider. *)
Definition stripeInput : PaymentSessionInput.t :=
  {| PaymentSessionInput.provider_id := "stripe";
     PaymentSessionInput.cart := None;
     PaymentSessionInput.customer := None;
     PaymentSessionInput.currency_code := Some "usd";
     PaymentSessionInput.amount := Some 500;
     PaymentSessionInput.resource_id := None |}.

(** A payment of the system provider that is not captured, created after
    [older] and [newer]. *)
Definition uncaptured : Payment.t :=
  {| Payment.id := "pay_uncaptured";
     Payment.provider_id := "system";
     Payment.order_id := Some "order_2";
     Payment.amount := 100;
     Payment.amount_refunded := 0;
     Payment.data := ∅;
     Payment.captured_at := None;
     Payment.canceled_at := None;
     Payment.created_at := 3 |}.

(** The system provider with all its methods, and one that deletes but
    cannot create. *)
Definition systemFull : AbstractPaymentServiceFull.t () := {|
  AbstractPaymentServiceFull.base := system;
  AbstractPaymentServiceFull.deletePayment := λ paymentSession w, (Ok None, w);
  AbstractPaymentServiceFull.cancelPayment := λ payment w, (Ok ∅, w);
  AbstractPaymentServiceFull.getStatus := λ data w, (Ok AUTHORIZED, w);
|}.

Definition declined : ProviderError := ProviderFailure "declined".

Definition cannotCreate : AbstractPaymentServiceFull.t () := {|
  AbstractPaymentServiceFull.base := {|
    AbstractPaymentService.createPayment := λ context w, (Err declined, w);
    AbstractPaymentService.createPaymentNew := λ context w, (Err declined, w);
    AbstractPaymentService.authorizePayment :=
      λ session context w, (Ok (AUTHORIZED, ∅), w);
    AbstractPaymentService.capturePayment := λ payment w, (Ok ∅, w);
    AbstractPaymentService.refundPayment := λ payment refundAmount w, (Ok ∅, w);
  |};
  AbstractPaymentServiceFull.deletePayment := λ paymentSession w, (Ok None, w);
  AbstractPaymentServiceFull.cancelPayment := λ payment w, (Ok ∅, w);
  AbstractPaymentServiceFull.getStatus := λ data w, (Ok AUTHORIZED, w);
|}.

Definition providers : gmap string (AbstractPaymentServiceFull.t ()) :=
  {[ "systemPaymentProviderService" := systemFull ]}.

(** A Stripe account in which the payment intent [pi_1] is canceled
    already: cancelling it again is refused with the status 400 and the
    intent.  Intents and customers are created on request. *)
Definition canceledIntent : Data :=
  {[ "id" := "pi_1"; "status" := "canceled" ]}.

Definition refused : StripeBaseFull.StripeError :=
  {| StripeBaseFull.statusCode := Some 400;
     StripeBaseFull.raw :=
       {| code := Some "payment_intent_unexpected_state";
          payment_intent := Some canceledIntent |} |}.

Definition canceledAlready : StripeBaseFull.Stripe () := {|
  StripeBaseFull.client := {|
    StripeBase.paymentIntents_retrieve := λ id w, (Ok canceledIntent, w);
    StripeBase.paymentIntents_capture := λ id w, (Err unexpectedState, w);
    StripeBase.refunds_create := λ refundAmount id w, (Ok (), w);
  |};
  StripeBaseFull.paymentIntents_create :=
    λ request w,
      (Ok {[ "id" := "pi_2";
             "capture_method" := StripeBaseFull.IntentRequest.capture_method request ]},
       w);
  StripeBaseFull.paymentIntents_cancel := λ id w, (Err refused, w);
  StripeBaseFull.customers_create := λ email w, (Ok {[ "id" := "cus_1" ]}, w);
|}.

(** Stripe options that leave the capture to a later call. *)
Definition manualCapture : StripeBaseFull.Options :=
  {| StripeBaseFull.capture := false;
     StripeBaseFull.payment_description := None;
     StripeBaseFull.automatic_payment_methods := false |}.

Definition stripeFull : AbstractPaymentServiceFull.t () :=
  StripeBaseFull.provider manualCapture None canceledAlready.

Definition giropay : AbstractPaymentServiceFull.t () :=
  StripeBaseFull.provider manualCapture
    (Some StripeBaseFull.Giropay_paymentIntentOptions) canceledAlready.

Definition stripeProviders : gmap string (AbstractPaymentServiceFull.t ()) :=
  {[ "pp_stripe" := stripeFull; "pp_stripe-giropay" := giropay ]}.

(** A session of the Stripe provider for the intent [pi_1], and a state
    with that session and the payment [stripePayment]. *)
Definition stripeSession : PaymentSession.t :=
  {| PaymentSession.id := "ps_1";
     PaymentSession.cart_id := Some "cart_1";
     PaymentSession.provider_id := "stripe";
     PaymentSession.is_selected := Some true;
     PaymentSession.status := PENDING;
     PaymentSession.data := {[ "id" := "pi_1" ]};
     PaymentSession.amount := None;
     PaymentSession.payment_authorized_at := None |}.

Definition withStripe : State () :=
  {| payments := {[ "pay_1" := stripePayment ]};
     refunds := [];
     payment_sessions := {[ "ps_1" := stripeSession ]};
     customers := ∅;
     id_seq := 1;
     world := () |}.


Definition knownCustomer : Customer.t :=
  {| Customer.id := Some "cus_medusa";
     Customer.metadata := Some {[ "stripe_id" := "cus_9" ]} |}.

Definition cartOfKnownCustomer : Cart.t :=
  {| Cart.id := "cart_3";
     Cart.email := Some "a@b.c";
     Cart.context := ∅;
     Cart.shipping_address := None;
     Cart.shipping_methods := [];
     Cart.total := Some 1000;
     Cart.region_currency_code := Some "usd";
     Cart.customer := Some knownCustomer |}.

(** A payload of products, for a new condition and for the condition
    [discon_1]; a store in which the discount [disc_1] has that condition
    already. *)
Definition products (id : option string)
  : DiscountConditionService.UpsertDiscountConditionInput :=
  {| DiscountConditionService.rule_id := None;
     DiscountConditionService.id := id;
     DiscountConditionService.operator := Some DiscountConditionService.IN;
     DiscountConditionService.products := Some ["prod_1"];
     DiscountConditionService.product_collections := None;
     DiscountConditionService.product_types := None;
     DiscountConditionService.product_tags := None;
     DiscountConditionService.customer_groups := None |}.

Definition withDiscount : DiscountConditionService.State :=
  {| DiscountConditionService.discount_conditions := {[ "discon_1" := condition ]};
     DiscountConditionService.condition_resources := [];
     DiscountConditionService.discounts :=
       {[ "disc_1" := DiscountConditionService.Discount.mk "disc_1" "rule_1" ]};
     DiscountConditionService.id_seq := 2 |}.

(** A table of providers in which [manual] is installed. *)
Definition installed : gmap string PaymentProvider.t :=
  {[ "manual" := PaymentProvider.mk "manual" true ]}.
End Scenarios.

(** * Properties *)

(** ** StripeBase *)

Section StripeBase_properties.
Context {W : Type}.
Variable stripe_ : StripeBase.Stripe W.

Lemma statusOf_claimed status : StripeBase.statusOf status = claimed_status status.
Proof.
  unfold StripeBase.statusOf, claimed_status.
  repeat case_decide; repeat case_bool_decide; try reflexivity; exfalso;
    set_unfold; intuition (subst; congruence).
Qed.


Lemma claimed_status_other status :
  status ∉ [Some "requires_capture"; Some "succeeded"; Some "requires_action";
            Some "canceled"] →
  claimed_status status = PENDING.
Proof.
  intros Hother. unfold claimed_status.
  repeat case_bool_decide; try reflexivity; exfalso;
    set_unfold; intuition (subst; congruence).
Qed.

(** C8.  [getStatus] is a total mapping of the status of the retrieved
    payment intent: [requires_capture] and [succeeded] give AUTHORIZED,
    [requires_action] gives REQUIRES_MORE, [canceled] gives CANCELED, and
    every other status, recognised or not (or none at all), gives PENDING;
    whatever the status, the call resolves. *)
Theorem getStatus_total_mapping (paymentData paymentIntent : Data) (w w' : W) :
  StripeBase.paymentIntents_retrieve stripe_ (paymentData !! "id") w
    = (Ok paymentIntent, w') →
  StripeBase.getStatus stripe_ paymentData w
    = (Ok (claimed_status (paymentIntent !! "status")), w')
  ∧ claimed_status (Some "requires_capture") = AUTHORIZED
  ∧ claimed_status (Some "succeeded") = AUTHORIZED
  ∧ claimed_status (Some "requires_action") = REQUIRES_MORE
  ∧ claimed_status (Some "canceled") = CANCELED
  ∧ claimed_status (Some "requires_payment_method") = PENDING
  ∧ claimed_status (Some "requires_confirmation") = PENDING
  ∧ claimed_status (Some "processing") = PENDING
  ∧ ∀ status,
      status ∉ [Some "requires_capture"; Some "succeeded";
                Some "requires_action"; Some "canceled"] →
      claimed_status status = PENDING.
Proof.
  intros Hretrieve. split.
  - unfold StripeBase.getStatus. rewrite Hretrieve.
    by rewrite statusOf_claimed.
  - repeat split; try by vm_compute.
    apply claimed_status_other.
Qed.
End StripeBase_properties.

(** ** PaymentProviderService: providers, sessions, capture *)

Section PaymentProviderService_properties.
Import PaymentProviderService.
Context {W : Type}.
Variable container_ : gmap string (AbstractPaymentService.t W).
Variable featureFlagRouter_ : gmap string bool.
Variable OrderEditingFeatureFlag_key : string.

Local Abbreviation retrieveProvider := (retrieveProvider container_).
Local Abbreviation saveSession :=
  (saveSession featureFlagRouter_ OrderEditingFeatureFlag_key).
Local Abbreviation createSession :=
  (createSession container_ featureFlagRouter_ OrderEditingFeatureFlag_key).
Local Abbreviation createSessionNew :=
  (createSessionNew container_ featureFlagRouter_ OrderEditingFeatureFlag_key).
Local Abbreviation authorizePayment :=
  (authorizePayment container_ featureFlagRouter_ OrderEditingFeatureFlag_key).
Local Abbreviation capturePayment := (capturePayment container_).

Lemma with_world_id (σ : State W) : with_world (world σ) σ = σ.
Proof. by destruct σ. Qed.


Lemma retrieveProvider_unregistered providerId :
  providerId ≠ "system" →
  container_ !! ("pp_" +:+ providerId) = None →
  retrieveProvider providerId
    = Err (MedusaError NOT_FOUND
             ("Could not find a payment provider with id: " +:+ providerId)).
Proof.
  intros Hsys Hkey. unfold PaymentProviderService.retrieveProvider.
  rewrite decide_False by done. by rewrite Hkey.
Qed.

Lemma retrieveProvider_system provider :
  container_ !! "systemPaymentProviderService" = Some provider →
  retrieveProvider "system" = Ok provider.
Proof.
  intros Hkey. unfold PaymentProviderService.retrieveProvider.
  rewrite decide_True by done. by rewrite Hkey.
Qed.

(** C4.  When no provider is registered under [pp_<providerId>] and the
    id is not "system", [createSession] fails with NotFound (raised by
    [retrieveProvider]) and does nothing else; the id "system" resolves the
    provider registered as the system payment provider. *)
Theorem createSession_unregistered_provider (args : CreateSessionArgs) (σ : State W) :
  providerIdOf args ≠ "system" →
  container_ !! ("pp_" +:+ providerIdOf args) = None →
  fails_with (retrieveProvider (providerIdOf args)) NOT_FOUND
  ∧ createSession args σ
      = (Err (MedusaError NOT_FOUND
                ("Could not find a payment provider with id: " +:+ providerIdOf args)),
         σ)
  ∧ ∀ provider,
      container_ !! "systemPaymentProviderService" = Some provider →
      retrieveProvider "system" = Ok provider.
Proof.
  intros Hsys Hkey.
  pose proof (retrieveProvider_unregistered _ Hsys Hkey) as Hprov.
  split; [by rewrite Hprov|]. split; [|apply retrieveProvider_system].
  unfold PaymentProviderService.createSession, atomicPhase_, bind, lift.
  fold (providerIdOf args). rewrite Hprov. simpl. by rewrite with_world_id.
Qed.

Lemma saveSession_no_amount_any_flag providerId data (σ : State W) flags key :
  amount data = None →
  PaymentProviderService.saveSession flags key providerId data σ
    = saveSession providerId data σ.
Proof.
  intros Hamount. unfold PaymentProviderService.saveSession.
  by rewrite Hamount, !bool_decide_eq_false_2 by (by intros []).
Qed.

Lemma saveSession_rejects_amount providerId data a (σ : State W) :
  amount data = Some a →
  isFeatureEnabled featureFlagRouter_ OrderEditingFeatureFlag_key = false →
  saveSession providerId data σ
    = (Err (MedusaError INVALID_ARGUMENT
         "Unable to save the payment session with an amoutn. The feature flag order edit is not enabled."),
       σ).
Proof.
  intros Hamount Hflag. unfold PaymentProviderService.saveSession.
  by rewrite Hamount, Hflag, bool_decide_eq_true_2.
Qed.



(** C9.  With the order-editing flag disabled, saving a session with an
    amount fails with InvalidArgument and saves nothing; [createSessionNew]
    with an amount therefore never succeeds nor leaves a session row, and
    fails with that error once the provider has created the payment and the
    collected data is processed; a session saved without an amount is saved
    the same whatever the flag. *)
Theorem saveSession_amount_needs_order_editing
    (providerId : string) (data : SessionData) (a : Z) (σ : State W) :
  amount data = Some a →
  isFeatureEnabled featureFlagRouter_ OrderEditingFeatureFlag_key = false →
  saveSession providerId data σ
    = (Err (MedusaError INVALID_ARGUMENT
         "Unable to save the payment session with an amoutn. The feature flag order edit is not enabled."),
       σ)
  ∧ (∀ sessionInput σ0,
       PaymentSessionInput.amount sessionInput = Some a →
       ¬ is_Ok (createSessionNew sessionInput σ0).1
       ∧ payment_sessions (createSessionNew sessionInput σ0).2 = payment_sessions σ0
       ∧ ∀ provider paymentResponse w σ1,
           retrieveProvider (PaymentSessionInput.provider_id sessionInput) = Ok provider →
           AbstractPaymentService.createPaymentNew provider
             (contextOfInput sessionInput) (world σ0) = (Ok paymentResponse, w) →
           processCollectedData
             (PaymentSessionInput.customer sessionInput ≫= Customer.id)
             paymentResponse (with_world w σ0) = (Ok (), σ1) →
           fails_with (createSessionNew sessionInput σ0).1 INVALID_ARGUMENT)
  ∧ (∀ flags key data',
       amount data' = None →
       PaymentProviderService.saveSession flags key providerId data' σ
         = saveSession providerId data' σ).
Proof.
  intros Hamount Hflag. split; [by eapply saveSession_rejects_amount|].
  split; [|intros; by apply saveSession_no_amount_any_flag].
  intros sessionInput σ0 Hin.
  unfold PaymentProviderService.createSessionNew, atomicPhase_, bind, lift.
  destruct (retrieveProvider _) as [provider|e]; simpl;
    [|split_and!; [tauto|done|intros; discriminate]].
  destruct (call _ σ0) as [[paymentResponse|e] σ1] eqn:Hcall; simpl;
    [|split_and!; [tauto|done|]].
  - destruct (processCollectedData _ _ σ1) as [[[]|e] σ2] eqn:Hcollect; simpl;
      [|split_and!; [tauto|done|]].
    + erewrite saveSession_rejects_amount by done. simpl.
      split_and!; [tauto|done|done].
    + intros provider' response' w σ1' [= <-] Hcreate Hcollect'.
      unfold call in Hcall. rewrite Hcreate in Hcall.
      injection Hcall as <- <-. congruence.
  - intros provider' response' w σ1' [= <-] Hcreate _.
    unfold call in Hcall. by rewrite Hcreate in Hcall.
Qed.

(** C5.  For a session that exists, whose provider is registered and
    answers, [authorizePayment] saves the session with the status and data
    the provider returned, and stamps [payment_authorized_at] with the
    current instant exactly when the order-editing flag is enabled and the
    status is AUTHORIZED; otherwise that field keeps its value.  The other
    fields and the other sessions are untouched. *)
Theorem authorizePayment_persists_provider_answer
    (paymentSession session : PaymentSession.t) (context : Data) (now : Time)
    (provider : AbstractPaymentService.t W) (status : PaymentSessionStatus)
    (data : Data) (w' : W) (σ : State W) :
  payment_sessions σ !! PaymentSession.id paymentSession = Some session →
  retrieveProvider (PaymentSession.provider_id paymentSession) = Ok provider →
  AbstractPaymentService.authorizePayment provider session context (world σ)
    = (Ok (status, data), w') →
  ∃ saved σ',
    authorizePayment paymentSession context now σ = (Ok (Some saved), σ')
    ∧ payment_sessions σ'
        = <[PaymentSession.id session := saved]> (payment_sessions σ)
    ∧ PaymentSession.status saved = status
    ∧ PaymentSession.data saved = data
    ∧ PaymentSession.payment_authorized_at saved
        = (if isFeatureEnabled featureFlagRouter_ OrderEditingFeatureFlag_key
              && bool_decide (status = AUTHORIZED)
           then Some now
           else PaymentSession.payment_authorized_at session)
    ∧ saved
        = PaymentSession.with_payment_authorized_at
            (PaymentSession.payment_authorized_at saved)
            (PaymentSession.with_status status
               (PaymentSession.with_data data session)).
Proof.
  intros Hsession Hprovider Hanswer.
  unfold PaymentProviderService.authorizePayment, atomicPhase_, retrieveSession.
  rewrite Hsession. unfold bind, lift, call, modify, ret.
  rewrite Hprovider, Hanswer. simpl.
  destruct (isFeatureEnabled _ _ && bool_decide _); eexists _, _; by split_and!.
Qed.

End PaymentProviderService_properties.

(** ** DiscountConditionService *)

Section DiscountConditionService_properties.
Import DiscountConditionService.
Variable PostgresError_DUPLICATE_ERROR : string.

Local Abbreviation upsertCondition := (upsertCondition PostgresError_DUPLICATE_ERROR).


Lemma resolveConditionType_first data :
  resolveConditionType_ data = firstNonEmpty (conditionLists data).
Proof.
  unfold resolveConditionType_, firstNonEmpty, conditionLists.
  destruct data as [? ? ? p pc pt ptag cg]; simpl.
  destruct p as [[|? ?]|], pc as [[|? ?]|], pt as [[|? ?]|],
    ptag as [[|? ?]|], cg as [[|? ?]|]; reflexivity.
Qed.

(** C7.  The resolved condition type is that of the first non-empty list
    among products, product_collections, product_types, product_tags and
    customer_groups, in this order, with that list as its resources; and
    when none of the five is non-empty, [upsertCondition] fails with
    InvalidData and changes nothing. *)
Theorem resolveConditionType_priority
    (discountId : string) (data : UpsertDiscountConditionInput) (σ : State) :
  resolveConditionType_ data = firstNonEmpty (conditionLists data)
  ∧ (Forall (λ entry, ¬ hasElements entry) (conditionLists data) →
     resolveConditionType_ data = None
     ∧ upsertCondition discountId data σ
         = (Err (MedusaError INVALID_DATA
              "Missing one of products, collections, tags, types or customer groups in data"),
            σ)).
Proof.
  split; [apply resolveConditionType_first|].
  intros Hnone.
  assert (resolveConditionType_ data = None) as Hresolved.
  { rewrite resolveConditionType_first. unfold firstNonEmpty.
    by rewrite (proj2 (list_find_None hasElements _) Hnone). }
  split; [done|].
  unfold DiscountConditionService.upsertCondition, atomicPhase_.
  by rewrite Hresolved.
Qed.

(** C10.  [remove] of an id with no condition resolves and leaves the
    store as it is; of an id with a condition, it resolves and deletes that
    condition and nothing else. *)
Theorem remove_absent_condition_is_noop (discountConditionId : string) (σ : State) :
  (discount_conditions σ !! discountConditionId = None →
   remove discountConditionId σ = (Ok (), σ))
  ∧ (conditions_by_id σ →
     is_Some (discount_conditions σ !! discountConditionId) →
     ∃ σ',
       remove discountConditionId σ = (Ok (), σ')
       ∧ discount_conditions σ' = delete discountConditionId (discount_conditions σ)
       ∧ discount_conditions σ' !! discountConditionId = None
       ∧ (∀ other, other ≠ discountConditionId →
            discount_conditions σ' !! other = discount_conditions σ !! other)
       ∧ condition_resources σ' = condition_resources σ
       ∧ discounts σ' = discounts σ).
Proof.
  unfold remove, atomicPhase_. split.
  - intros Habsent. by rewrite Habsent.
  - intros Hkeys [condition Hfound]. rewrite Hfound.
    rewrite (Hkeys _ _ Hfound). eexists. split; [done|]. simpl.
    split_and!; [done|apply lookup_delete_eq| |done|done].
    intros other Hother. by apply lookup_delete_ne.
Qed.
End DiscountConditionService_properties.

(** ** PaymentProviderService: refunds *)

Section refund_properties.
Import PaymentProviderService.
Context {W : Type}.
Variable container_ : gmap string (AbstractPaymentService.t W).

Local Abbreviation retrieveProvider := (retrieveProvider container_).
Local Abbreviation refund_loop := (refund_loop container_).
Local Abbreviation refundPayment_drain := (refundPayment_drain container_).
Local Abbreviation refundPayment := (refundPayment container_).
Local Abbreviation refundFromPayment := (refundFromPayment container_).
Local Abbreviation exec := (exec container_).
Local Abbreviation run := (run container_).
Local Abbreviation admissible := (admissible container_).

Lemma refund_loop_done fuel payments balance used (σ : State W) :
  refund_loop fuel None payments balance used σ = Some (Ok payments, σ).
Proof. by destruct fuel. Qed.

Lemma refund_loop_step fuel i p payments balance used (σ : State W) :
  refund_loop (S fuel) (Some (i, p)) payments balance used σ
  = match retrieveProvider (Payment.provider_id p) with
    | Err e => Some (Err e, σ)
    | Ok provider =>
        let refundAmount := Z.min (remaining p) balance in
        match AbstractPaymentService.refundPayment provider p refundAmount (world σ) with
        | (Err e, w) => Some (Err (FromProvider e), with_world w σ)
        | (Ok data, w) =>
            let p' := refund_of p data refundAmount in
            let payments' := <[i := p']> payments in
            let used' := used ++ [Payment.id p] in
            refund_loop fuel
              (if decide (0 < balance - refundAmount)
               then list_find (refundable_unused used') payments'
               else None)
              payments' (balance - refundAmount) used'
              (paymentRepo_save p' (with_world w σ))
        end
    end.
Proof.
  simpl. unfold bind, lift, call.
  destruct (retrieveProvider _) as [provider|e]; [|done].
  by destruct (AbstractPaymentService.refundPayment _ _ _ _) as [[data|e] w].
Qed.

(** *** The loop ends *)

Lemma ids_insert_refund (payments : list Payment.t) i p data refundAmount :
  payments !! i = Some p →
  Payment.id <$> <[i := refund_of p data refundAmount]> payments
    = Payment.id <$> payments.
Proof.
  intros Hi. rewrite list_fmap_insert. apply list_insert_id.
  by rewrite list_lookup_fmap, Hi.
Qed.

Lemma unused_shrinks (ids used : list string) (k : string) :
  k ∈ ids → k ∉ used →
  (length (filter (.∉ used ++ [k]) ids) < length (filter (.∉ used) ids))%nat.
Proof.
  intros Hin Hunused.
  rewrite <- (list_filter_filter_l (.∉ used ++ [k]) (.∉ used)) by set_solver.
  apply (length_filter_lt _ _ k); [|set_solver].
  by apply list_elem_of_filter.
Qed.

Lemma refund_loop_total fuel next payments balance used (σ : State W) :
  (∀ i p, next = Some (i, p) → payments !! i = Some p ∧ Payment.id p ∉ used) →
  (length (filter (.∉ used) (Payment.id <$> payments)) < fuel)%nat →
  is_Some (refund_loop fuel next payments balance used σ).
Proof.
  revert next payments balance used σ.
  induction fuel as [|fuel IH]; intros next payments balance used σ Hnext Hfuel; [lia|].
  destruct next as [[i p]|]; [|by rewrite refund_loop_done].
  destruct (Hnext i p eq_refl) as [Hi Hunused].
  rewrite refund_loop_step.
  destruct (retrieveProvider _) as [provider|e]; [|done]. simpl.
  destruct (AbstractPaymentService.refundPayment _ _ _ _) as [[data|e] w]; [|done].
  apply IH.
  - intros j q. case_decide; [|done].
    intros (Hj & [_ Hq] & _)%list_find_Some. done.
  - rewrite ids_insert_refund by done.
    eapply Nat.lt_le_trans; [apply unused_shrinks|lia]; [|done].
    apply list_elem_of_fmap. exists p. split; [done|]. by eapply list_elem_of_lookup_2.
Qed.

(** *** What the loop can throw, and what it leaves alone *)

Lemma refund_loop_throws fuel next payments balance used (σ σ' : State W) e :
  refund_loop fuel next payments balance used σ = Some (Err e, σ') →
  (∃ message, e = MedusaError NOT_FOUND message) ∨ (∃ error, e = FromProvider error).
Proof.
  revert next payments balance used σ.
  induction fuel as [|fuel IH]; intros next payments balance used σ.
  - by destruct next as [[i p]|].
  - destruct next as [[i p]|]; [|by rewrite refund_loop_done].
    rewrite refund_loop_step. unfold PaymentProviderService.retrieveProvider.
    destruct (container_ !! _) as [provider|]; [|intros [= <- _]; eauto]. simpl.
    destruct (AbstractPaymentService.refundPayment _ _ _ _) as [[data|e'] w];
      [apply IH|intros [= <- _]; eauto].
Qed.

(** A property of the rows that every refund of the loop establishes is
    kept by the loop; the other tables are not written. *)
Lemma refund_loop_rows (Φ : string → Payment.t → Prop)
    fuel next payments balance used (σ σ' : State W) r :
  (∀ p data b, Φ (Payment.id p) (refund_of p data (Z.min (remaining p) b))) →
  (∀ key p, PaymentProviderService.payments σ !! key = Some p → Φ key p) →
  refund_loop fuel next payments balance used σ = Some (r, σ') →
  (∀ key p, PaymentProviderService.payments σ' !! key = Some p → Φ key p)
  ∧ refunds σ' = refunds σ
  ∧ payment_sessions σ' = payment_sessions σ
  ∧ customers σ' = customers σ
  ∧ id_seq σ' = id_seq σ.
Proof.
  intros Hrefund. revert next payments balance used σ.
  induction fuel as [|fuel IH]; intros next payments balance used σ Hrows.
  - destruct next as [[i p]|]; [done|]. by intros [= <- <-].
  - destruct next as [[i p]|]; [|rewrite refund_loop_done; by intros [= <- <-]].
    rewrite refund_loop_step.
    destruct (retrieveProvider _) as [provider|e]; [|by intros [= <- <-]]. simpl.
    destruct (AbstractPaymentService.refundPayment _ _ _ _) as [[data|e] w];
      [|by intros [= <- <-]].
    intros Hloop. apply IH in Hloop; [done|].
    intros key q. unfold paymentRepo_save. simpl.
    destruct (decide (Payment.id p = key)) as [<-|Hne].
    + rewrite lookup_insert_eq. intros [= <-]. apply Hrefund.
    + rewrite lookup_insert_ne by done. apply Hrows.
Qed.

(** *** The listing *)

Lemma submseteq_NoDup {A} (l k : list A) : NoDup k → l ⊆+ k → NoDup l.
Proof.
  intros Hk (l' & Hperm & Hsub)%submseteq_sublist_r.
  rewrite Hperm. by eapply sublist_NoDup.
Qed.

Lemma listPayments_rows ids config (σ : State W) :
  listPayments ids config σ ⊆+ (map_to_list (PaymentProviderService.payments σ)).*2.
Proof.
  unfold listPayments, paymentRepo_find.
  etrans; [apply sublist_submseteq, sublist_take|].
  etrans; [apply sublist_submseteq, sublist_drop|].
  etrans; [|apply sublist_submseteq, (sublist_filter (λ p, Payment.id p ∈ ids))].
  destruct (FindConfig.order_created_at_DESC config); [|done].
  by rewrite merge_sort_Permutation.
Qed.

Lemma listPayments_in_sync ids config (σ : State W) q :
  payments_by_id σ →
  q ∈ listPayments ids config σ →
  PaymentProviderService.payments σ !! Payment.id q = Some q.
Proof.
  intros Hkeys Hq.
  eapply elem_of_submseteq in Hq; [|apply listPayments_rows].
  apply list_elem_of_fmap in Hq as ([key q'] & -> & Hq%elem_of_map_to_list).
  simpl. by rewrite (Hkeys _ _ Hq).
Qed.

Lemma listPayments_NoDup ids config (σ : State W) :
  payments_by_id σ →
  NoDup (Payment.id <$> listPayments ids config σ).
Proof.
  intros Hkeys.
  eapply submseteq_NoDup; [|apply fmap_submseteq, listPayments_rows].
  replace (Payment.id <$> (map_to_list (PaymentProviderService.payments σ)).*2)
    with (map_to_list (PaymentProviderService.payments σ)).*1;
    [apply NoDup_fst_map_to_list|].
  rewrite <- list_fmap_compose. apply list_fmap_ext.
  intros i [key q] Hi%list_elem_of_lookup_2%elem_of_map_to_list. simpl.
  by rewrite (Hkeys _ _ Hi).
Qed.

(** *** Searching a list *)

Lemma list_find_middle {A} (P : A → Prop) `{!∀ x, Decision (P x)} l1 x l2 :
  Forall (λ y, ¬ P y) l1 → P x →
  list_find P (l1 ++ x :: l2) = Some (length l1, x).
Proof.
  intros Hl1 Hx. apply list_find_Some. split_and!; [by apply list_lookup_middle|done|].
  intros j y Hj Hlt. rewrite lookup_app_l in Hj by done.
  by eapply Forall_lookup_1 in Hl1.
Qed.

Lemma list_find_split {A} (P : A → Prop) `{!∀ x, Decision (P x)} l i x :
  list_find P l = Some (i, x) →
  ∃ l1 l2, l = l1 ++ x :: l2 ∧ i = length l1 ∧ Forall (λ y, ¬ P y) l1 ∧ P x.
Proof.
  intros (Hi & Hx & Hbefore)%list_find_Some.
  exists (take i l), (drop (S i) l). split_and!; [by rewrite take_drop_middle| |
    |done].
  - rewrite length_take. apply lookup_lt_Some in Hi. lia.
  - apply Forall_lookup_2. intros j y Hj.
    pose proof (lookup_lt_Some _ _ _ Hj) as Hlt. rewrite length_take in Hlt.
    rewrite lookup_take_lt in Hj by lia. eapply Hbefore; [done|lia].
Qed.

(** *** The greedy drain *)

Lemma greedy_skip l1 l2 balance :
  Forall (λ r, r ≤ 0) l1 →
  greedy (l1 ++ l2) balance = replicate (length l1) 0 ++ greedy l2 balance.
Proof.
  induction 1 as [|r l1 Hr _ IH]; [done|]. simpl.
  rewrite decide_False by lia. by rewrite IH.
Qed.

Lemma greedy_nothing l balance :
  Forall (λ r, r ≤ 0) l → greedy l balance = replicate (length l) 0.
Proof.
  intros Hl. rewrite <- (app_nil_r l) at 1. rewrite greedy_skip by done.
  apply app_nil_r.
Qed.

Lemma greedy_nonneg l balance : 0 ≤ balance → Forall (λ r, 0 ≤ r) (greedy l balance).
Proof.
  revert balance. induction l as [|r l IH]; intros balance Hbalance; simpl; [done|].
  case_decide.
  - constructor; [lia|]. case_decide; [apply IH; lia|].
    apply Forall_replicate. lia.
  - constructor; [lia|]. by apply IH.
Qed.




Lemma refundable_reduce_balance payments :
  (refundable_reduce payments).1 = refundableBalance payments.
Proof.
  unfold refundable_reduce.
  enough (∀ acc order_id,
    (foldl (λ '(acc, order_id) next,
        match Payment.captured_at next with
        | Some _ =>
            (acc + (Payment.amount next - Payment.amount_refunded next),
             Payment.order_id next)
        | None => (acc, Payment.order_id next)
        end) (acc, order_id) payments).1 = acc + refundableBalance payments) as ->
    by done.
  induction payments as [|p payments IH]; intros acc order_id; simpl; [lia|].
  destruct (Payment.captured_at p); rewrite IH; unfold remaining; lia.
Qed.

Lemma refunded_by_nothing q : refunded_by 0 q q.
Proof. unfold refunded_by, refund_of. destruct q; simpl. by rewrite Z.add_0_r. Qed.

Lemma refunded_by_untouched (l : list Payment.t) :
  Forall3 refunded_by (replicate (length l) 0) l l.
Proof. induction l; constructor; [apply refunded_by_nothing|done]. Qed.

(** *** The loop is the greedy drain *)

Lemma remaining_refund_of p data balance :
  0 < balance - Z.min (remaining p) balance →
  remaining (refund_of p data (Z.min (remaining p) balance)) = 0.
Proof. unfold remaining. simpl. lia. Qed.

Lemma greedy_take r l balance :
  0 < r →
  greedy (r :: l) balance
  = Z.min r balance ::
      (if decide (0 < balance - Z.min r balance)
       then greedy l (balance - Z.min r balance)
       else replicate (length l) 0).
Proof. intros Hr. cbn [greedy]. by rewrite decide_True. Qed.

Lemma refund_loop_greedy fuel pre p suf balance used (σ σ' : State W) payments' :
  NoDup (Payment.id <$> (pre ++ p :: suf)) →
  (∀ key, key ∈ used → key ∈ Payment.id <$> pre) →
  Forall (λ q, remaining q ≤ 0) pre →
  0 < remaining p →
  in_sync (pre ++ p :: suf) σ →
  refund_loop fuel (Some (length pre, p)) (pre ++ p :: suf) balance used σ
    = Some (Ok payments', σ') →
  ∃ suf',
    payments' = pre ++ suf'
    ∧ Forall3 refunded_by (greedy (remaining <$> (p :: suf)) balance) (p :: suf) suf'
    ∧ in_sync payments' σ'
    ∧ ∀ key, key ∉ Payment.id <$> (pre ++ p :: suf) →
             PaymentProviderService.payments σ' !! key
               = PaymentProviderService.payments σ !! key.
Proof.
  revert pre p suf balance used σ σ' payments'.
  induction fuel as [|fuel IH];
    intros pre p suf balance used σ σ' payments' Hnodup Hused Hpre Hp Hsync; [done|].
  rewrite refund_loop_step.
  destruct (retrieveProvider _) as [provider|e]; [|done]. cbv zeta.
  destruct (AbstractPaymentService.refundPayment _ _ _ _) as [[data|e] w]; [|done].
  set (r := Z.min (remaining p) balance).
  set (p' := refund_of p data r).
  set (σ1 := paymentRepo_save p' (with_world w σ)).
  replace (<[length pre := p']> (pre ++ p :: suf)) with (pre ++ p' :: suf)
    by (by rewrite insert_app_r_alt, Nat.sub_diag by lia).
  pose proof Hnodup as Hids.
  rewrite fmap_app, fmap_cons in Hids.
  apply NoDup_app in Hids as (Hnd_pre & Hdisj & (Hp_suf & Hnd_suf)%NoDup_cons).
  assert (in_sync (pre ++ p' :: suf) σ1) as Hsync1.
  { intros q [Hq|[->|Hq]%elem_of_cons]%elem_of_app; unfold σ1; simpl.
    - rewrite lookup_insert_ne; [apply Hsync; set_solver|].
      intros Heq. eapply (Hdisj (Payment.id q)); [set_solver|].
      rewrite <- Heq. set_solver.
    - apply lookup_insert_eq.
    - rewrite lookup_insert_ne; [apply Hsync; set_solver|].
      intros Heq. apply Hp_suf. rewrite Heq. set_solver. }
  assert (∀ key, key ∉ Payment.id <$> (pre ++ p :: suf) →
     PaymentProviderService.payments σ1 !! key
       = PaymentProviderService.payments σ !! key) as Hframe1.
  { intros key Hkey. unfold σ1. simpl. apply lookup_insert_ne. set_solver. }
  assert (Forall3 refunded_by (replicate (length suf) 0) suf suf) as Hsuf
    by apply refunded_by_untouched.
  case_decide as Hbalance; cycle 1.
  { (* the balance is used up *)
    rewrite refund_loop_done. intros [= <- <-]. exists (p' :: suf).
    split_and!; [done| |done|done].
    rewrite fmap_cons, greedy_take by done. fold r. rewrite decide_False by done.
    constructor; [done|]. by rewrite length_fmap. }
  assert (remaining p' = 0) as Hp' by (by apply remaining_refund_of).
  assert (∀ q, q ∈ suf → Payment.id q ∉ used ++ [Payment.id p]) as Hfresh.
  { intros q Hq [Hin%Hused|Hin%list_elem_of_singleton]%elem_of_app.
    - eapply Hdisj; [done|]. by apply list_elem_of_further, list_elem_of_fmap_2.
    - apply Hp_suf. rewrite <- Hin. by apply list_elem_of_fmap_2. }
  destruct (list_find (refundable_unused (used ++ [Payment.id p])) suf)
    as [[j q]|] eqn:Hfind.
  - (* the drain goes on with [q] *)
    apply list_find_split in Hfind as (mid & suf2 & -> & -> & Hmid & Hq).
    assert (Forall (λ q, remaining q ≤ 0) (pre ++ p' :: mid)) as Hpre'.
    { apply Forall_app. split; [done|]. constructor; [lia|].
      apply Forall_forall. intros m Hm.
      eapply Forall_forall in Hmid; [|done].
      destruct (decide (0 < remaining m)); [|lia].
      exfalso. apply Hmid. split; [done|]. apply Hfresh. set_solver. }
    replace (pre ++ p' :: mid ++ q :: suf2) with ((pre ++ p' :: mid) ++ q :: suf2)
      in * by (by rewrite <- app_assoc).
    assert (Payment.id <$> (pre ++ p' :: mid) ++ q :: suf2
            = Payment.id <$> pre ++ p :: mid ++ q :: suf2) as Hids'
      by (rewrite <- app_assoc; repeat (rewrite fmap_app || rewrite fmap_cons);
          reflexivity).
    rewrite (list_find_middle _ (pre ++ p' :: mid) q suf2); [|
      |done].
    2:{ eapply Forall_impl; [apply Hpre'|]. intros m Hm [Hpos _].
        unfold remaining in Hm. lia. }
    intros Hloop. apply IH in Hloop as (suf' & -> & Hgreedy & Hsync' & Hframe');
      [| |
       |done|by destruct Hq|done].
    + exists (p' :: mid ++ suf'). split_and!; [by rewrite <- app_assoc| |done|].
      * rewrite fmap_cons, greedy_take by done. fold r. rewrite decide_True by done.
        constructor; [done|].
        rewrite fmap_app, greedy_skip.
        -- apply Forall3_app; [|done]. rewrite length_fmap.
           apply refunded_by_untouched.
        -- apply Forall_fmap. eapply Forall_impl; [|done].
           apply Forall_app in Hpre' as [_ Hmid'%Forall_cons_1]. apply Hmid'.
      * intros key Hkey. rewrite Hframe'; [by apply Hframe1|]. by rewrite Hids'.
    + by rewrite Hids'.
    + intros key [Hin%Hused|Hin%list_elem_of_singleton]%elem_of_app;
        rewrite fmap_app, fmap_cons; apply elem_of_app; [by left|right].
      rewrite Hin. apply list_elem_of_here.
  - (* nothing is left to take from *)
    apply list_find_None in Hfind.
    assert (Forall (λ q, remaining q ≤ 0) suf) as Hnothing.
    { apply Forall_forall. intros m Hm.
      eapply Forall_forall in Hfind; [|done].
      destruct (decide (0 < remaining m)); [|lia].
      exfalso. apply Hfind. split; [done|]. by apply Hfresh. }
    rewrite (proj2 (list_find_None _ (pre ++ p' :: suf))).
    2:{ apply Forall_app. split; [|constructor].
        - eapply Forall_impl; [apply Hpre|]. intros m Hm [Hpos _].
          unfold remaining in Hm. lia.
        - intros [Hpos _]. unfold remaining in Hp'. lia.
        - done. }
    rewrite refund_loop_done. intros [= <- <-]. exists (p' :: suf).
    split_and!; [done| |done|done].
    rewrite fmap_cons, greedy_take by done. fold r. rewrite decide_True by done.
    constructor; [done|].
    rewrite greedy_nothing by (by apply Forall_fmap).
    by rewrite length_fmap.
Qed.

(** *** The whole drain *)

Lemma refundPayment_drain_greedy payObjs amount (σ σ' : State W) payments' :
  payments_by_id σ →
  refundPayment_drain payObjs amount σ = Some (Ok payments', σ') →
  let listed := listPayments (Payment.id <$> payObjs) listPayments_defaultConfig σ in
  ¬ refundableBalance listed < amount
  ∧ Forall3 refunded_by (greedy (remaining <$> listed) amount) listed payments'
  ∧ in_sync payments' σ'
  ∧ ∀ key, key ∉ Payment.id <$> listed →
           PaymentProviderService.payments σ' !! key
             = PaymentProviderService.payments σ !! key.
Proof.
  intros Hkeys. unfold refundPayment_drain. cbv zeta.
  set (listed := listPayments _ _ σ). rewrite refundable_reduce_balance.
  case_decide as Hallowed; [done|].
  assert (in_sync listed σ) as Hsync
    by (intros q Hq; by eapply listPayments_in_sync).
  pose proof (listPayments_NoDup (Payment.id <$> payObjs) listPayments_defaultConfig
                σ Hkeys) as Hnodup.
  fold listed in Hnodup.
  destruct (list_find _ listed) as [[i p]|] eqn:Hfind.
  - apply list_find_split in Hfind as (pre & suf & Hlisted & -> & Hpre & Hp).
    rewrite Hlisted in *. intros Hloop.
    assert (Forall (λ q, remaining q ≤ 0) pre) as Hpre'.
    { eapply Forall_impl; [done|]. unfold remaining. simpl. lia. }
    apply refund_loop_greedy in Hloop as (suf' & -> & Hgreedy & Hsync' & Hframe);
      [|done|by intros key ?%elem_of_nil|done|done|done].
    split_and!; [done| |done|done].
    rewrite fmap_app, greedy_skip by (by apply Forall_fmap).
    apply Forall3_app; [|done]. rewrite length_fmap. apply refunded_by_untouched.
  - rewrite refund_loop_done. intros [= <- <-].
    apply list_find_None in Hfind.
    split_and!; [done| |done|done].
    rewrite greedy_nothing, length_fmap; [apply refunded_by_untouched|].
    apply Forall_fmap. eapply Forall_impl; [done|]. unfold remaining. simpl. lia.
Qed.

Lemma refundPayment_drain_total payObjs amount (σ : State W) :
  is_Some (refundPayment_drain payObjs amount σ).
Proof.
  unfold refundPayment_drain. cbv zeta.
  case_decide; [done|]. apply refund_loop_total.
  - intros i p (Hi & _)%list_find_Some. split; [done|]. apply not_elem_of_nil.
  - eapply Nat.le_lt_trans; [apply length_filter|]. rewrite length_fmap. lia.
Qed.

Lemma refundPayment_drain_throws payObjs amount (σ σ' : State W) e :
  refundPayment_drain payObjs amount σ = Some (Err e, σ') →
  let listed := listPayments (Payment.id <$> payObjs) listPayments_defaultConfig σ in
  (refundableBalance listed < amount
   ∧ e = MedusaError NOT_ALLOWED "Refund amount is greater that the refundable amount"
   ∧ σ' = σ)
  ∨ (¬ refundableBalance listed < amount
     ∧ ((∃ message, e = MedusaError NOT_FOUND message)
        ∨ (∃ error, e = FromProvider error))).
Proof.
  unfold refundPayment_drain. cbv zeta.
  set (listed := listPayments _ _ σ). rewrite refundable_reduce_balance.
  case_decide as Hallowed.
  - intros [= <- <-]. by left.
  - intros Hloop%refund_loop_throws. by right.
Qed.

Lemma refundPayment_unfold payObjs amount reason note (σ : State W) :
  refundPayment payObjs amount reason note σ
  = match refundPayment_drain payObjs amount σ with
    | None => None
    | Some (Err e, σ') => Some (Err e, with_world (world σ') σ)
    | Some (Ok _, σ') =>
        Some (Ok (refund_record payObjs amount reason note σ),
              refundRepo_save (refund_record payObjs amount reason note σ) σ')
    end.
Proof.
  unfold PaymentProviderService.refundPayment, refundPayment_drain, refund_record.
  cbv zeta. destruct (refundable_reduce _) as [refundable order_id].
  cbn [fst snd]. case_decide; [done|].
  by destruct (refund_loop _ _ _ _ _ _) as [[[payments'|e] σ']|].
Qed.

Lemma refundPayment_drain_greedy_allowed payObjs amount (σ σ' : State W) payments' :
  refundPayment_drain payObjs amount σ = Some (Ok payments', σ') →
  ¬ refundableBalance
      (listPayments (Payment.id <$> payObjs) listPayments_defaultConfig σ) < amount.
Proof.
  unfold refundPayment_drain. cbv zeta.
  set (listed := listPayments _ _ σ). rewrite refundable_reduce_balance.
  by case_decide.
Qed.

(** *** Theorems on refunds *)

(** C1 (amended).  [refundPayment] always returns.  The balance it checks
    is the sum of [amount - amount_refunded] over the captured payments
    among those the payment table lists for the ids of the given payments
    (the 50 most recently created ones at most); it fails with NotAllowed
    exactly when the requested amount exceeds this balance, and then the
    state is as before; after any failure the payments are as before and no
    refund record is created. *)
Theorem refundPayment_not_allowed_exactly
    (payObjs : list Payment.t) (amount : Z) (reason : string) (note : option string)
    (σ : State W) :
  let listed := listPayments (Payment.id <$> payObjs) listPayments_defaultConfig σ in
  ∃ r σ',
    refundPayment payObjs amount reason note σ = Some (r, σ')
    ∧ (fails_with r NOT_ALLOWED ↔ refundableBalance listed < amount)
    ∧ (refundableBalance listed < amount → σ' = σ)
    ∧ (¬ is_Ok r →
       PaymentProviderService.payments σ' = PaymentProviderService.payments σ
       ∧ refunds σ' = refunds σ).
Proof.
  intros listed. rewrite refundPayment_unfold.
  destruct (refundPayment_drain_total payObjs amount σ) as [[[payments'|e] σ'] Hdrain];
    rewrite Hdrain.
  - apply refundPayment_drain_greedy_allowed in Hdrain.
    eexists _, _. split; [done|]. fold listed in Hdrain. simpl.
    split_and!; [tauto|tauto|tauto].
  - apply refundPayment_drain_throws in Hdrain. fold listed in Hdrain.
    eexists _, _. split; [done|]. simpl.
    destruct Hdrain as [(Hexceeds & -> & ->)|(Hallowed & [[message ->]|[error ->]])].
    + split_and!; [done|by rewrite with_world_id|done].
    + split_and!; [split; [done|tauto]|tauto|done].
    + split_and!; [tauto|tauto|done].
Qed.

Lemma refundPayment_drain_rows (Φ : string → Payment.t → Prop)
    payObjs amount (σ σ' : State W) r :
  (∀ p data b, Φ (Payment.id p) (refund_of p data (Z.min (remaining p) b))) →
  (∀ key p, PaymentProviderService.payments σ !! key = Some p → Φ key p) →
  refundPayment_drain payObjs amount σ = Some (r, σ') →
  (∀ key p, PaymentProviderService.payments σ' !! key = Some p → Φ key p)
  ∧ refunds σ' = refunds σ
  ∧ payment_sessions σ' = payment_sessions σ
  ∧ customers σ' = customers σ
  ∧ id_seq σ' = id_seq σ.
Proof.
  intros Hrefund Hrows. unfold refundPayment_drain. cbv zeta.
  case_decide; [by intros [= <- <-]|]. by apply refund_loop_rows.
Qed.


(** *** Sequences of refund calls *)

Lemma never_decreased_refl (σ : State W) : never_decreased σ σ.
Proof. intros key p Hp. by exists p. Qed.

Lemma never_decreased_trans (σ1 σ2 σ3 : State W) :
  never_decreased σ1 σ2 → never_decreased σ2 σ3 → never_decreased σ1 σ3.
Proof.
  intros H12 H23 key p Hp.
  destruct (H12 _ _ Hp) as (p2 & Hp2 & Hamount2 & Hrefunded2).
  destruct (H23 _ _ Hp2) as (p3 & Hp3 & Hamount3 & Hrefunded3).
  exists p3. split_and!; [done|congruence|lia].
Qed.

Lemma never_decreased_same_payments (σ σ' : State W) :
  PaymentProviderService.payments σ' = PaymentProviderService.payments σ →
  never_decreased σ σ'.
Proof. intros Heq key p Hp. exists p. by rewrite Heq. Qed.

Lemma refundFromPayment_unfold payment amount reason note (σ : State W) :
  refundFromPayment payment amount reason note σ
  = if decide (remaining payment < amount) then
      (Err (MedusaError NOT_ALLOWED
              "Refund amount is greater that the refundable amount"), σ)
    else
      match retrieveProvider (Payment.provider_id payment) with
      | Err e => (Err e, σ)
      | Ok provider =>
          match AbstractPaymentService.refundPayment provider payment amount (world σ) with
          | (Err e, w) => (Err (FromProvider e), with_world w σ)
          | (Ok data, w) =>
              let payment' := refund_of payment data amount in
              let created :=
                {| Refund.payment_id := Some (Payment.id payment);
                   Refund.order_id := None;
                   Refund.amount := amount;
                   Refund.reason := reason;
                   Refund.note := note |} in
              (Ok created,
               refundRepo_save created (paymentRepo_save payment' (with_world w σ)))
          end
      end.
Proof.
  unfold PaymentProviderService.refundFromPayment, atomicPhase_, remaining.
  case_decide; [by unfold throw; simpl; rewrite with_world_id|].
  unfold bind, lift, call, modify, ret.
  destruct (retrieveProvider _) as [provider|e]; simpl;
    [|by rewrite with_world_id].
  destruct (AbstractPaymentService.refundPayment _ _ _ _) as [[data|e] w]; simpl;
    [done|by destruct σ].
Qed.

Lemma exec_rows (Φ : string → Payment.t → Prop) call (σ : State W) :
  (∀ p data refundAmount,
     refundAmount ≤ remaining p → Φ (Payment.id p) (refund_of p data refundAmount)) →
  (∀ key p, PaymentProviderService.payments σ !! key = Some p → Φ key p) →
  ∀ key p, PaymentProviderService.payments (exec call σ) !! key = Some p → Φ key p.
Proof.
  intros Hrefund Hrows. destruct call as [payObjs amount reason note|payment amount reason note];
    simpl.
  - rewrite refundPayment_unfold.
    destruct (refundPayment_drain _ _ _) as [[[payments'|e] σ1]|] eqn:Hdrain; [| |done];
      [|done].
    eapply refundPayment_drain_rows in Hdrain as (Hrows1 & _); [done| |done].
    intros p data b. apply Hrefund. lia.
  - rewrite refundFromPayment_unfold. case_decide as Hallowed; [done|].
    destruct (retrieveProvider _) as [provider|e]; [|done].
    destruct (AbstractPaymentService.refundPayment _ _ _ _) as [[data|e] w]; [|done].
    simpl. intros key p.
    destruct (decide (Payment.id payment = key)) as [<-|Hne].
    + rewrite lookup_insert_eq. intros [= <-]. apply Hrefund. lia.
    + rewrite lookup_insert_ne by done. apply Hrows.
Qed.

Lemma exec_invariant call (σ : State W) :
  refund_invariant σ → refund_invariant (exec call σ).
Proof.
  intros Hinv.
  refine (exec_rows (λ _ p, Payment.amount_refunded p ≤ Payment.amount p)
            call σ _ Hinv).
  intros p data refundAmount. unfold remaining. simpl. lia.
Qed.

Lemma exec_by_id call (σ : State W) :
  payments_by_id σ → payments_by_id (exec call σ).
Proof.
  intros Hkeys. by refine (exec_rows (λ key p, Payment.id p = key) call σ _ Hkeys).
Qed.

Lemma refunded_by_fields refundAmount q q' :
  refunded_by refundAmount q q' →
  Payment.id q' = Payment.id q
  ∧ Payment.amount q' = Payment.amount q
  ∧ Payment.amount_refunded q' = Payment.amount_refunded q + refundAmount.
Proof. by intros ->. Qed.

Lemma exec_never_decreased call (σ : State W) :
  payments_by_id σ → 0 ≤ requested call → current call σ →
  never_decreased σ (exec call σ).
Proof.
  intros Hkeys Hrequested Hcurrent.
  destruct call as [payObjs amount reason note|payment amount reason note]; simpl in *.
  - rewrite refundPayment_unfold.
    destruct (refundPayment_drain _ _ _) as [[[payments'|e] σ1]|] eqn:Hdrain;
      [|by apply never_decreased_same_payments|apply never_decreased_refl].
    apply refundPayment_drain_greedy in Hdrain as (_ & Hgreedy & Hsync & Hframe);
      [|done].
    set (listed := listPayments _ _ σ) in *.
    intros key p Hp. simpl.
    destruct (decide (key ∈ Payment.id <$> listed)) as [Hlisted|Hother];
      [|exists p; by rewrite Hframe].
    apply list_elem_of_fmap in Hlisted as (q & -> & Hq).
    pose proof (listPayments_in_sync _ _ _ _ Hkeys Hq) as Hrow.
    assert (q = p) as -> by congruence.
    apply list_elem_of_lookup in Hq as [i Hi].
    destruct (Forall3_lookup_m _ _ _ _ _ _ Hgreedy Hi) as (gave & p' & Hgave & Hi' & Hby).
    apply refunded_by_fields in Hby as (Hid & Hamount & Hrefunded).
    exists p'. split_and!; [|done|].
    + rewrite <- Hid. apply Hsync. by eapply list_elem_of_lookup_2.
    + pose proof (greedy_nonneg (remaining <$> listed) amount Hrequested) as Hnonneg.
      eapply Forall_lookup_1 in Hnonneg; [|done]. simpl in Hnonneg. lia.
  - rewrite refundFromPayment_unfold. case_decide as Hallowed;
      [apply never_decreased_refl|].
    destruct (retrieveProvider _) as [provider|e]; [|apply never_decreased_refl].
    destruct (AbstractPaymentService.refundPayment _ _ _ _) as [[data|e] w];
      [|by apply never_decreased_same_payments].
    intros key p Hp. unfold refundRepo_save, paymentRepo_save. simpl.
    destruct (decide (Payment.id payment = key)) as [<-|Hne].
    + rewrite lookup_insert_eq. eexists. split; [done|].
      assert (p = payment) as -> by congruence. simpl. lia.
    + rewrite lookup_insert_ne by done. by exists p.
Qed.

(** C2 (amended).  Every sequence of [refundPayment] and
    [refundFromPayment] calls keeps [amount_refunded ≤ amount] on every
    payment of the table.  A call that requests an amount that is not
    negative ([refundFromPayment] being handed the payment as the table has
    it) never decreases the [amount_refunded] of any payment, nor changes
    its [amount]; so it is along any sequence of such calls. *)
Theorem refund_calls_keep_invariant (calls : list RefundCall) (σ : State W) :
  (refund_invariant σ → refund_invariant (run calls σ))
  ∧ (payments_by_id σ → admissible calls σ → never_decreased σ (run calls σ)).
Proof.
  split.
  - revert σ. induction calls as [|call calls IH]; intros σ Hinv; [done|].
    simpl. by apply IH, exec_invariant.
  - revert σ. induction calls as [|call calls IH]; intros σ Hkeys Hcalls;
      [apply never_decreased_refl|].
    destruct Hcalls as (Hrequested & Hcurrent & Hcalls). simpl.
    eapply never_decreased_trans; [by apply exec_never_decreased|].
    apply IH; [by apply exec_by_id|done].
Qed.
End refund_properties.

(** ** PaymentProviderService: creating and authorizing sessions *)

Section PaymentProviderService_sessions.
Import PaymentProviderService.
Context {W : Type}.
Variable container_ : gmap string (AbstractPaymentService.t W).
Variable featureFlagRouter_ : gmap string bool.
Variable OrderEditingFeatureFlag_key : string.

Local Abbreviation retrieveProvider := (retrieveProvider container_).
Local Abbreviation saveSession :=
  (saveSession featureFlagRouter_ OrderEditingFeatureFlag_key).
Local Abbreviation createSession :=
  (createSession container_ featureFlagRouter_ OrderEditingFeatureFlag_key).
Local Abbreviation createSessionNew :=
  (createSessionNew container_ featureFlagRouter_ OrderEditingFeatureFlag_key).
Local Abbreviation authorizePayment :=
  (authorizePayment container_ featureFlagRouter_ OrderEditingFeatureFlag_key).

(** Processing the collected data touches the customers only. *)
Lemma processCollectedData_frame customer_id paymentResponse (σ σ' : State W) r :
  processCollectedData customer_id paymentResponse σ = (r, σ') →
  payments σ' = payments σ
  ∧ refunds σ' = refunds σ
  ∧ payment_sessions σ' = payment_sessions σ
  ∧ id_seq σ' = id_seq σ
  ∧ world σ' = world σ.
Proof.
  unfold processCollectedData, customerService_update, ret.
  destruct paymentResponse as [session_data [[collected]|]|data];
    try destruct collected as [customer|];
    destruct customer_id as [id|]; simpl; try (intros [= <- <-]; done).
  case_decide; simpl; [intros [= <- <-]; done|].
  destruct (customers σ !! id); intros [= <- <-]; done.
Qed.

(** The unique key of the session table, by rows. *)
Lemma sessionRepo_taken_spec created (σ : State W) :
  sessionRepo_taken created σ
  ↔ ∃ cart_id,
      PaymentSession.cart_id created = Some cart_id
      ∧ has_session cart_id (PaymentSession.provider_id created) σ.
Proof.
  unfold sessionRepo_taken, has_session. rewrite Exists_exists. split.
  - intros (row & ([key row'] & -> & Hrow%elem_of_map_to_list)%list_elem_of_fmap
            & [cart_id Hcart] & Hsame & Hprovider).
    exists cart_id. split; [done|]. exists key, row'. simpl in *.
    split; [done|]. split; [congruence|done].
  - intros (cart_id & Hcart & key & row & Hrow & Hsame & Hprovider).
    exists row. split.
    + apply list_elem_of_fmap. exists (key, row). split; [done|].
      by apply elem_of_map_to_list.
    + split; [by eexists|]. split; [congruence|done].
Qed.

(** What [saveSession] saves when neither the amount nor the unique key
    of the table stands against it, and how it fails on the key. *)
Lemma saveSession_saves providerId data (σ : State W) :
  (amount data ≠ None →
   isFeatureEnabled featureFlagRouter_ OrderEditingFeatureFlag_key = true) →
  (∀ cart_id, cartId data = Some cart_id → ¬ has_session cart_id providerId σ) →
  let created :=
    {| PaymentSession.id := "ps_" +:+ pretty (id_seq σ);
       PaymentSession.cart_id := cartId data;
       PaymentSession.provider_id := providerId;
       PaymentSession.data := sessionData data;
       PaymentSession.is_selected := None;
       PaymentSession.status := status data;
       PaymentSession.amount := None;
       PaymentSession.payment_authorized_at := None |} in
  saveSession providerId data σ
    = (Ok created,
       mkState (payments σ) (refunds σ)
         (<[PaymentSession.id created := created]> (payment_sessions σ))
         (customers σ) (S (id_seq σ)) (world σ)).
Proof.
  intros Hflag Hfree created.
  assert (PaymentProviderService.saveSession featureFlagRouter_
            OrderEditingFeatureFlag_key providerId data σ
          = (let! id := sessionRepo_nextId in
             let! _ := sessionRepo_insert created in
             ret created) σ) as ->.
  { unfold PaymentProviderService.saveSession.
    destruct (amount data) as [a|] eqn:Ha.
    - rewrite Hflag by done. rewrite andb_false_r. reflexivity.
    - rewrite bool_decide_eq_false_2 by (by intros []). reflexivity. }
  unfold bind, sessionRepo_nextId, sessionRepo_insert, ret. cbv beta iota.
  rewrite decide_False; [reflexivity|].
  intros (cart_id & Hcart & Hhas)%sessionRepo_taken_spec.
  by apply (Hfree cart_id).
Qed.

Lemma saveSession_taken providerId data cart_id (σ : State W) :
  amount data = None →
  cartId data = Some cart_id →
  has_session cart_id providerId σ →
  ∃ σ',
    saveSession providerId data σ = (Err (QueryFailedError unique_violation), σ')
    ∧ world σ' = world σ.
Proof.
  intros Hamount Hcart Hhas. unfold PaymentProviderService.saveSession.
  rewrite Hamount, bool_decide_eq_false_2 by (by intros []).
  unfold bind, sessionRepo_nextId, sessionRepo_insert.
  cbv beta iota delta [andb].
  rewrite decide_True; [by eexists|].
  apply sessionRepo_taken_spec. by exists cart_id.
Qed.

(** X1.  [authorizePayment] resolves with [undefined] exactly for a session
    that is not in the table, and then changes nothing: no provider is
    looked up or called, whether the provider of the session is registered
    or not. *)
Theorem authorizePayment_absent_session
    (paymentSession : PaymentSession.t) (context : Data) (now : Time) (σ : State W) :
  (payment_sessions σ !! PaymentSession.id paymentSession = None →
   authorizePayment paymentSession context now σ = (Ok None, σ))
  ∧ ((authorizePayment paymentSession context now σ).1 = Ok None →
     payment_sessions σ !! PaymentSession.id paymentSession = None).
Proof.
  unfold PaymentProviderService.authorizePayment, atomicPhase_, retrieveSession.
  destruct (payment_sessions σ !! _) as [session|]; [|done].
  split; [discriminate|]. unfold bind, lift, call, modify, ret.
  destruct (retrieveProvider _) as [provider|e]; [|discriminate].
  by destruct (AbstractPaymentService.authorizePayment _ _ _ _) as [[[status data]|e] w].
Qed.


(** X3.  [createSession], once the provider has answered for the context
    built from the cart or the input and the collected data is processed,
    saves one session for the provider of the call and the cart of the
    context when the table has no session of that provider for that cart
    yet: PENDING, with the session data of the answer, not selected and
    without amount, under an id that was not in the table; no other table
    changes.  When the table has such a session already, the call fails on
    the unique key of the table and leaves the tables as they were, while
    the payment that the provider created stays created. *)
Theorem createSession_saves_pending_session
    (args : CreateSessionArgs) (provider : AbstractPaymentService.t W)
    (paymentResponse : PaymentResponse) (w : W) (σ σ1 : State W) :
  let context := buildCreatePaymentContext (cartOrDataOf args) in
  retrieveProvider (providerIdOf args) = Ok provider →
  AbstractPaymentService.createPayment provider context (world σ)
    = (Ok paymentResponse, w) →
  processCollectedData (PaymentContext.customer context ≫= Customer.id)
    paymentResponse (with_world w σ) = (Ok (), σ1) →
  payment_sessions σ !! ("ps_" +:+ pretty (id_seq σ)) = None →
  ((∀ cart_id, PaymentContext.id context = Some cart_id →
               ¬ has_session cart_id (providerIdOf args) σ) →
   ∃ saved σ',
     createSession args σ = (Ok saved, σ')
     ∧ payment_sessions σ !! PaymentSession.id saved = None
     ∧ payment_sessions σ'
         = <[PaymentSession.id saved := saved]> (payment_sessions σ)
     ∧ payments σ' = payments σ
     ∧ refunds σ' = refunds σ
     ∧ world σ' = w
     ∧ saved
         = {| PaymentSession.id := PaymentSession.id saved;
              PaymentSession.cart_id := PaymentContext.id context;
              PaymentSession.provider_id := providerIdOf args;
              PaymentSession.is_selected := None;
              PaymentSession.status := PENDING;
              PaymentSession.data := responseSessionData paymentResponse;
              PaymentSession.amount := None;
              PaymentSession.payment_authorized_at := None |})
  ∧ (∀ cart_id,
       PaymentContext.id context = Some cart_id →
       has_session cart_id (providerIdOf args) σ →
       createSession args σ
         = (Err (QueryFailedError unique_violation),
            mkState (payments σ) (refunds σ) (payment_sessions σ) (customers σ)
              (id_seq σ) w)).
Proof.
  intros context Hprovider Hcreate Hcollect Hfresh.
  pose proof (processCollectedData_frame _ _ _ _ _ Hcollect)
    as (Hpayments & Hrefunds & Hsessions & Hseq & Hworld).
  assert (∀ cart_id, has_session cart_id (providerIdOf args) σ1
                     ↔ has_session cart_id (providerIdOf args) σ) as Hsame
    by (intros cart_id; unfold has_session; by rewrite Hsessions).
  split.
  - intros Hfree.
    unfold PaymentProviderService.createSession, atomicPhase_, bind, lift, call.
    fold (providerIdOf args) (cartOrDataOf args). fold context.
    rewrite Hprovider, Hcreate, Hcollect.
    rewrite saveSession_saves; [|done|].
    + simpl. rewrite Hpayments, Hrefunds, Hsessions, Hseq, Hworld.
      eexists _, _. by split_and!.
    + intros cart_id Hcart Hhas%Hsame. by apply (Hfree cart_id).
  - intros cart_id Hcart Hhas%Hsame.
    unfold PaymentProviderService.createSession, atomicPhase_, bind, lift, call.
    fold (providerIdOf args) (cartOrDataOf args). fold context.
    rewrite Hprovider, Hcreate, Hcollect.
    destruct (saveSession_taken (providerIdOf args)
                {| cartId := PaymentContext.id context;
                   sessionData := responseSessionData paymentResponse;
                   status := PENDING; amount := None; isSelected := None |}
                cart_id σ1 eq_refl Hcart Hhas) as (σ' & -> & Hw).
    simpl. rewrite Hw, Hworld. by destruct σ.
Qed.
End PaymentProviderService_sessions.

(** ** PaymentProviderService: refunds at the edges *)

Section refund_edges.
Import PaymentProviderService.
Context {W : Type}.
Variable container_ : gmap string (AbstractPaymentService.t W).

Local Abbreviation refundPayment := (refundPayment container_).
Local Abbreviation refundFromPayment := (refundFromPayment container_).
Local Abbreviation refundPayment_drain := (refundPayment_drain container_).

Lemma refundableBalance_uncaptured payments :
  Forall (λ p, Payment.captured_at p = None) payments →
  refundableBalance payments = 0.
Proof.
  induction 1 as [|p payments Hp _ IH]; [reflexivity|].
  simpl. rewrite Hp, IH. reflexivity.
Qed.

Lemma refundableBalance_nothing_left payments :
  Forall (λ q, remaining q ≤ 0) payments → refundableBalance payments ≤ 0.
Proof.
  induction 1 as [|p payments Hp _ IH]; [reflexivity|].
  simpl. destruct (Payment.captured_at p); lia.
Qed.

Lemma refundable_reduce_last payments :
  (refundable_reduce payments).2 = last payments ≫= Payment.order_id.
Proof.
  induction payments as [|p payments _] using rev_ind; [reflexivity|].
  unfold refundable_reduce. rewrite foldl_app, last_snoc. simpl.
  destruct (foldl _ _ payments) as [acc order_id].
  by destruct (Payment.captured_at p).
Qed.

(** X4.  Payments that are not captured count for nothing in the balance
    of [refundPayment]: when none of the listed payments is captured, a
    refund of any positive amount fails with NotAllowed and changes
    nothing, however much the payments have left.  [refundFromPayment] has
    no such check: it never refuses an amount that the payment has left. *)
Theorem refundPayment_uncaptured_not_refundable
    (payObjs : list Payment.t) (amount : Z) (reason : string) (note : option string)
    (σ : State W) :
  Forall (λ p, Payment.captured_at p = None)
    (listPayments (Payment.id <$> payObjs) listPayments_defaultConfig σ) →
  0 < amount →
  refundPayment payObjs amount reason note σ
    = Some (Err (MedusaError NOT_ALLOWED
                   "Refund amount is greater that the refundable amount"), σ)
  ∧ ∀ payment,
      amount ≤ remaining payment →
      ¬ fails_with (refundFromPayment payment amount reason note σ).1 NOT_ALLOWED.
Proof.
  intros Hnone Hpos. split.
  - rewrite refundPayment_unfold. unfold refundPayment_drain. cbv zeta.
    idtac.
    rewrite refundable_reduce_balance, refundableBalance_uncaptured by done.
    rewrite decide_True by done. by rewrite with_world_id.
  - intros payment Hleft. rewrite refundFromPayment_unfold.
    rewrite decide_False by lia.
    unfold PaymentProviderService.retrieveProvider.
    destruct (container_ !! _) as [provider|]; simpl; [|discriminate].
    destruct (AbstractPaymentService.refundPayment _ _ _ _) as [[data|e] w];
      simpl; tauto.
Qed.

(** X5.  The drain of [refundPayment] does not look at [captured_at]: the
    first listed payment that has something left gives the minimum of what
    it has left and the amount, whether it is captured or not (the balance
    that allows the refund may come from other payments). *)
Theorem refundPayment_refunds_first_with_remainder
    (payObjs : list Payment.t) (amount : Z) (reason : string) (note : option string)
    (σ σ' : State W) (created : Refund.t) (pre suf : list Payment.t) (u : Payment.t) :
  payments_by_id σ →
  listPayments (Payment.id <$> payObjs) listPayments_defaultConfig σ = pre ++ u :: suf →
  Forall (λ q, remaining q ≤ 0) pre →
  0 < remaining u →
  refundPayment payObjs amount reason note σ = Some (Ok created, σ') →
  ∃ u',
    payments σ' !! Payment.id u = Some u'
    ∧ refunded_by (Z.min (remaining u) amount) u u'.
Proof.
  intros Hkeys Hlisted Hpre Hu. rewrite refundPayment_unfold.
  destruct (refundPayment_drain payObjs amount σ) as [[[payments'|e] σ1]|] eqn:Hdrain;
    [|discriminate..].
  intros [= _ <-].
  apply refundPayment_drain_greedy in Hdrain as (_ & Hgave & Hsync & _); [|done].
  rewrite Hlisted in Hgave.
  rewrite fmap_app, greedy_skip in Hgave by (by apply Forall_fmap).
  rewrite fmap_cons, greedy_take, length_fmap in Hgave by done.
  destruct (Forall3_lookup_m _ _ _ _ (length pre) u Hgave) as (gave & u' & Hg & Hu' & Hby).
  { by rewrite list_lookup_middle. }
  rewrite lookup_app_r in Hg by (rewrite length_replicate; lia).
  rewrite length_replicate, Nat.sub_diag in Hg.
  injection Hg as <-. exists u'. split; [|done].
  apply refunded_by_fields in Hby as (<- & _).
  apply Hsync. by eapply list_elem_of_lookup_2.
Qed.

(** X6.  When no listed payment has anything left (none is listed, or all
    are refunded in full), a refund passes the check of the balance only
    with an amount of zero or less; it then resolves without any provider
    being called and without any payment changing, and still records a
    refund of that amount. *)
Theorem refundPayment_nothing_left
    (payObjs : list Payment.t) (amount : Z) (reason : string) (note : option string)
    (σ : State W) :
  let listed := listPayments (Payment.id <$> payObjs) listPayments_defaultConfig σ in
  let created := refund_record payObjs amount reason note σ in
  Forall (λ q, remaining q ≤ 0) listed →
  ¬ refundableBalance listed < amount →
  amount ≤ 0
  ∧ refundPayment payObjs amount reason note σ
    = Some (Ok created, refundRepo_save created σ)
  ∧ Refund.amount created = amount
  ∧ refunds (refundRepo_save created σ) = refunds σ ++ [created]
  ∧ payments (refundRepo_save created σ) = payments σ
  ∧ world (refundRepo_save created σ) = world σ.
Proof.
  intros listed created Hnothing Hallowed.
  pose proof (refundableBalance_nothing_left _ Hnothing). split; [lia|].
  split; [|done].
  rewrite refundPayment_unfold. unfold refundPayment_drain. cbv zeta.
  rewrite refundable_reduce_balance. fold listed. rewrite decide_False by done.
  replace (list_find _ listed) with (@None (nat * Payment.t)); [done|].
  symmetry. apply list_find_None. eapply Forall_impl; [exact Hnothing|].
  unfold remaining. intros q ?. simpl. lia.
Qed.

(** X7.  Refunds through [refundFromPayment] add up.  After a refund of
    [a], the saved payment has [a] more refunded; a further refund of [b]
    of the saved payment is NotAllowed exactly when [a + b] exceeds what the
    payment had left at first, and when it resolves, the payment has
    [a + b] more refunded than at first, with its amount unchanged, and
    both refunds are recorded, in order. *)
Theorem refundFromPayment_refunds_add_up
    (payment : Payment.t) (a b : Z) (reason reason' : string)
    (note note' : option string) (σ σ1 : State W) (created : Refund.t) :
  refundFromPayment payment a reason note σ = (Ok created, σ1) →
  ∃ saved,
    payments σ1 !! Payment.id payment = Some saved
    ∧ refunded_by a payment saved
    ∧ (fails_with (refundFromPayment saved b reason' note' σ1).1 NOT_ALLOWED
       ↔ remaining payment < a + b)
    ∧ ∀ created' σ2,
        refundFromPayment saved b reason' note' σ1 = (Ok created', σ2) →
        ∃ saved',
          payments σ2 !! Payment.id payment = Some saved'
          ∧ Payment.amount saved' = Payment.amount payment
          ∧ Payment.amount_refunded saved' = Payment.amount_refunded payment + a + b
          ∧ refunds σ2 = refunds σ ++ [created; created'].
Proof.
  rewrite refundFromPayment_unfold. case_decide as Ha; [discriminate|].
  destruct (PaymentProviderService.retrieveProvider _ _) as [provider|e] eqn:Hprovider;
    [|discriminate].
  destruct (AbstractPaymentService.refundPayment provider payment a (world σ))
    as [[data|e] w]; [|discriminate].
  cbv zeta. intros [= <- <-].
  exists (refund_of payment data a). split; [apply lookup_insert_eq|].
  split; [reflexivity|].
  assert (remaining (refund_of payment data a) = remaining payment - a) as Hleft
    by (unfold remaining; simpl; lia).
  split.
  - rewrite refundFromPayment_unfold, Hleft. case_decide as Hb; simpl; [split; [lia|done]|].
    split; [|lia]. change (Payment.provider_id (refund_of payment data a))
      with (Payment.provider_id payment). rewrite Hprovider.
    destruct (AbstractPaymentService.refundPayment provider _ _ _) as [[data'|e] w'];
      simpl; tauto.
  - intros created' σ2. rewrite refundFromPayment_unfold, Hleft.
    case_decide as Hb; [discriminate|].
    change (Payment.provider_id (refund_of payment data a))
      with (Payment.provider_id payment). rewrite Hprovider.
    destruct (AbstractPaymentService.refundPayment provider _ _ _) as [[data'|e] w'];
      [|discriminate].
    cbv zeta. intros [= <- <-]. eexists. split; [apply lookup_insert_eq|].
    simpl. split; [done|]. split; [lia|]. by rewrite <- app_assoc.
Qed.

(** X8.  The refund that [refundPayment] records belongs to the order of
    the last listed payment, captured or not, and to no order when no
    payment is listed; it names no payment. *)
Theorem refundPayment_order_of_last_listed
    (payObjs : list Payment.t) (amount : Z) (reason : string) (note : option string)
    (σ σ' : State W) (created : Refund.t) :
  refundPayment payObjs amount reason note σ = Some (Ok created, σ') →
  Refund.order_id created
    = last (listPayments (Payment.id <$> payObjs) listPayments_defaultConfig σ)
        ≫= Payment.order_id
  ∧ Refund.payment_id created = None.
Proof.
  rewrite refundPayment_unfold.
  destruct (refundPayment_drain payObjs amount σ) as [[[payments'|e] σ1]|];
    [|discriminate..].
  intros [= <- _]. split; [|reflexivity].
  unfold refund_record. simpl. apply refundable_reduce_last.
Qed.
End refund_edges.

(** ** PaymentProviderService with StripeBase as the provider *)

Section StripeBase_as_provider.
Import PaymentProviderService.
Context {W : Type}.
Variable container_ : gmap string (AbstractPaymentService.t W).
Variable featureFlagRouter_ : gmap string bool.
Variable OrderEditingFeatureFlag_key : string.
Variable stripe_ : StripeBase.Stripe W.

Local Abbreviation retrieveProvider := (retrieveProvider container_).
Local Abbreviation authorizePayment :=
  (authorizePayment container_ featureFlagRouter_ OrderEditingFeatureFlag_key).
Local Abbreviation refundFromPayment := (refundFromPayment container_).

(** X9.  Authorizing a session through [StripeBase] never changes the data
    of the session: the payment intent that the stored data names is
    retrieved, and the row of the session is replaced by the session with
    the status that the status of the intent maps to, and with the current
    instant as its authorization date when that status is AUTHORIZED and the
    order-editing flag is enabled; its other fields and the other rows stay.
    When the intent cannot be retrieved, the error of Stripe is thrown on
    and the tables stay as they were. *)
Theorem authorizePayment_through_StripeBase
    (paymentSession session : PaymentSession.t) (context : Data) (now : Time)
    (provider : AbstractPaymentService.t W) (σ : State W) :
  payment_sessions σ !! PaymentSession.id paymentSession = Some session →
  retrieveProvider (PaymentSession.provider_id paymentSession) = Ok provider →
  AbstractPaymentService.authorizePayment provider = StripeBase.authorizePayment stripe_ →
  match StripeBase.paymentIntents_retrieve stripe_
          (PaymentSession.data session !! "id") (world σ) with
  | (Ok paymentIntent, w') =>
      let status := claimed_status (paymentIntent !! "status") in
      ∃ saved σ',
        authorizePayment paymentSession context now σ = (Ok (Some saved), σ')
        ∧ payment_sessions σ'
            = <[PaymentSession.id session := saved]> (payment_sessions σ)
        ∧ payments σ' = payments σ
        ∧ refunds σ' = refunds σ
        ∧ world σ' = w'
        ∧ saved
            = PaymentSession.mk (PaymentSession.id session)
                (PaymentSession.cart_id session) (PaymentSession.provider_id session)
                (PaymentSession.is_selected session) status
                (PaymentSession.data session) (PaymentSession.amount session)
                (if isFeatureEnabled featureFlagRouter_ OrderEditingFeatureFlag_key
                    && bool_decide (status = AUTHORIZED)
                 then Some now
                 else PaymentSession.payment_authorized_at session)
  | (Err error, w') =>
      authorizePayment paymentSession context now σ
        = (Err (FromProvider (Raised error)),
           mkState (payments σ) (refunds σ) (payment_sessions σ) (customers σ)
             (id_seq σ) w')
  end.
Proof.
  intros Hsession Hprovider Hstripe.
  unfold PaymentProviderService.authorizePayment, atomicPhase_, retrieveSession.
  rewrite Hsession. unfold bind, lift, call, modify, ret.
  rewrite Hprovider, Hstripe.
  unfold StripeBase.authorizePayment, StripeBase.getStatus.
  destruct (StripeBase.paymentIntents_retrieve _ _ _) as [[paymentIntent|error] w'];
    simpl; [|done].
  rewrite statusOf_claimed.
  destruct session; destruct (isFeatureEnabled _ _ && bool_decide _);
    eexists _, _; by split_and!.
Qed.

(** X10.  A refund of one payment through [StripeBase], for an amount that
    the payment has left, asks Stripe for a refund of the amount on the
    payment intent that the data of the payment names.  When Stripe creates
    it, the row of the payment is replaced by the payment with the amount
    added to what is refunded, its data and its other fields as they were,
    and one refund of the amount, with the reason and the note, is added to
    the refunds.  When Stripe refuses, its error is thrown on and the tables
    stay as they were. *)
Theorem refundFromPayment_through_StripeBase
    (payment : Payment.t) (amount : Z) (reason : string) (note : option string)
    (provider : AbstractPaymentService.t W) (σ : State W) :
  retrieveProvider (Payment.provider_id payment) = Ok provider →
  AbstractPaymentService.refundPayment provider = StripeBase.refundPayment stripe_ →
  amount ≤ remaining payment →
  match StripeBase.refunds_create stripe_ amount (Payment.data payment !! "id")
          (world σ) with
  | (Ok _, w') =>
      ∃ created σ',
        refundFromPayment payment amount reason note σ = (Ok created, σ')
        ∧ Refund.amount created = amount
        ∧ Refund.reason created = reason
        ∧ Refund.note created = note
        ∧ refunds σ' = refunds σ ++ [created]
        ∧ payments σ'
            = <[Payment.id payment :=
                  Payment.mk (Payment.id payment) (Payment.provider_id payment)
                    (Payment.order_id payment) (Payment.amount payment)
                    (Payment.amount_refunded payment + amount)
                    (Payment.data payment) (Payment.captured_at payment)
                    (Payment.canceled_at payment) (Payment.created_at payment)]>
                (payments σ)
        ∧ payment_sessions σ' = payment_sessions σ
        ∧ world σ' = w'
  | (Err error, w') =>
      refundFromPayment payment amount reason note σ
        = (Err (FromProvider (Raised error)),
           mkState (payments σ) (refunds σ) (payment_sessions σ) (customers σ)
             (id_seq σ) w')
  end.
Proof.
  intros Hprovider Hstripe Hleft. rewrite refundFromPayment_unfold.
  rewrite decide_False by lia. rewrite Hprovider, Hstripe.
  unfold StripeBase.refundPayment.
  destruct (StripeBase.refunds_create _ _ _ _) as [[[]|error] w']; [|done].
  cbv zeta. eexists _, _. by split_and!.
Qed.
End StripeBase_as_provider.

(** ** DiscountConditionService: upserting *)

Section DiscountConditionService_upsert.
Import DiscountConditionService.
Variable PostgresError_DUPLICATE_ERROR : string.

Local Abbreviation upsertCondition := (upsertCondition PostgresError_DUPLICATE_ERROR).

(** X11.  When the payload names a condition, the discount id plays no
    role in [upsertCondition]: the discount is not looked up, so that any
    two discount ids, known or not, give the same result. *)
Theorem upsertCondition_of_condition_ignores_discount
    (discountId discountId' id : string) (data : UpsertDiscountConditionInput)
    (σ : State) :
  DiscountConditionService.id data = Some id →
  id ≠ "" →
  upsertCondition discountId data σ = upsertCondition discountId' data σ.
Proof.
  intros Hid Hne. unfold DiscountConditionService.upsertCondition, atomicPhase_.
  destruct (resolveConditionType_ data) as [resolved|]; [|reflexivity].
  rewrite Hid. by destruct (decide (id = "")).
Qed.

End DiscountConditionService_upsert.

(** ** PaymentProviderService: deleting and refreshing sessions, cancelling *)

Section PaymentProviderServiceFull_properties.
Import PaymentProviderService.
Context {W : Type}.
Variable providers_ : gmap string (AbstractPaymentServiceFull.t W).
Variable featureFlagRouter_ : gmap string bool.
Variable OrderEditingFeatureFlag_key : string.

Local Abbreviation retrieveProvider := (PaymentProviderServiceFull.retrieveProvider providers_).
Local Abbreviation container_ := (PaymentProviderServiceFull.container_ providers_).
Local Abbreviation deleteSession := (PaymentProviderServiceFull.deleteSession providers_).
Local Abbreviation deleteSessionNew :=
  (PaymentProviderServiceFull.deleteSessionNew providers_).
Local Abbreviation refreshSession :=
  (PaymentProviderServiceFull.refreshSession providers_ featureFlagRouter_
     OrderEditingFeatureFlag_key).
Local Abbreviation refreshSessionNew :=
  (PaymentProviderServiceFull.refreshSessionNew providers_ featureFlagRouter_
     OrderEditingFeatureFlag_key).
Local Abbreviation cancelPayment := (PaymentProviderServiceFull.cancelPayment providers_).
Local Abbreviation capturePayment := (capturePayment container_).
Local Abbreviation createSessionNew :=
  (createSessionNew container_ featureFlagRouter_ OrderEditingFeatureFlag_key).

(** The two views of the container hold the same providers. *)
Lemma retrieveProvider_base providerId :
  PaymentProviderService.retrieveProvider container_ providerId
  = match retrieveProvider providerId with
    | Ok provider => Ok (AbstractPaymentServiceFull.base provider)
    | Err e => Err e
    end.
Proof.
  unfold PaymentProviderService.retrieveProvider,
    PaymentProviderServiceFull.retrieveProvider,
    PaymentProviderServiceFull.container_.
  rewrite lookup_fmap. by destruct (providers_ !! _).
Qed.

(** X13.  [deleteSession] resolves with [undefined] exactly for a session
    that is not in the table, and then changes nothing: no provider is
    looked up or called, whether the provider of the session is registered
    or not. *)
Theorem deleteSession_absent_session (paymentSession : PaymentSession.t) (σ : State W) :
  (payment_sessions σ !! PaymentSession.id paymentSession = None →
   deleteSession paymentSession σ = (Ok None, σ))
  ∧ ((deleteSession paymentSession σ).1 = Ok None →
     payment_sessions σ !! PaymentSession.id paymentSession = None).
Proof.
  unfold PaymentProviderServiceFull.deleteSession, atomicPhase_, retrieveSession.
  destruct (payment_sessions σ !! _) as [session|]; [|done].
  split; [discriminate|]. unfold bind, lift, call, modify, ret.
  destruct (retrieveProvider _) as [provider|e]; [|discriminate].
  by destruct (AbstractPaymentServiceFull.deletePayment _ _ _) as [[answer|e] w].
Qed.

(** X14.  [deleteSession] of a stored session asks the provider to delete
    the payment of the session object it was given.  When the provider
    answers, the row of the session is removed, nothing else changes, and
    deleting the session once more is a no-op; when the provider throws,
    its error is thrown on and the row stays. *)
Theorem deleteSession_removes_session
    (paymentSession session : PaymentSession.t)
    (provider : AbstractPaymentServiceFull.t W) (σ : State W) :
  payment_sessions σ !! PaymentSession.id paymentSession = Some session →
  PaymentSession.id session = PaymentSession.id paymentSession →
  retrieveProvider (PaymentSession.provider_id paymentSession) = Ok provider →
  match AbstractPaymentServiceFull.deletePayment provider paymentSession (world σ) with
  | (Ok _, w') =>
      let σ' :=
        mkState (payments σ) (refunds σ)
          (delete (PaymentSession.id paymentSession) (payment_sessions σ))
          (customers σ) (id_seq σ) w' in
      deleteSession paymentSession σ = (Ok (Some session), σ')
      ∧ deleteSession paymentSession σ' = (Ok None, σ')
  | (Err error, w') =>
      deleteSession paymentSession σ = (Err (FromProvider error), with_world w' σ)
  end.
Proof.
  intros Hsession Hid Hprovider.
  assert (∀ r,
    AbstractPaymentServiceFull.deletePayment provider paymentSession (world σ) = r →
    deleteSession paymentSession σ
    = match r with
      | (Ok _, w') =>
          (Ok (Some session),
           PaymentProviderServiceFull.sessionRepo_remove session (with_world w' σ))
      | (Err error, w') => (Err (FromProvider error), with_world w' σ)
      end) as Hcall.
  { intros r <-.
    unfold PaymentProviderServiceFull.deleteSession, atomicPhase_, retrieveSession.
    rewrite Hsession. unfold bind, lift, call, modify, ret. rewrite Hprovider.
    by destruct (AbstractPaymentServiceFull.deletePayment _ _ _) as [[answer|error] w']. }
  destruct (AbstractPaymentServiceFull.deletePayment _ _ _) as [[answer|error] w'] eqn:Hdelete;
    rewrite (Hcall _ eq_refl); [|done].
  unfold PaymentProviderServiceFull.sessionRepo_remove. simpl. rewrite Hid.
  split; [reflexivity|].
  unfold PaymentProviderServiceFull.deleteSession, atomicPhase_, retrieveSession.
  simpl. by rewrite lookup_delete_eq.
Qed.

(** X15.  [deleteSessionNew] never touches the tables: whatever the
    provider answers, the row of the session, if there is one, stays. *)
Theorem deleteSessionNew_keeps_session_row
    (paymentSession : PaymentSession.t) (σ : State W) :
  ∃ w, (deleteSessionNew paymentSession σ).2 = with_world w σ.
Proof.
  unfold PaymentProviderServiceFull.deleteSessionNew, atomicPhase_, bind, lift, call.
  destruct (retrieveProvider _) as [provider|e]; simpl; [|by eexists].
  destruct (AbstractPaymentServiceFull.deletePayment _ _ _) as [[answer|error] w'];
    simpl; by eexists.
Qed.

(** X16.  [refreshSession] replaces the session: when the provider deletes
    the payment of the stored session and creates a new one, the collected
    data is processed, and no other session of the provider of the stored
    session is in the table for the cart, the old row is removed and a new
    session is saved under an id that was not in the table, PENDING, for
    that provider and the cart, with the session data of the provider's
    answer.  The selection that [refreshSession] asks for does not reach
    the row: the new session is saved unselected. *)
Theorem refreshSession_replaces_session
    (paymentSession session : PaymentSession.t) (cart : Cart.t)
    (provider : AbstractPaymentServiceFull.t W) (answer : option Data)
    (paymentResponse : PaymentResponse) (w1 w2 : W) (σ σ2 : State W) :
  let context := buildCreatePaymentContext (inl cart) in
  payment_sessions σ !! PaymentSession.id paymentSession = Some session →
  retrieveProvider (PaymentSession.provider_id paymentSession) = Ok provider →
  AbstractPaymentServiceFull.deletePayment provider session (world σ)
    = (Ok answer, w1) →
  AbstractPaymentService.createPayment (AbstractPaymentServiceFull.base provider)
    context w1 = (Ok paymentResponse, w2) →
  processCollectedData (PaymentContext.customer context ≫= Customer.id)
    paymentResponse
    (mkState (payments σ) (refunds σ)
       (delete (PaymentSession.id session) (payment_sessions σ))
       (customers σ) (id_seq σ) w2)
    = (Ok (), σ2) →
  payment_sessions σ !! ("ps_" +:+ pretty (id_seq σ)) = None →
  (∀ key row,
     payment_sessions σ !! key = Some row →
     key ≠ PaymentSession.id session →
     ¬ (PaymentSession.cart_id row = Some (Cart.id cart)
        ∧ PaymentSession.provider_id row = PaymentSession.provider_id session)) →
  ∃ saved σ',
    refreshSession paymentSession cart σ = (Ok saved, σ')
    ∧ payment_sessions σ !! PaymentSession.id saved = None
    ∧ payment_sessions σ'
        = <[PaymentSession.id saved := saved]>
            (delete (PaymentSession.id session) (payment_sessions σ))
    ∧ payments σ' = payments σ
    ∧ refunds σ' = refunds σ
    ∧ world σ' = w2
    ∧ saved
        = {| PaymentSession.id := PaymentSession.id saved;
             PaymentSession.cart_id := Some (Cart.id cart);
             PaymentSession.provider_id := PaymentSession.provider_id session;
             PaymentSession.is_selected := None;
             PaymentSession.status := PENDING;
             PaymentSession.data := responseSessionData paymentResponse;
             PaymentSession.amount := None;
             PaymentSession.payment_authorized_at := None |}.
Proof.
  intros context Hsession Hprovider Hdelete Hcreate Hcollect Hfresh Hfree.
  subst context.
  pose proof (processCollectedData_frame _ _ _ _ _ Hcollect)
    as (Hpayments & Hrefunds & Hsessions & Hseq & Hworld).
  unfold PaymentProviderServiceFull.refreshSession, atomicPhase_, bind, retrieveSession.
  rewrite Hsession. unfold lift, call, modify. rewrite Hprovider, Hdelete.
  change (world (PaymentProviderServiceFull.sessionRepo_remove session
                   (with_world w1 σ))) with w1.
  rewrite Hcreate.
  change (with_world w2 (PaymentProviderServiceFull.sessionRepo_remove session
                           (with_world w1 σ)))
    with (mkState (payments σ) (refunds σ)
            (delete (PaymentSession.id session) (payment_sessions σ))
            (customers σ) (id_seq σ) w2).
  rewrite Hcollect. rewrite saveSession_saves; [|done|].
  - simpl. rewrite Hpayments, Hrefunds, Hsessions, Hseq, Hworld. simpl.
    eexists _, _. by split_and!.
  - intros cart_id [= <-] (key & row & Hrow & Hcart & Hsame).
    rewrite Hsessions in Hrow. simpl in Hrow.
    apply lookup_delete_Some in Hrow as [Hkey Hrow].
    by apply (Hfree key row).
Qed.

(** X17.  [refreshSession] is all or nothing in the database, not at the
    provider: when the provider has deleted the payment of the session and
    then fails to create the new one, its error is thrown on and the table
    of the sessions is as before the call, the old row included, while the
    outside world is as the provider left it. *)
Theorem refreshSession_failed_create_keeps_session
    (paymentSession session : PaymentSession.t) (cart : Cart.t)
    (provider : AbstractPaymentServiceFull.t W) (answer : option Data)
    (error : ProviderError) (w1 w2 : W) (σ : State W) :
  payment_sessions σ !! PaymentSession.id paymentSession = Some session →
  retrieveProvider (PaymentSession.provider_id paymentSession) = Ok provider →
  AbstractPaymentServiceFull.deletePayment provider session (world σ)
    = (Ok answer, w1) →
  AbstractPaymentService.createPayment (AbstractPaymentServiceFull.base provider)
    (buildCreatePaymentContext (inl cart)) w1 = (Err error, w2) →
  refreshSession paymentSession cart σ = (Err (FromProvider error), with_world w2 σ).
Proof.
  intros Hsession Hprovider Hdelete Hcreate.
  unfold PaymentProviderServiceFull.refreshSession, atomicPhase_, bind, retrieveSession.
  rewrite Hsession. unfold lift, call, modify. rewrite Hprovider, Hdelete.
  change (world (PaymentProviderServiceFull.sessionRepo_remove session
                   (with_world w1 σ))) with w1.
  by rewrite Hcreate.
Qed.

(** X18.  Unlike [deleteSession], [refreshSession] and [refreshSessionNew]
    need the session: for one that is not in the table they fail with
    NotFound, and nothing changes. *)
Theorem refreshSession_absent_session
    (paymentSession : PaymentSession.t) (cart : Cart.t)
    (sessionInput : PaymentSessionInput.t) (σ : State W) :
  payment_sessions σ !! PaymentSession.id paymentSession = None →
  let notFound :=
    MedusaError NOT_FOUND
      ("Payment Session with " +:+ PaymentSession.id paymentSession
       +:+ " was not found") in
  refreshSession paymentSession cart σ = (Err notFound, σ)
  ∧ refreshSessionNew paymentSession sessionInput σ = (Err notFound, σ).
Proof.
  intros Habsent.
  unfold PaymentProviderServiceFull.refreshSession,
    PaymentProviderServiceFull.refreshSessionNew, atomicPhase_, bind, retrieveSession.
  rewrite Habsent. simpl. by rewrite with_world_id.
Qed.

(** X19.  With the order-editing flag disabled, [refreshSessionNew] with
    an amount in its input never succeeds, and the table of the sessions is
    as before the call: the session that was to be refreshed is not lost,
    although the provider may have deleted its payment. *)
Theorem refreshSessionNew_with_amount_keeps_session
    (paymentSession : PaymentSession.t) (sessionInput : PaymentSessionInput.t)
    (a : Z) (σ : State W) :
  PaymentSessionInput.amount sessionInput = Some a →
  isFeatureEnabled featureFlagRouter_ OrderEditingFeatureFlag_key = false →
  ¬ is_Ok (refreshSessionNew paymentSession sessionInput σ).1
  ∧ payment_sessions (refreshSessionNew paymentSession sessionInput σ).2
    = payment_sessions σ.
Proof.
  intros Hamount Hflag.
  assert (∀ σ0, ¬ is_Ok (createSessionNew sessionInput σ0).1) as Hnew.
  { intros σ0.
    unfold PaymentProviderService.createSessionNew, atomicPhase_, bind, lift.
    destruct (PaymentProviderService.retrieveProvider _ _) as [provider|e]; simpl;
      [|tauto].
    destruct (call _ σ0) as [[paymentResponse|e] σ1]; simpl; [|tauto].
    destruct (processCollectedData _ _ σ1) as [[[]|e] σ2]; simpl; [|tauto].
    erewrite saveSession_rejects_amount by done. simpl. tauto. }
  unfold PaymentProviderServiceFull.refreshSessionNew, atomicPhase_, bind, retrieveSession.
  destruct (payment_sessions σ !! _) as [session|]; simpl; [|tauto].
  unfold lift. destruct (retrieveProvider _) as [provider|e]; simpl; [|tauto].
  destruct (call _ σ) as [[answer|e] σ1]; simpl; [|tauto].
  match goal with |- context [PaymentProviderService.createSessionNew ?c ?f ?k ?i ?s] =>
    specialize (Hnew s);
    destruct (PaymentProviderService.createSessionNew c f k i s) as [[saved|e] σ2]
  end; simpl in *; tauto.
Qed.

(** X20.  [capturePayment] and [cancelPayment] of a payment that is not in
    the table fail with NotFound before any provider is looked up, and
    nothing changes. *)
Theorem capturePayment_cancelPayment_unknown_payment
    (id : string) (now : Time) (σ : State W) :
  payments σ !! id = None →
  let notFound :=
    MedusaError NOT_FOUND ("Payment with " +:+ id +:+ " was not found") in
  capturePayment id now σ = (Err notFound, σ)
  ∧ cancelPayment id now σ = (Err notFound, σ).
Proof.
  intros Habsent.
  unfold PaymentProviderService.capturePayment,
    PaymentProviderServiceFull.cancelPayment, atomicPhase_, bind, retrievePayment.
  rewrite Habsent. simpl. by rewrite with_world_id.
Qed.
End PaymentProviderServiceFull_properties.

(** ** StripeBase: creating, deleting and cancelling through the service *)

Section StripeBaseFull_properties.
Import PaymentProviderService.
Context {W : Type}.
Variable options_ : StripeBaseFull.Options.
Variable paymentIntentOptions : option StripeBaseFull.PaymentIntentOptions.t.
Variable stripe_ : StripeBaseFull.Stripe W.
Variable providers_ : gmap string (AbstractPaymentServiceFull.t W).
Variable featureFlagRouter_ : gmap string bool.
Variable OrderEditingFeatureFlag_key : string.

Local Abbreviation StripeProvider :=
  (StripeBaseFull.provider options_ paymentIntentOptions stripe_).
Local Abbreviation createPayment :=
  (StripeBaseFull.createPayment options_ paymentIntentOptions stripe_).
Local Abbreviation retrieveProvider := (PaymentProviderServiceFull.retrieveProvider providers_).
Local Abbreviation container_ := (PaymentProviderServiceFull.container_ providers_).
Local Abbreviation deleteSession := (PaymentProviderServiceFull.deleteSession providers_).
Local Abbreviation cancelPayment := (PaymentProviderServiceFull.cancelPayment providers_).
Local Abbreviation createSession :=
  (createSession container_ featureFlagRouter_ OrderEditingFeatureFlag_key).
Local Abbreviation createSessionNew :=
  (createSessionNew container_ featureFlagRouter_ OrderEditingFeatureFlag_key).

Lemma cancelPayment_unfold id now (σ : State W) payment provider :
  payments σ !! id = Some payment →
  retrieveProvider (Payment.provider_id payment) = Ok provider →
  cancelPayment id now σ
  = match AbstractPaymentServiceFull.cancelPayment provider payment (world σ) with
    | (Ok data, w') =>
        let canceled :=
          PaymentProviderServiceFull.with_canceled_at (Some now)
            (Payment.with_data data payment) in
        (Ok canceled, paymentRepo_save canceled (with_world w' σ))
    | (Err error, w') => (Err (FromProvider error), with_world w' σ)
    end.
Proof.
  intros Hpayment Hprovider.
  unfold PaymentProviderServiceFull.cancelPayment, atomicPhase_, bind, retrievePayment.
  rewrite Hpayment. unfold lift, call, modify, ret. rewrite Hprovider.
  by destruct (AbstractPaymentServiceFull.cancelPayment _ _ _) as [[data|error] w'].
Qed.

(** X21.  Cancelling a payment through [StripeBase].  When Stripe cancels
    the payment intent, or refuses with an error whose payment intent is
    canceled already, the row of the payment is replaced by the payment
    with that intent as its data and with the current instant as
    [canceled_at], its other fields as they were.  When the error carries a
    payment intent in another state, the error is thrown on; when it
    carries no payment intent, the error of Stripe is lost and a
    [TypeError] is thrown instead.  In both cases the tables stay as they
    were. *)
Theorem cancelPayment_through_StripeBase
    (id : string) (now : Time) (payment : Payment.t)
    (provider : AbstractPaymentServiceFull.t W) (σ : State W) :
  payments σ !! id = Some payment →
  retrieveProvider (Payment.provider_id payment) = Ok provider →
  AbstractPaymentServiceFull.cancelPayment provider
    = AbstractPaymentServiceFull.cancelPayment StripeProvider →
  let saved intent w' :=
    ∃ canceled σ',
      cancelPayment id now σ = (Ok canceled, σ')
      ∧ payments σ' = <[Payment.id payment := canceled]> (payments σ)
      ∧ refunds σ' = refunds σ
      ∧ payment_sessions σ' = payment_sessions σ
      ∧ world σ' = w'
      ∧ canceled
          = Payment.mk (Payment.id payment) (Payment.provider_id payment)
              (Payment.order_id payment) (Payment.amount payment)
              (Payment.amount_refunded payment) intent
              (Payment.captured_at payment) (Some now)
              (Payment.created_at payment) in
  let thrown error w' :=
    cancelPayment id now σ
      = (Err (FromProvider error),
         mkState (payments σ) (refunds σ) (payment_sessions σ) (customers σ)
           (id_seq σ) w') in
  match StripeBaseFull.paymentIntents_cancel stripe_ (Payment.data payment !! "id")
          (world σ) with
  | (Ok intent, w') => saved intent w'
  | (Err error, w') =>
      match payment_intent (StripeBaseFull.raw error) with
      | Some intent =>
          if decide (intent !! "status" = Some "canceled") then saved intent w'
          else thrown (Raised (StripeBaseFull.raw error)) w'
      | None => thrown UndefinedProperty w'
      end
  end.
Proof.
  intros Hpayment Hprovider Hstripe saved thrown. subst saved thrown.
  rewrite (cancelPayment_unfold _ _ _ _ _ Hpayment Hprovider), Hstripe.
  simpl. unfold StripeBaseFull.cancelPayment.
  destruct (StripeBaseFull.paymentIntents_cancel _ _ _) as [[intent|error] w'];
    [eexists _, _; by split_and!|].
  destruct (payment_intent _) as [intent|]; [|done].
  case_decide; [eexists _, _; by split_and!|done].
Qed.

(** X22.  Deleting a session through [StripeBase]: the row of the session
    is removed when Stripe cancels the payment intent, and also when Stripe
    refuses with the HTTP status 400; any other refusal is thrown on, and
    the row stays. *)
Theorem deleteSession_through_StripeBase
    (paymentSession session : PaymentSession.t)
    (provider : AbstractPaymentServiceFull.t W) (σ : State W) :
  payment_sessions σ !! PaymentSession.id paymentSession = Some session →
  retrieveProvider (PaymentSession.provider_id paymentSession) = Ok provider →
  AbstractPaymentServiceFull.deletePayment provider
    = AbstractPaymentServiceFull.deletePayment StripeProvider →
  let removed w' :=
    deleteSession paymentSession σ
      = (Ok (Some session),
         mkState (payments σ) (refunds σ)
           (delete (PaymentSession.id session) (payment_sessions σ))
           (customers σ) (id_seq σ) w') in
  match StripeBaseFull.paymentIntents_cancel stripe_
          (PaymentSession.data paymentSession !! "id") (world σ) with
  | (Ok _, w') => removed w'
  | (Err err, w') =>
      if decide (StripeBaseFull.statusCode err = Some 400) then removed w'
      else deleteSession paymentSession σ
           = (Err (FromProvider (Raised (StripeBaseFull.raw err))),
              mkState (payments σ) (refunds σ) (payment_sessions σ) (customers σ)
                (id_seq σ) w')
  end.
Proof.
  intros Hsession Hprovider Hstripe removed. subst removed.
  assert (deleteSession paymentSession σ
    = match AbstractPaymentServiceFull.deletePayment provider paymentSession (world σ) with
      | (Ok _, w') =>
          (Ok (Some session),
           PaymentProviderServiceFull.sessionRepo_remove session (with_world w' σ))
      | (Err error, w') => (Err (FromProvider error), with_world w' σ)
      end) as ->.
  { unfold PaymentProviderServiceFull.deleteSession, atomicPhase_, retrieveSession.
    rewrite Hsession. unfold bind, lift, call, modify, ret. rewrite Hprovider.
    by destruct (AbstractPaymentServiceFull.deletePayment _ _ _) as [[answer|error] w']. }
  rewrite Hstripe. simpl. unfold StripeBaseFull.deletePayment.
  destruct (StripeBaseFull.paymentIntents_cancel _ _ _) as [[intent|err] w']; [done|].
  by case_decide.
Qed.


(** X24.  [createPayment] of [StripeBase] creates no customer at Stripe
    when the collected data names one: its result does not depend on what
    creating a customer would do, and the collected data of its answer
    names that same customer. *)
Theorem createPayment_reuses_collected_customer
    (context : PaymentContext.t) (stripe_id : string) (w : W) :
  StripeBaseFull.truthy (PaymentContext.collected_data context !! "stripe_id")
    = Some stripe_id →
  (∀ stripe' : StripeBaseFull.Stripe W,
     StripeBaseFull.paymentIntents_create stripe'
       = StripeBaseFull.paymentIntents_create stripe_ →
     StripeBaseFull.createPayment options_ paymentIntentOptions stripe' context w
       = createPayment context w)
  ∧ ∀ paymentResponse w',
      createPayment context w = (Ok paymentResponse, w') →
      ∃ session_data,
        paymentResponse
          = SessionResponse session_data
              (Some {| collected_customer := Some {[ "stripe_id" := stripe_id ]} |}).
Proof.
  intros Hcollected. unfold StripeBaseFull.createPayment. rewrite Hcollected. split.
  - intros stripe' ->. reflexivity.
  - intros paymentResponse w'.
    destruct (PaymentContext.currency_code context); [|discriminate].
    destruct (PaymentContext.amount context); [|discriminate].
    destruct (PaymentContext.context context); [|discriminate].
    destruct (StripeBaseFull.paymentIntents_create _ _ _) as [[session_data|err] w1];
      [|discriminate].
    intros [= <- _]. by eexists.
Qed.

(** X25.  Without a Stripe customer in the collected data, [createPayment]
    of [StripeBase] first creates one for the email of the context.  When
    that fails, the error is thrown on and no payment intent is created;
    otherwise the collected data of the answer names the customer that was
    created. *)
Theorem createPayment_registers_customer
    (context : PaymentContext.t) (amount : Z) (currency_code : string)
    (cart_context : Data) (w : W) :
  StripeBaseFull.truthy (PaymentContext.collected_data context !! "stripe_id") = None →
  PaymentContext.amount context = Some amount →
  PaymentContext.currency_code context = Some currency_code →
  PaymentContext.context context = Some cart_context →
  match StripeBaseFull.customers_create stripe_ (PaymentContext.email context) w with
  | (Err err, w1) => createPayment context w = (Err (StripeBaseFull.Rethrown err), w1)
  | (Ok stripeCustomer, w1) =>
      ∀ paymentResponse w',
        createPayment context w = (Ok paymentResponse, w') →
        ∃ session_data,
          paymentResponse
            = SessionResponse session_data
                (Some (StripeBaseFull.collected (stripeCustomer !! "id")))
  end.
Proof.
  intros Hcollected Hamount Hcurrency Hcontext. unfold StripeBaseFull.createPayment.
  rewrite Hcollected, Hamount, Hcurrency, Hcontext.
  destruct (StripeBaseFull.customers_create _ _ _) as [[stripeCustomer|err] w1];
    [|done].
  intros paymentResponse w'.
  destruct (StripeBaseFull.paymentIntents_create _ _ _) as [[session_data|err] w2];
    [|discriminate].
  intros [= <- _]. by eexists.
Qed.

(** X26.  Every payment intent that [createPayment] of [StripeBase]
    resolves with was requested for the amount, the currency and the cart
    of the context, and with the capture method of the payment-intent
    options of the provider class when it has one, whatever the [capture]
    option says; only without one does [capture] choose between automatic
    and manual.  The payment method types are those of the class. *)
Theorem createPayment_request
    (context : PaymentContext.t) (paymentResponse : PaymentResponse) (w w' : W) :
  createPayment context w = (Ok paymentResponse, w') →
  ∃ request w0 session_data,
    StripeBaseFull.paymentIntents_create stripe_ request w0 = (Ok session_data, w')
    ∧ paymentResponse
        = SessionResponse session_data
            (Some (StripeBaseFull.collected (StripeBaseFull.IntentRequest.customer request)))
    ∧ PaymentContext.amount context = Some (StripeBaseFull.IntentRequest.amount request)
    ∧ PaymentContext.currency_code context
        = Some (StripeBaseFull.IntentRequest.currency request)
    ∧ StripeBaseFull.IntentRequest.metadata_cart_id request = PaymentContext.id context
    ∧ StripeBaseFull.IntentRequest.capture_method request
        = match StripeBaseFull.truthy
                  (paymentIntentOptions
                     ≫= StripeBaseFull.PaymentIntentOptions.capture_method) with
          | Some capture_method => capture_method
          | None =>
              if StripeBaseFull.capture options_ then "automatic" else "manual"
          end
    ∧ StripeBaseFull.IntentRequest.payment_method_types request
        = paymentIntentOptions ≫= StripeBaseFull.PaymentIntentOptions.payment_method_types.
Proof.
  unfold StripeBaseFull.createPayment.
  destruct (PaymentContext.currency_code context) as [currency_code|];
    [|discriminate].
  destruct (PaymentContext.amount context) as [amount|]; [|discriminate].
  destruct (PaymentContext.context context) as [cart_context|]; [|discriminate].
  destruct (StripeBaseFull.truthy (_ !! _)) as [stripe_id|].
  - destruct (StripeBaseFull.paymentIntents_create _ _ _) as [[session_data|err] w1] eqn:Hcreate;
      [|discriminate].
    intros [= <- <-]. eexists _, _, _. split; [exact Hcreate|].
    split; [reflexivity|]. simpl.
    by destruct (StripeBaseFull.truthy (_ ≫= _)).
  - destruct (StripeBaseFull.customers_create _ _ _) as [[stripeCustomer|err] w1];
      [|discriminate].
    destruct (StripeBaseFull.paymentIntents_create _ _ _) as [[session_data|err] w2] eqn:Hcreate;
      [|discriminate].
    intros [= <- <-]. eexists _, _, _. split; [exact Hcreate|].
    split; [reflexivity|]. simpl.
    by destruct (StripeBaseFull.truthy (_ ≫= _)).
Qed.

(** X27.  [createSessionNew] never creates a session through [StripeBase]:
    [createPaymentNew] of [StripeBase] reads a variable that is not
    declared, so that for every input the call fails with the
    [ReferenceError], before Stripe is contacted, and saves nothing. *)
Theorem createSessionNew_through_StripeBase_fails
    (sessionInput : PaymentSessionInput.t)
    (provider : AbstractPaymentServiceFull.t W) (σ : State W) :
  retrieveProvider (PaymentSessionInput.provider_id sessionInput) = Ok provider →
  AbstractPaymentService.createPaymentNew (AbstractPaymentServiceFull.base provider)
    = AbstractPaymentService.createPaymentNew
        (AbstractPaymentServiceFull.base StripeProvider) →
  createSessionNew sessionInput σ
    = (Err (FromProvider (ProviderFailure "collected_data is not defined")), σ).
Proof.
  intros Hprovider Hstripe.
  unfold PaymentProviderService.createSessionNew, atomicPhase_, bind, lift, call.
  rewrite retrieveProvider_base, Hprovider, Hstripe. simpl.
  by rewrite with_world_id.
Qed.
(** X28.  [getStatus] of the service through [StripeBase] maps the status
    of the payment intent that the data of the payment names, and passes an
    error of Stripe on; either way no table changes. *)
Theorem getStatus_through_StripeBase
    (payment : Payment.t) (provider : AbstractPaymentServiceFull.t W) (σ : State W) :
  retrieveProvider (Payment.provider_id payment) = Ok provider →
  AbstractPaymentServiceFull.getStatus provider
    = AbstractPaymentServiceFull.getStatus StripeProvider →
  match StripeBase.paymentIntents_retrieve (StripeBaseFull.client stripe_)
          (Payment.data payment !! "id") (world σ) with
  | (Ok paymentIntent, w') =>
      PaymentProviderServiceFull.getStatus providers_ payment σ
        = (Ok (claimed_status (paymentIntent !! "status")), with_world w' σ)
  | (Err error, w') =>
      PaymentProviderServiceFull.getStatus providers_ payment σ
        = (Err (FromProvider (Raised error)), with_world w' σ)
  end.
Proof.
  intros Hprovider Hstripe.
  unfold PaymentProviderServiceFull.getStatus, bind, lift, call.
  rewrite Hprovider, Hstripe. simpl. unfold StripeBase.getStatus.
  destruct (StripeBase.paymentIntents_retrieve _ _ _) as [[paymentIntent|error] w'];
    [|done].
  by rewrite statusOf_claimed.
Qed.
End StripeBaseFull_properties.

(** ** PaymentProviderService: the installed providers *)

Section InstalledProviders_properties.
Local Abbreviation registerInstalledProviders :=
  InstalledProviders.registerInstalledProviders.
Local Abbreviation paymentProviderRepo_save := InstalledProviders.paymentProviderRepo_save.
Local Abbreviation inserted := InstalledProviders.inserted.

Lemma register_lookup (providerIds : list string) table id :
  foldl (λ table providerId,
           paymentProviderRepo_save (PaymentProvider.mk providerId true) table)
        table providerIds !! id
  = if decide (id ∈ providerIds) then Some (PaymentProvider.mk id true)
    else table !! id.
Proof.
  revert table. induction providerIds as [|providerId providerIds IH]; intros table.
  - rewrite decide_False by apply not_elem_of_nil. reflexivity.
  - simpl. rewrite IH. unfold InstalledProviders.paymentProviderRepo_save. simpl.
    destruct (decide (id ∈ providerIds)) as [Hin|Hin].
    + rewrite decide_True by (by apply list_elem_of_further). reflexivity.
    + destruct (decide (id = providerId)) as [->|Hne].
      * rewrite decide_True by apply list_elem_of_here. apply lookup_insert_eq.
      * rewrite decide_False by (by intros [?|?]%elem_of_cons).
        by apply lookup_insert_ne.
Qed.

Lemma inserted_none (providerIds : list string) (table : gmap string PaymentProvider.t) :
  Forall (λ id, table !! id ≠ None) providerIds → inserted providerIds table = [].
Proof.
  unfold InstalledProviders.inserted.
  induction 1 as [|id ids Hid _ IH]; [reflexivity|].
  by rewrite filter_cons_False.
Qed.

Lemma registerInstalledProviders_lookup
    (providerIds : list string) (table : gmap string PaymentProvider.t) id :
  NoDup (inserted providerIds table) →
  (registerInstalledProviders providerIds table).1 = Ok ()
  ∧ (registerInstalledProviders providerIds table).2 !! id
    = if decide (id ∈ providerIds) then Some (PaymentProvider.mk id true)
      else (λ provider, PaymentProvider.mk (PaymentProvider.id provider) false)
             <$> table !! id.
Proof.
  intros Hnew. unfold InstalledProviders.registerInstalledProviders.
  rewrite decide_True by done. split; [reflexivity|]. simpl.
  rewrite register_lookup. unfold InstalledProviders.paymentProviderRepo_update.
  by rewrite lookup_fmap.
Qed.

(** X29.  [registerInstalledProviders] when no id that is new to the table
    is given twice: afterwards the providers of the given ids are in the
    table as installed; every other provider that was in the table is still
    there and is not installed, and no other provider has appeared;
    registering the same ids once more changes nothing.  When an id that is
    new to the table is given twice, the call fails on the primary key and
    the table is as before. *)
Theorem registerInstalledProviders_installs_exactly
    (providerIds : list string) (table : gmap string PaymentProvider.t) :
  let registered := (registerInstalledProviders providerIds table).2 in
  (NoDup (filter (λ id, table !! id = None) providerIds) →
   (registerInstalledProviders providerIds table).1 = Ok ()
   ∧ (∀ id, id ∈ providerIds →
            registered !! id = Some (PaymentProvider.mk id true))
   ∧ (∀ id, id ∉ providerIds →
            registered !! id
              = (λ provider, PaymentProvider.mk (PaymentProvider.id provider) false)
                  <$> table !! id)
   ∧ registerInstalledProviders providerIds registered = (Ok (), registered))
  ∧ (¬ NoDup (filter (λ id, table !! id = None) providerIds) →
     registerInstalledProviders providerIds table
       = (Err (QueryFailedError PaymentProviderService.unique_violation), table)).
Proof.
  intros registered. split.
  - intros Hnew.
    assert (∀ id, registered !! id
      = if decide (id ∈ providerIds) then Some (PaymentProvider.mk id true)
        else (λ provider, PaymentProvider.mk (PaymentProvider.id provider) false)
               <$> table !! id) as Hrows
      by (intros id; by apply registerInstalledProviders_lookup).
    split; [by apply (registerInstalledProviders_lookup providerIds table "")|].
    split; [intros id Hin; by rewrite Hrows, decide_True|].
    split; [intros id Hin; by rewrite Hrows, decide_False|].
    assert (NoDup (inserted providerIds registered)) as Hagain.
    { replace (inserted providerIds registered) with (@nil string);
        [constructor|].
      symmetry. apply inserted_none, Forall_forall. intros id Hin.
      by rewrite Hrows, decide_True. }
    destruct (registerInstalledProviders providerIds registered)
      as [r registered'] eqn:Hcall.
    pose proof (registerInstalledProviders_lookup providerIds registered "" Hagain)
      as [Hok _].
    rewrite Hcall in Hok. simpl in Hok. subst r. f_equal.
    apply map_eq. intros id.
    pose proof (registerInstalledProviders_lookup providerIds registered id Hagain)
      as [_ Hlookup].
    rewrite Hcall in Hlookup. simpl in Hlookup. rewrite Hlookup, !Hrows.
    case_decide; [reflexivity|]. rewrite <- option_fmap_compose.
    by destruct (table !! id).
  - intros Hnew. unfold InstalledProviders.registerInstalledProviders.
    by rewrite decide_False.
Qed.

(** X30.  When the rows of the table are stored under their ids and no id
    that is new to the table is given twice, [list] after
    [registerInstalledProviders] shows as installed exactly the providers
    of the given ids. *)
Theorem list_installed_after_registering
    (providerIds : list string) (table : gmap string PaymentProvider.t) :
  map_Forall (λ key provider, PaymentProvider.id provider = key) table →
  NoDup (filter (λ id, table !! id = None) providerIds) →
  ∃ rows,
    (registerInstalledProviders providerIds table).1 = Ok ()
    ∧ (InstalledProviders.list (registerInstalledProviders providerIds table).2).1
      = Ok rows
    ∧ (∀ id, id ∈ providerIds → PaymentProvider.mk id true ∈ rows)
    ∧ ∀ provider,
        provider ∈ rows →
        (PaymentProvider.is_installed provider = true
         ↔ PaymentProvider.id provider ∈ providerIds).
Proof.
  intros Hkeys Hnew. eexists.
  split; [by apply (registerInstalledProviders_lookup providerIds table "")|].
  split; [reflexivity|].
  assert (∀ id, (registerInstalledProviders providerIds table).2 !! id
    = if decide (id ∈ providerIds) then Some (PaymentProvider.mk id true)
      else (λ provider, PaymentProvider.mk (PaymentProvider.id provider) false)
             <$> table !! id) as Hrows
    by (intros id; by apply registerInstalledProviders_lookup).
  split.
  - intros id Hid. apply list_elem_of_fmap. exists (id, PaymentProvider.mk id true).
    split; [reflexivity|]. apply elem_of_map_to_list. by rewrite Hrows, decide_True.
  - intros provider ([key provider'] & -> & Hrow%elem_of_map_to_list)%list_elem_of_fmap.
    simpl. rewrite Hrows in Hrow.
    destruct (decide (key ∈ providerIds)) as [Hkey|Hkey].
    + by injection Hrow as <-.
    + destruct (table !! key) as [old|] eqn:Hold; [|discriminate].
      injection Hrow as <-. simpl. rewrite (Hkeys _ _ Hold). split; [discriminate|done].
Qed.
End InstalledProviders_properties.

(** * The properties on concrete inputs *)

Section Examples.
Import PaymentProviderService Fixtures.

Lemma getStatus_total_mapping_witness :
  StripeBase.paymentIntents_retrieve capturedAlready
      (({[ "id" := "pi_1" ]} : Data) !! "id") ()
    = (Ok succeededIntent, ())
  ∧ StripeBase.getStatus capturedAlready {[ "id" := "pi_1" ]} () = (Ok AUTHORIZED, ()).
Proof.
  split; [reflexivity|].
  apply (getStatus_total_mapping capturedAlready {[ "id" := "pi_1" ]}
           succeededIntent () ()).
  reflexivity.
Defined.

Lemma createSession_unregistered_provider_witness :
  providerIdOf (WithCart "stripe" cart) ≠ "system"
  ∧ container !! ("pp_" +:+ providerIdOf (WithCart "stripe" cart)) = None
  ∧ createSession container ∅ "order_editing" (WithCart "stripe" cart) withSession
      = (Err (MedusaError NOT_FOUND
                "Could not find a payment provider with id: stripe"),
         withSession).
Proof.
  split; [discriminate|]. split; [reflexivity|].
  apply (createSession_unregistered_provider container ∅ "order_editing"
           (WithCart "stripe" cart) withSession); [discriminate|reflexivity].
Defined.

Lemma saveSession_amount_needs_order_editing_witness :
  amount {| cartId := None; amount := Some 1000; sessionData := ∅;
            isSelected := None; status := PENDING |} = Some 1000
  ∧ isFeatureEnabled ∅ "order_editing" = false
  ∧ saveSession ∅ "order_editing" "system"
      {| cartId := None; amount := Some 1000; sessionData := ∅;
         isSelected := None; status := PENDING |} withSession
    = (Err (MedusaError INVALID_ARGUMENT
         "Unable to save the payment session with an amoutn. The feature flag order edit is not enabled."),
       withSession).
Proof.
  split; [reflexivity|]. split; [reflexivity|].
  apply (saveSession_amount_needs_order_editing container ∅ "order_editing" "system"
           _ 1000 withSession); reflexivity.
Defined.

Lemma authorizePayment_persists_provider_answer_witness :
  payment_sessions withSession !! PaymentSession.id session = Some session
  ∧ retrieveProvider container (PaymentSession.provider_id session) = Ok system
  ∧ AbstractPaymentService.authorizePayment system session ∅ (world withSession)
      = (Ok (AUTHORIZED, ∅), ())
  ∧ ∃ saved σ',
      authorizePayment container {[ "order_editing" := true ]} "order_editing"
        session ∅ 7 withSession = (Ok (Some saved), σ')
      ∧ PaymentSession.status saved = AUTHORIZED
      ∧ PaymentSession.payment_authorized_at saved = Some 7.
Proof.
  split; [reflexivity|]. split; [reflexivity|]. split; [reflexivity|].
  destruct (authorizePayment_persists_provider_answer container
              {[ "order_editing" := true ]} "order_editing" session session ∅ 7
              system AUTHORIZED ∅ () withSession eq_refl eq_refl eq_refl)
    as (saved & σ' & Hcall & _ & Hstatus & _ & Hstamp & _).
  exists saved, σ'. split; [exact Hcall|]. split; [exact Hstatus|exact Hstamp].
Defined.



Lemma resolveConditionType_priority_witness :
  Forall (λ entry, ¬ hasElements entry) (conditionLists noLists)
  ∧ DiscountConditionService.upsertCondition "23505" "disc_1" noLists oneCondition
    = (Err (MedusaError INVALID_DATA
         "Missing one of products, collections, tags, types or customer groups in data"),
       oneCondition).
Proof.
  assert (Forall (λ entry, ¬ hasElements entry) (conditionLists noLists)) as Hnone.
  { repeat constructor; by intros (? & ? & ?). }
  split; [exact Hnone|].
  apply (resolveConditionType_priority "23505" "disc_1" noLists oneCondition).
  exact Hnone.
Defined.

Lemma remove_absent_condition_is_noop_witness :
  DiscountConditionService.discount_conditions oneCondition !! "discon_9" = None
  ∧ DiscountConditionService.remove "discon_9" oneCondition = (Ok (), oneCondition)
  ∧ conditions_by_id oneCondition
  ∧ is_Some (DiscountConditionService.discount_conditions oneCondition !! "discon_1")
  ∧ ∃ σ',
      DiscountConditionService.remove "discon_1" oneCondition = (Ok (), σ')
      ∧ DiscountConditionService.discount_conditions σ' !! "discon_1" = None.
Proof.
  assert (conditions_by_id oneCondition) as Hkeys.
  { intros key c Hc. simpl in Hc.
    apply lookup_singleton_Some in Hc as [<- <-]. reflexivity. }
  split; [reflexivity|].
  split; [apply (remove_absent_condition_is_noop "discon_9" oneCondition); reflexivity|].
  split; [exact Hkeys|].
  split; [by eexists|].
  destruct (proj2 (remove_absent_condition_is_noop "discon_1" oneCondition) Hkeys)
    as (σ' & Hremove & _ & Hgone & _); [by eexists|].
  exists σ'. split; [exact Hremove|exact Hgone].
Defined.
End Examples.

Section Examples_refunds.
Import PaymentProviderService Fixtures.

(** C1, as stated, fails.  Fifty-one captured payments of 1 each are
    given, as the payment table has them; their balance is 51, and a refund
    of 51, which does not exceed it, fails with NotAllowed: the balance that
    is checked is that of the fifty payments that are listed. *)
Lemma refundPayment_balance_of_given_payments_counterexample :
  (λ p, payments (store fiftyOne) !! Payment.id p) <$> fiftyOne = Some <$> fiftyOne
  ∧ refundableBalance fiftyOne = 51
  ∧ ¬ refundableBalance fiftyOne < 51
  ∧ refundPayment container fiftyOne 51 "reason" None (store fiftyOne)
    = Some (Err (MedusaError NOT_ALLOWED
                   "Refund amount is greater that the refundable amount"),
            store fiftyOne).
Proof.
  split; [by vm_compute|]. split; [by vm_compute|]. split; [by vm_compute|].
  by vm_compute.
Qed.


(** C2, as stated, fails.  A refund of -30 passes the check of either
    call and takes the [amount_refunded] of a payment from 50 down to 20;
    and [refundFromPayment] of 10, handed a copy of the payment from when 20
    were refunded, saves it with 30 refunded over the row that had 50. *)
Lemma refund_decreases_amount_refunded_counterexample :
  refund_invariant (store [half])
  ∧ Payment.amount_refunded <$> payments (store [half]) !! "pay_half" = Some 50
  ∧ Payment.amount_refunded <$>
      payments (exec container (CallRefundFromPayment half (-30) "reason" None)
                  (store [half])) !! "pay_half" = Some 20
  ∧ Payment.amount_refunded <$>
      payments (exec container (CallRefundPayment [half] (-30) "reason" None)
                  (store [half])) !! "pay_half" = Some 20
  ∧ Payment.amount_refunded <$>
      payments (exec container (CallRefundFromPayment stale 10 "reason" None)
                  (store [half])) !! "pay_half" = Some 30
  ∧ ¬ never_decreased (store [half])
        (exec container (CallRefundFromPayment half (-30) "reason" None)
           (store [half])).
Proof.
  split; [apply (bool_decide_unpack _); by vm_compute|].
  split; [by vm_compute|]. split; [by vm_compute|]. split; [by vm_compute|].
  split; [by vm_compute|].
  intros Hnever. destruct (Hnever "pay_half" half) as (p' & Hp' & _ & Hle);
    [by vm_compute|].
  vm_compute in Hp'. injection Hp' as <-. vm_compute in Hle. by apply Hle.
Qed.

Lemma refund_calls_keep_invariant_witness :
  refund_invariant (store [older; newer])
  ∧ payments_by_id (store [older; newer])
  ∧ admissible container
      [CallRefundPayment [older; newer] 150 "reason" None;
       CallRefundFromPayment (payment "pay_older" 100 50 1) 30 "reason" None]
      (store [older; newer])
  ∧ refund_invariant
      (run container
         [CallRefundPayment [older; newer] 150 "reason" None;
          CallRefundFromPayment (payment "pay_older" 100 50 1) 30 "reason" None]
         (store [older; newer]))
  ∧ never_decreased (store [older; newer])
      (run container
         [CallRefundPayment [older; newer] 150 "reason" None;
          CallRefundFromPayment (payment "pay_older" 100 50 1) 30 "reason" None]
         (store [older; newer])).
Proof.
  assert (refund_invariant (store [older; newer])) as Hinv
    by (apply (bool_decide_unpack _); vm_compute; exact I).
  assert (payments_by_id (store [older; newer])) as Hkeys
    by (apply (bool_decide_unpack _); vm_compute; exact I).
  assert (admissible container
      [CallRefundPayment [older; newer] 150 "reason" None;
       CallRefundFromPayment (payment "pay_older" 100 50 1) 30 "reason" None]
      (store [older; newer])) as Hcalls.
  { split; [simpl; lia|]. split; [exact I|].
    split; [simpl; lia|]. split; [vm_compute; reflexivity|exact I]. }
  split; [exact Hinv|]. split; [exact Hkeys|]. split; [exact Hcalls|].
  split.
  - apply (refund_calls_keep_invariant container). exact Hinv.
  - apply (refund_calls_keep_invariant container); [exact Hkeys|exact Hcalls].
Defined.

End Examples_refunds.

Section Examples_sessions.
Import PaymentProviderService Fixtures Scenarios.

Lemma authorizePayment_absent_session_witness :
  payment_sessions (store []) !! PaymentSession.id stripeSession = None
  ∧ authorizePayment container ∅ "order_editing" stripeSession ∅ 7 (store [])
    = (Ok None, store []).
Proof.
  split; [reflexivity|].
  apply (authorizePayment_absent_session container ∅ "order_editing" stripeSession ∅ 7
           (store [])).
  reflexivity.
Defined.


Lemma createSession_saves_pending_session_witness :
  has_session "cart_1" "system" withSession
  ∧ createSession container ∅ "order_editing" (WithCart "system" cart) withSession
    = (Err (QueryFailedError unique_violation), withSession)
  ∧ ¬ has_session "cart_3" "system" withSession
  ∧ ∃ saved σ',
      createSession container ∅ "order_editing"
        (WithCart "system" cartOfKnownCustomer) withSession = (Ok saved, σ')
      ∧ PaymentSession.cart_id saved = Some "cart_3"
      ∧ PaymentSession.status saved = PENDING
      ∧ PaymentSession.is_selected saved = None
      ∧ payment_sessions σ' !! PaymentSession.id saved = Some saved
      ∧ payment_sessions σ' !! "ps_1" = Some session.
Proof.
  assert (has_session "cart_1" "system" withSession) as Hhas
    by (exists "ps_1", session; by split_and!).
  assert (¬ has_session "cart_3" "system" withSession) as Hfree.
  { intros (key & row & Hrow & Hcart & _). simpl in Hrow.
    apply lookup_singleton_Some in Hrow as [_ <-]. discriminate. }
  split; [exact Hhas|]. split.
  { apply (createSession_saves_pending_session container ∅ "order_editing"
             (WithCart "system" cart) system (BareSessionData ∅) () withSession
             withSession eq_refl eq_refl eq_refl eq_refl) with "cart_1";
      [reflexivity|exact Hhas]. }
  split; [exact Hfree|].
  destruct (proj1 (createSession_saves_pending_session container ∅ "order_editing"
              (WithCart "system" cartOfKnownCustomer) system (BareSessionData ∅) ()
              withSession withSession eq_refl eq_refl eq_refl eq_refl))
    as (saved & σ' & Hcall & Hnew & Hrows & _ & _ & _ & Hsaved).
  { intros cart_id [= <-]. exact Hfree. }
  exists saved, σ'. split; [exact Hcall|].
  split; [rewrite Hsaved; reflexivity|]. split; [rewrite Hsaved; reflexivity|].
  split; [rewrite Hsaved; reflexivity|].
  split; [rewrite Hrows; apply lookup_insert_eq|].
  rewrite Hrows, lookup_insert_ne; [reflexivity|].
  intros Hid. rewrite Hid in Hnew. discriminate.
Defined.
End Examples_sessions.

Section Examples_refund_edges.
Import PaymentProviderService Fixtures Scenarios.

Lemma refundPayment_uncaptured_not_refundable_witness :
  Forall (λ p, Payment.captured_at p = None)
    (listPayments (Payment.id <$> [uncaptured]) listPayments_defaultConfig
       (store [uncaptured]))
  ∧ remaining uncaptured = 100
  ∧ refundPayment container [uncaptured] 40 "reason" None (store [uncaptured])
    = Some (Err (MedusaError NOT_ALLOWED
                   "Refund amount is greater that the refundable amount"),
            store [uncaptured]).
Proof.
  assert (Forall (λ p, Payment.captured_at p = None)
            (listPayments (Payment.id <$> [uncaptured]) listPayments_defaultConfig
               (store [uncaptured]))) as Hnone.
  { replace (listPayments _ _ _) with [uncaptured] by (vm_compute; reflexivity).
    repeat constructor. }
  split; [exact Hnone|]. split; [reflexivity|].
  apply (refundPayment_uncaptured_not_refundable container [uncaptured] 40 "reason"
           None (store [uncaptured])); [exact Hnone|lia].
Defined.

Lemma refundPayment_refunds_first_with_remainder_witness :
  payments_by_id (store [older; uncaptured])
  ∧ listPayments (Payment.id <$> [older; uncaptured]) listPayments_defaultConfig
      (store [older; uncaptured]) = [] ++ uncaptured :: [older]
  ∧ Payment.captured_at uncaptured = None
  ∧ ∃ created σ' u',
      refundPayment container [older; uncaptured] 30 "reason" None
        (store [older; uncaptured]) = Some (Ok created, σ')
      ∧ payments σ' !! "pay_uncaptured" = Some u'
      ∧ Payment.amount_refunded u' = 30.
Proof.
  assert (payments_by_id (store [older; uncaptured])) as Hkeys
    by (apply (bool_decide_unpack _); vm_compute; exact I).
  assert (listPayments (Payment.id <$> [older; uncaptured]) listPayments_defaultConfig
            (store [older; uncaptured]) = [] ++ uncaptured :: [older]) as Hlisted
    by (vm_compute; reflexivity).
  split; [exact Hkeys|]. split; [exact Hlisted|]. split; [reflexivity|].
  assert (∃ created σ',
            refundPayment container [older; uncaptured] 30 "reason" None
              (store [older; uncaptured]) = Some (Ok created, σ'))
    as (created & σ' & Hcall)
    by (eexists _, _; vm_compute; reflexivity).
  destruct (refundPayment_refunds_first_with_remainder container [older; uncaptured]
              30 "reason" None (store [older; uncaptured]) σ' created [] [older]
              uncaptured Hkeys Hlisted (Forall_nil_2 _)
              ltac:(vm_compute; reflexivity) Hcall)
    as (u' & Hrow & Hby).
  exists created, σ', u'. split; [exact Hcall|]. split; [exact Hrow|].
  rewrite Hby. reflexivity.
Defined.

Lemma refundPayment_nothing_left_witness :
  Forall (λ q, remaining q ≤ 0)
    (listPayments (Payment.id <$> [older]) listPayments_defaultConfig (store []))
  ∧ ∃ created σ',
      refundPayment container [older] 0 "reason" None (store [])
        = Some (Ok created, σ')
      ∧ Refund.amount created = 0
      ∧ refunds σ' = [created]
      ∧ payments σ' = ∅.
Proof.
  assert (listPayments (Payment.id <$> [older]) listPayments_defaultConfig (store [])
          = []) as Hlisted by (vm_compute; reflexivity).
  split; [rewrite Hlisted; constructor|].
  destruct (refundPayment_nothing_left container [older] 0 "reason" None (store []))
    as (_ & Hcall & Hamount & Hrefunds & Hpayments & _).
  - rewrite Hlisted. constructor.
  - rewrite Hlisted. simpl. lia.
  - eexists _, _. split; [exact Hcall|]. split; [exact Hamount|].
    split; [exact Hrefunds|exact Hpayments].
Defined.

Lemma refundFromPayment_refunds_add_up_witness :
  ∃ created σ1 saved,
    refundFromPayment container older 30 "reason" None (store [older])
      = (Ok created, σ1)
    ∧ payments σ1 !! "pay_older" = Some saved
    ∧ Payment.amount_refunded saved = 30
    ∧ fails_with (refundFromPayment container saved 80 "reason" None σ1).1 NOT_ALLOWED.
Proof.
  assert (∃ created σ1,
            refundFromPayment container older 30 "reason" None (store [older])
              = (Ok created, σ1))
    as (created & σ1 & Hcall)
    by (eexists _, _; vm_compute; reflexivity).
  destruct (refundFromPayment_refunds_add_up container older 30 80 "reason" "reason"
              None None (store [older]) σ1 created Hcall)
    as (saved & Hrow & Hby & Hnot & _).
  exists created, σ1, saved. split; [exact Hcall|]. split; [exact Hrow|].
  split; [rewrite Hby; reflexivity|].
  apply Hnot. vm_compute. reflexivity.
Defined.

Lemma refundPayment_order_of_last_listed_witness :
  ∃ created σ',
    refundPayment container [older; uncaptured] 30 "reason" None
      (store [older; uncaptured]) = Some (Ok created, σ')
    ∧ last (listPayments (Payment.id <$> [older; uncaptured])
              listPayments_defaultConfig (store [older; uncaptured])) = Some older
    ∧ Refund.order_id created = Some "order_1".
Proof.
  assert (∃ created σ',
            refundPayment container [older; uncaptured] 30 "reason" None
              (store [older; uncaptured]) = Some (Ok created, σ'))
    as (created & σ' & Hcall)
    by (eexists _, _; vm_compute; reflexivity).
  destruct (refundPayment_order_of_last_listed container [older; uncaptured] 30
              "reason" None (store [older; uncaptured]) σ' created Hcall)
    as (Horder & _).
  exists created, σ'. split; [exact Hcall|]. split; [vm_compute; reflexivity|].
  rewrite Horder. vm_compute. reflexivity.
Defined.
End Examples_refund_edges.

Section Examples_StripeBase_as_provider.
Import PaymentProviderService Fixtures Scenarios.

Lemma authorizePayment_through_StripeBase_witness :
  payment_sessions withStripe !! PaymentSession.id stripeSession = Some stripeSession
  ∧ retrieveProvider {[ "pp_stripe" := stripe capturedAlready ]}
      (PaymentSession.provider_id stripeSession) = Ok (stripe capturedAlready)
  ∧ ∃ saved σ',
      authorizePayment {[ "pp_stripe" := stripe capturedAlready ]} orderEditing
        "order_editing" stripeSession ∅ 7 withStripe = (Ok (Some saved), σ')
      ∧ payment_sessions σ' !! "ps_1" = Some saved
      ∧ PaymentSession.status saved = AUTHORIZED
      ∧ PaymentSession.payment_authorized_at saved = Some 7
      ∧ PaymentSession.data saved = PaymentSession.data stripeSession.
Proof.
  split; [reflexivity|]. split; [reflexivity|].
  pose proof (authorizePayment_through_StripeBase
                {[ "pp_stripe" := stripe capturedAlready ]} orderEditing
                "order_editing" capturedAlready stripeSession stripeSession ∅ 7
                (stripe capturedAlready) withStripe eq_refl eq_refl eq_refl)
    as Hcall.
  cbn [StripeBase.paymentIntents_retrieve capturedAlready] in Hcall.
  cbv zeta in Hcall.
  destruct Hcall as (saved & σ' & Hcall & Hrows & _ & _ & _ & Hsaved).
  exists saved, σ'. split; [exact Hcall|].
  split; [rewrite Hrows; apply lookup_insert_eq|].
  rewrite Hsaved. by split_and!.
Defined.

Lemma refundFromPayment_through_StripeBase_witness :
  retrieveProvider {[ "pp_stripe" := stripe capturedAlready ]}
    (Payment.provider_id stripePayment) = Ok (stripe capturedAlready)
  ∧ 400 ≤ remaining stripePayment
  ∧ ∃ created σ' refunded,
      refundFromPayment {[ "pp_stripe" := stripe capturedAlready ]} stripePayment 400
        "reason" None (store [stripePayment]) = (Ok created, σ')
      ∧ refunds σ' = [created]
      ∧ Refund.amount created = 400
      ∧ payments σ' !! "pay_1" = Some refunded
      ∧ Payment.amount_refunded refunded = 400
      ∧ Payment.data refunded = Payment.data stripePayment.
Proof.
  split; [reflexivity|]. split; [vm_compute; discriminate|].
  pose proof (refundFromPayment_through_StripeBase
                {[ "pp_stripe" := stripe capturedAlready ]} capturedAlready
                stripePayment 400 "reason" None (stripe capturedAlready)
                (store [stripePayment]) eq_refl eq_refl
                ltac:(vm_compute; discriminate))
    as Hcall.
  cbn [StripeBase.refunds_create capturedAlready] in Hcall.
  destruct Hcall as (created & σ' & Hcall & Hamount & _ & _ & Hrefunds & Hrows & _).
  exists created, σ'. eexists. split; [exact Hcall|]. split; [exact Hrefunds|].
  split; [exact Hamount|].
  split; [rewrite Hrows; apply lookup_insert_eq|]. split; reflexivity.
Defined.
End Examples_StripeBase_as_provider.

Section Examples_upsert.
Import DiscountConditionService Fixtures Scenarios.

Lemma upsertCondition_of_condition_ignores_discount_witness :
  DiscountConditionService.id (products (Some "discon_1")) = Some "discon_1"
  ∧ discounts withDiscount !! "disc_9" = None
  ∧ upsertCondition "23505" "disc_1" (products (Some "discon_1")) withDiscount
    = upsertCondition "23505" "disc_9" (products (Some "discon_1")) withDiscount.
Proof.
  split; [reflexivity|]. split; [reflexivity|].
  apply (upsertCondition_of_condition_ignores_discount "23505" "disc_1" "disc_9"
           "discon_1" (products (Some "discon_1")) withDiscount);
    [reflexivity|discriminate].
Defined.

End Examples_upsert.

Section Examples_sessions_full.
Import PaymentProviderService Fixtures Scenarios.

Lemma deleteSession_absent_session_witness :
  payment_sessions (store []) !! PaymentSession.id stripeSession = None
  ∧ PaymentProviderServiceFull.deleteSession providers stripeSession (store [])
    = (Ok None, store []).
Proof.
  split; [reflexivity|].
  apply (deleteSession_absent_session providers stripeSession (store [])).
  reflexivity.
Defined.

Lemma deleteSession_removes_session_witness :
  payment_sessions withSession !! PaymentSession.id session = Some session
  ∧ PaymentProviderServiceFull.retrieveProvider providers
      (PaymentSession.provider_id session) = Ok systemFull
  ∧ ∃ σ',
      PaymentProviderServiceFull.deleteSession providers session withSession
        = (Ok (Some session), σ')
      ∧ payment_sessions σ' !! "ps_1" = None
      ∧ PaymentProviderServiceFull.deleteSession providers session σ' = (Ok None, σ').
Proof.
  split; [reflexivity|]. split; [reflexivity|].
  pose proof (deleteSession_removes_session providers session session systemFull
                withSession eq_refl eq_refl eq_refl) as Hcall.
  cbn [AbstractPaymentServiceFull.deletePayment systemFull] in Hcall.
  cbv zeta in Hcall. destruct Hcall as [Hcall Hagain].
  eexists. split; [exact Hcall|]. split; [reflexivity|exact Hagain].
Defined.

Lemma refreshSession_replaces_session_witness :
  payment_sessions withSession !! PaymentSession.id session = Some session
  ∧ PaymentSession.is_selected session = Some true
  ∧ ∃ saved σ',
      PaymentProviderServiceFull.refreshSession providers ∅ "order_editing" session
        cart withSession = (Ok saved, σ')
      ∧ payment_sessions σ' !! "ps_1" = None
      ∧ payment_sessions σ' !! PaymentSession.id saved = Some saved
      ∧ PaymentSession.is_selected saved = None
      ∧ PaymentSession.status saved = PENDING
      ∧ PaymentSession.cart_id saved = Some "cart_1".
Proof.
  split; [reflexivity|]. split; [reflexivity|].
  destruct (refreshSession_replaces_session providers ∅ "order_editing" session
              session cart systemFull None (BareSessionData ∅) () ()
              withSession
              (PaymentProviderServiceFull.sessionRepo_remove session withSession)
              eq_refl eq_refl eq_refl eq_refl eq_refl eq_refl)
    as (saved & σ' & Hcall & _ & Hrows & _ & _ & _ & Hsaved).
  { intros key row Hrow Hkey. simpl in Hrow.
    apply lookup_singleton_Some in Hrow as [<- _]. done. }
  exists saved, σ'. split; [exact Hcall|].
  assert (PaymentSession.id saved = "ps_0") as Hid.
  { vm_compute in Hcall. by injection Hcall as <- _. }
  split; [rewrite Hrows, Hid; reflexivity|].
  split; [rewrite Hrows; apply lookup_insert_eq|].
  rewrite Hsaved. by split_and!.
Defined.

Lemma refreshSession_failed_create_keeps_session_witness :
  payment_sessions withSession !! PaymentSession.id session = Some session
  ∧ PaymentProviderServiceFull.refreshSession
      {[ "systemPaymentProviderService" := cannotCreate ]} ∅ "order_editing"
      session cart withSession
    = (Err (FromProvider declined), withSession).
Proof.
  split; [reflexivity|].
  apply (refreshSession_failed_create_keeps_session
           {[ "systemPaymentProviderService" := cannotCreate ]} ∅ "order_editing"
           session session cart cannotCreate None declined () () withSession);
    reflexivity.
Defined.

Lemma refreshSession_absent_session_witness :
  payment_sessions (store []) !! PaymentSession.id session = None
  ∧ PaymentProviderServiceFull.refreshSession providers ∅ "order_editing" session
      cart (store [])
    = (Err (MedusaError NOT_FOUND "Payment Session with ps_1 was not found"),
       store []).
Proof.
  split; [reflexivity|].
  apply (refreshSession_absent_session providers ∅ "order_editing" session cart input
           (store [])).
  reflexivity.
Defined.

Lemma refreshSessionNew_with_amount_keeps_session_witness :
  PaymentSessionInput.amount input = Some 500
  ∧ isFeatureEnabled ∅ "order_editing" = false
  ∧ payment_sessions
      (PaymentProviderServiceFull.refreshSessionNew providers ∅ "order_editing"
         session input withSession).2
    = payment_sessions withSession.
Proof.
  split; [reflexivity|]. split; [reflexivity|].
  apply (refreshSessionNew_with_amount_keeps_session providers ∅ "order_editing"
           session input 500 withSession); reflexivity.
Defined.

Lemma capturePayment_cancelPayment_unknown_payment_witness :
  payments (store [older]) !! "pay_9" = None
  ∧ PaymentProviderServiceFull.cancelPayment providers "pay_9" 7 (store [older])
    = (Err (MedusaError NOT_FOUND "Payment with pay_9 was not found"), store [older]).
Proof.
  split; [reflexivity|].
  apply (capturePayment_cancelPayment_unknown_payment providers "pay_9" 7
           (store [older])).
  reflexivity.
Defined.
End Examples_sessions_full.

Section Examples_StripeBaseFull.
Import PaymentProviderService Fixtures Scenarios.

Lemma cancelPayment_through_StripeBase_witness :
  payments withStripe !! "pay_1" = Some stripePayment
  ∧ PaymentProviderServiceFull.retrieveProvider stripeProviders
      (Payment.provider_id stripePayment) = Ok stripeFull
  ∧ StripeBaseFull.paymentIntents_cancel canceledAlready
      (Payment.data stripePayment !! "id") (world withStripe) = (Err refused, ())
  ∧ ∃ canceled σ',
      PaymentProviderServiceFull.cancelPayment stripeProviders "pay_1" 9 withStripe
        = (Ok canceled, σ')
      ∧ payments σ' !! "pay_1" = Some canceled
      ∧ Payment.canceled_at canceled = Some 9
      ∧ Payment.data canceled = canceledIntent
      ∧ Payment.amount canceled = 1000.
Proof.
  split; [reflexivity|]. split; [reflexivity|]. split; [reflexivity|].
  pose proof (cancelPayment_through_StripeBase manualCapture None canceledAlready
                stripeProviders "pay_1" 9 stripePayment stripeFull withStripe
                eq_refl eq_refl eq_refl) as Hcall.
  cbv zeta in Hcall.
  cbn [StripeBaseFull.paymentIntents_cancel canceledAlready StripeBaseFull.raw refused
       payment_intent] in Hcall.
  rewrite decide_True in Hcall by reflexivity.
  destruct Hcall as (canceled & σ' & Hcall & Hrows & _ & _ & _ & ->).
  eexists _, σ'. split; [exact Hcall|].
  split; [rewrite Hrows; apply lookup_insert_eq|]. by split_and!.
Defined.

Lemma deleteSession_through_StripeBase_witness :
  payment_sessions withStripe !! PaymentSession.id stripeSession = Some stripeSession
  ∧ StripeBaseFull.statusCode refused = Some 400
  ∧ ∃ σ',
      PaymentProviderServiceFull.deleteSession stripeProviders stripeSession withStripe
        = (Ok (Some stripeSession), σ')
      ∧ payment_sessions σ' !! "ps_1" = None.
Proof.
  split; [reflexivity|]. split; [reflexivity|].
  pose proof (deleteSession_through_StripeBase manualCapture None canceledAlready
                stripeProviders stripeSession stripeSession stripeFull withStripe
                eq_refl eq_refl eq_refl) as Hcall.
  cbn [StripeBaseFull.paymentIntents_cancel canceledAlready StripeBaseFull.statusCode
       refused] in Hcall.
  rewrite decide_True in Hcall by reflexivity. cbv zeta in Hcall.
  eexists. split; [exact Hcall|]. reflexivity.
Defined.


Lemma createPayment_reuses_collected_customer_witness :
  StripeBaseFull.truthy
    (PaymentContext.collected_data
       (buildCreatePaymentContext (inl cartOfKnownCustomer)) !! "stripe_id")
    = Some "cus_9"
  ∧ ∃ session_data,
      StripeBaseFull.createPayment manualCapture None canceledAlready
        (buildCreatePaymentContext (inl cartOfKnownCustomer)) ()
      = (Ok (SessionResponse session_data
               (Some {| collected_customer := Some {[ "stripe_id" := "cus_9" ]} |})),
         ()).
Proof.
  split; [reflexivity|].
  assert (∃ paymentResponse,
    StripeBaseFull.createPayment manualCapture None canceledAlready
      (buildCreatePaymentContext (inl cartOfKnownCustomer)) ()
    = (Ok paymentResponse, ())) as (paymentResponse & Hcall)
    by (eexists; vm_compute; reflexivity).
  destruct (proj2 (createPayment_reuses_collected_customer manualCapture None
                     canceledAlready
                     (buildCreatePaymentContext (inl cartOfKnownCustomer))
                     "cus_9" () eq_refl) paymentResponse () Hcall)
    as (session_data & ->).
  exists session_data. exact Hcall.
Defined.

Lemma createPayment_registers_customer_witness :
  StripeBaseFull.truthy
    (PaymentContext.collected_data (buildCreatePaymentContext (inl cart)) !! "stripe_id")
    = None
  ∧ ∃ session_data,
      StripeBaseFull.createPayment manualCapture None canceledAlready
        (buildCreatePaymentContext (inl cart)) ()
      = (Ok (SessionResponse session_data
               (Some {| collected_customer := Some {[ "stripe_id" := "cus_1" ]} |})),
         ()).
Proof.
  split; [reflexivity|].
  assert (∃ paymentResponse,
    StripeBaseFull.createPayment manualCapture None canceledAlready
      (buildCreatePaymentContext (inl cart)) ()
    = (Ok paymentResponse, ())) as (paymentResponse & Hcall)
    by (eexists; vm_compute; reflexivity).
  pose proof (createPayment_registers_customer manualCapture None canceledAlready
                (buildCreatePaymentContext (inl cart)) 1000 "usd" ∅ ()
                eq_refl eq_refl eq_refl eq_refl) as Hcustomer.
  cbn [StripeBaseFull.customers_create canceledAlready] in Hcustomer.
  destruct (Hcustomer paymentResponse () Hcall) as (session_data & ->).
  exists session_data. exact Hcall.
Defined.

Lemma createPayment_request_witness :
  StripeBaseFull.capture manualCapture = false
  ∧ ∃ paymentResponse request w0 session_data,
      StripeBaseFull.createPayment manualCapture
        (Some StripeBaseFull.Giropay_paymentIntentOptions) canceledAlready
        (buildCreatePaymentContext (inl cart)) ()
      = (Ok paymentResponse, ())
      ∧ StripeBaseFull.paymentIntents_create canceledAlready request w0
        = (Ok session_data, ())
      ∧ StripeBaseFull.IntentRequest.capture_method request = "automatic"
      ∧ StripeBaseFull.IntentRequest.payment_method_types request = Some ["giropay"]
      ∧ StripeBaseFull.IntentRequest.amount request = 1000.
Proof.
  split; [reflexivity|].
  assert (∃ paymentResponse,
    StripeBaseFull.createPayment manualCapture
      (Some StripeBaseFull.Giropay_paymentIntentOptions) canceledAlready
      (buildCreatePaymentContext (inl cart)) ()
    = (Ok paymentResponse, ())) as (paymentResponse & Hcall)
    by (eexists; vm_compute; reflexivity).
  destruct (createPayment_request manualCapture
              (Some StripeBaseFull.Giropay_paymentIntentOptions) canceledAlready
              (buildCreatePaymentContext (inl cart)) paymentResponse () () Hcall)
    as (request & w0 & session_data & Hcreate & _ & Hamount & _ & _ & Hcapture & Htypes).
  exists paymentResponse, request, w0, session_data.
  split; [exact Hcall|]. split; [exact Hcreate|]. split; [exact Hcapture|].
  split; [exact Htypes|]. simpl in Hamount. by injection Hamount as <-.
Defined.

Lemma createSessionNew_through_StripeBase_fails_witness :
  PaymentProviderServiceFull.retrieveProvider stripeProviders
    (PaymentSessionInput.provider_id stripeInput) = Ok stripeFull
  ∧ createSessionNew (PaymentProviderServiceFull.container_ stripeProviders)
      orderEditing "order_editing" stripeInput withStripe
    = (Err (FromProvider (ProviderFailure "collected_data is not defined")), withStripe).
Proof.
  split; [reflexivity|].
  apply (createSessionNew_through_StripeBase_fails manualCapture None canceledAlready
           stripeProviders orderEditing "order_editing" stripeInput stripeFull
           withStripe); reflexivity.
Defined.

Lemma getStatus_through_StripeBase_witness :
  PaymentProviderServiceFull.retrieveProvider stripeProviders
    (Payment.provider_id stripePayment) = Ok stripeFull
  ∧ PaymentProviderServiceFull.getStatus stripeProviders stripePayment withStripe
    = (Ok CANCELED, withStripe).
Proof.
  split; [reflexivity|].
  apply (getStatus_through_StripeBase manualCapture None canceledAlready stripeProviders
           stripePayment stripeFull withStripe eq_refl eq_refl).
Defined.
End Examples_StripeBaseFull.

Section Examples_installed_providers.
Import Scenarios.

Lemma registerInstalledProviders_installs_exactly_witness :
  NoDup (filter (λ id, installed !! id = None) ["stripe"; "manual"; "manual"])
  ∧ (InstalledProviders.registerInstalledProviders ["stripe"; "manual"; "manual"]
       installed).2 !! "stripe"
    = Some (PaymentProvider.mk "stripe" true)
  ∧ ¬ NoDup (filter (λ id, installed !! id = None) ["stripe"; "stripe"])
  ∧ InstalledProviders.registerInstalledProviders ["stripe"; "stripe"] installed
    = (Err (QueryFailedError PaymentProviderService.unique_violation), installed).
Proof.
  assert (NoDup (filter (λ id, installed !! id = None) ["stripe"; "manual"; "manual"]))
    as Hnew by (apply (bool_decide_unpack _); vm_compute; exact I).
  assert (¬ NoDup (filter (λ id, installed !! id = None) ["stripe"; "stripe"]))
    as Htwice by (apply (bool_decide_unpack _); vm_compute; exact I).
  split; [exact Hnew|]. split.
  { apply (proj1 (registerInstalledProviders_installs_exactly
                    ["stripe"; "manual"; "manual"] installed) Hnew).
    apply list_elem_of_here. }
  split; [exact Htwice|].
  apply (proj2 (registerInstalledProviders_installs_exactly ["stripe"; "stripe"]
                  installed) Htwice).
Defined.

Lemma list_installed_after_registering_witness :
  map_Forall (λ key provider, PaymentProvider.id provider = key) installed
  ∧ NoDup (filter (λ id, installed !! id = None) ["stripe"])
  ∧ ∃ rows,
      (InstalledProviders.list
         (InstalledProviders.registerInstalledProviders ["stripe"] installed).2).1
        = Ok rows
      ∧ PaymentProvider.mk "stripe" true ∈ rows
      ∧ PaymentProvider.mk "manual" false ∈ rows.
Proof.
  assert (map_Forall (λ key provider, PaymentProvider.id provider = key) installed)
    as Hkeys.
  { intros key provider Hrow. unfold installed in Hrow.
    apply lookup_singleton_Some in Hrow as [<- <-]. reflexivity. }
  assert (NoDup (filter (λ id, installed !! id = None) ["stripe"])) as Hnew
    by (apply (bool_decide_unpack _); vm_compute; exact I).
  split; [exact Hkeys|]. split; [exact Hnew|].
  destruct (list_installed_after_registering ["stripe"] installed Hkeys Hnew)
    as (rows & _ & Hlist & Hin & _).
  exists rows. split; [exact Hlist|]. split; [apply Hin, list_elem_of_here|].
  vm_compute in Hlist. injection Hlist as <-.
  apply list_elem_of_further, list_elem_of_here.
Defined.
End Examples_installed_providers.
